(** * Smart Word Ladder: lexicon, shortest-path search and game engine

    A shallow embedding of

    - [app/core/word_validator.py]  (class [WordValidator]),
    - [app/nlp/path_finder.py]      (class [PathFinder]),
    - [app/models/game.py], [app/models/hint.py], [app/models/move.py],
    - [app/core/game_engine.py]     (class [GameEngine]),
    - [app/utils/word_list.py]      (the checks on word pairs),

    together with the properties of these components that the design
    document of the project states.

    Conventions of the embedding.

    - A Python [str] is the list of its code points: [str := list N].
      An ASCII literal of the source is written as a Rocq string and read
      through the coercion [py].  [len(s)] is [length s], [s[i]] is
      [s !! i], [s[:i]] and [s[i:]] are [take i s] and [drop i s].
    - [str.upper], [str.lower] and [str.strip] are the Unicode operations
      of Python: the full case mappings (one character may become two or
      three, as in the upper case "SS" of U+00DF), the context rule for
      the capital sigma in [lower], and all the white space of Unicode.
      Their data is in the module [Unicode].
    - A Python [set] is a [gset], a [dict] a [gmap], a [list] a [list].
    - Methods that mutate [self] return the new object next to their
      result.  The memo table of [is_valid_word], the path cache of the
      path finder and the fields of a [Game] are threaded this way.
    - [raise ValueError(msg)] is the outcome [Raise (ValueError msg)].
    - Python [float]s are IEEE binary64 numbers: [PrimFloat.float].
    - NLTK's WordNet is outside the repository: the truth value of
      [wordnet.synsets(w)] is a section variable. *)

From Stdlib Require Import String Ascii ZArith NArith List Lia Bool.
From Stdlib Require Import PrimFloat Uint63 DecimalString.
From stdpp Require Import gmap list.

Local Open Scope string_scope.
Local Open Scope list_scope.
Local Open Scope Z_scope.

(** ** Python strings *)

(** A [str]: the sequence of its code points. *)
Abbreviation str := (list N).

(** The [str] of an ASCII literal. *)
Definition py (s : string) : str := map N_of_ascii (list_ascii_of_string s).

Coercion py : string >-> list.

(** ** Unicode data

    The character data behind [str.upper], [str.lower] and [str.strip]:
    the full case mappings of the Unicode Character Database, version
    14.0 (the simple mappings of UnicodeData.txt overridden by the
    unconditional entries of SpecialCasing.txt), the properties Cased and
    Case_Ignorable that decide the form of a lower-case sigma, and the
    white space characters.  The tables list the code points from
    U+0080 on; ASCII is handled by arithmetic in [Py]. *)

Module Unicode.

Local Open Scope N_scope.

Definition to_upper_1 : list (N * list N) :=
  [
   (0xb5, [0x39c]); (0xdf, [0x53; 0x53]); (0xe0, [0xc0]); (0xe1, [0xc1]);
   (0xe2, [0xc2]); (0xe3, [0xc3]); (0xe4, [0xc4]); (0xe5, [0xc5]);
   (0xe6, [0xc6]); (0xe7, [0xc7]); (0xe8, [0xc8]); (0xe9, [0xc9]);
   (0xea, [0xca]); (0xeb, [0xcb]); (0xec, [0xcc]); (0xed, [0xcd]);
   (0xee, [0xce]); (0xef, [0xcf]); (0xf0, [0xd0]); (0xf1, [0xd1]);
   (0xf2, [0xd2]); (0xf3, [0xd3]); (0xf4, [0xd4]); (0xf5, [0xd5]);
   (0xf6, [0xd6]); (0xf8, [0xd8]); (0xf9, [0xd9]); (0xfa, [0xda]);
   (0xfb, [0xdb]); (0xfc, [0xdc]); (0xfd, [0xdd]); (0xfe, [0xde]);
   (0xff, [0x178]); (0x101, [0x100]); (0x103, [0x102]); (0x105, [0x104]);
   (0x107, [0x106]); (0x109, [0x108]); (0x10b, [0x10a]); (0x10d, [0x10c]);
   (0x10f, [0x10e]); (0x111, [0x110]); (0x113, [0x112]); (0x115, [0x114]);
   (0x117, [0x116]); (0x119, [0x118]); (0x11b, [0x11a]); (0x11d, [0x11c]);
   (0x11f, [0x11e]); (0x121, [0x120]); (0x123, [0x122]); (0x125, [0x124]);
   (0x127, [0x126]); (0x129, [0x128]); (0x12b, [0x12a]); (0x12d, [0x12c]);
   (0x12f, [0x12e]); (0x131, [0x49]); (0x133, [0x132]); (0x135, [0x134]);
   (0x137, [0x136]); (0x13a, [0x139]); (0x13c, [0x13b]); (0x13e, [0x13d]);
   (0x140, [0x13f]); (0x142, [0x141]); (0x144, [0x143]); (0x146, [0x145]);
   (0x148, [0x147]); (0x149, [0x2bc; 0x4e]); (0x14b, [0x14a]);
   (0x14d, [0x14c]); (0x14f, [0x14e]); (0x151, [0x150]); (0x153, [0x152]);
   (0x155, [0x154]); (0x157, [0x156]); (0x159, [0x158]); (0x15b, [0x15a]);
   (0x15d, [0x15c]); (0x15f, [0x15e]); (0x161, [0x160]); (0x163, [0x162]);
   (0x165, [0x164]); (0x167, [0x166]); (0x169, [0x168]); (0x16b, [0x16a]);
   (0x16d, [0x16c]); (0x16f, [0x16e]); (0x171, [0x170]); (0x173, [0x172]);
   (0x175, [0x174]); (0x177, [0x176]); (0x17a, [0x179]); (0x17c, [0x17b]);
   (0x17e, [0x17d]); (0x17f, [0x53]); (0x180, [0x243]); (0x183, [0x182]);
   (0x185, [0x184]); (0x188, [0x187]); (0x18c, [0x18b]); (0x192, [0x191]);
   (0x195, [0x1f6]); (0x199, [0x198]); (0x19a, [0x23d]); (0x19e, [0x220]);
   (0x1a1, [0x1a0]); (0x1a3, [0x1a2]); (0x1a5, [0x1a4]); (0x1a8, [0x1a7]);
   (0x1ad, [0x1ac]); (0x1b0, [0x1af]); (0x1b4, [0x1b3]); (0x1b6, [0x1b5]);
   (0x1b9, [0x1b8]); (0x1bd, [0x1bc]); (0x1bf, [0x1f7]); (0x1c5, [0x1c4]);
   (0x1c6, [0x1c4]); (0x1c8, [0x1c7]); (0x1c9, [0x1c7]); (0x1cb, [0x1ca]);
   (0x1cc, [0x1ca]); (0x1ce, [0x1cd]); (0x1d0, [0x1cf]); (0x1d2, [0x1d1]);
   (0x1d4, [0x1d3]); (0x1d6, [0x1d5]); (0x1d8, [0x1d7]); (0x1da, [0x1d9]);
   (0x1dc, [0x1db]); (0x1dd, [0x18e]); (0x1df, [0x1de]); (0x1e1, [0x1e0]);
   (0x1e3, [0x1e2]); (0x1e5, [0x1e4]); (0x1e7, [0x1e6]); (0x1e9, [0x1e8]);
   (0x1eb, [0x1ea]); (0x1ed, [0x1ec]); (0x1ef, [0x1ee]);
   (0x1f0, [0x4a; 0x30c]); (0x1f2, [0x1f1]); (0x1f3, [0x1f1]);
   (0x1f5, [0x1f4]); (0x1f9, [0x1f8]); (0x1fb, [0x1fa]); (0x1fd, [0x1fc]);
   (0x1ff, [0x1fe]); (0x201, [0x200]); (0x203, [0x202]); (0x205, [0x204]);
   (0x207, [0x206]); (0x209, [0x208]); (0x20b, [0x20a]); (0x20d, [0x20c]);
   (0x20f, [0x20e]); (0x211, [0x210]); (0x213, [0x212]); (0x215, [0x214]);
   (0x217, [0x216]); (0x219, [0x218]); (0x21b, [0x21a]); (0x21d, [0x21c]);
   (0x21f, [0x21e]); (0x223, [0x222]); (0x225, [0x224]); (0x227, [0x226]);
   (0x229, [0x228]); (0x22b, [0x22a]); (0x22d, [0x22c]); (0x22f, [0x22e]);
   (0x231, [0x230]); (0x233, [0x232]); (0x23c, [0x23b]); (0x23f, [0x2c7e]);
   (0x240, [0x2c7f]); (0x242, [0x241]); (0x247, [0x246]); (0x249, [0x248]);
   (0x24b, [0x24a]); (0x24d, [0x24c]); (0x24f, [0x24e]); (0x250, [0x2c6f]);
   (0x251, [0x2c6d]); (0x252, [0x2c70]); (0x253, [0x181]); (0x254, [0x186]);
   (0x256, [0x189]); (0x257, [0x18a]); (0x259, [0x18f]); (0x25b, [0x190]);
   (0x25c, [0xa7ab]); (0x260, [0x193]); (0x261, [0xa7ac]); (0x263, [0x194]);
   (0x265, [0xa78d]); (0x266, [0xa7aa]); (0x268, [0x197])
  ].

Definition to_upper_2 : list (N * list N) :=
  [
   (0x269, [0x196]); (0x26a, [0xa7ae]); (0x26b, [0x2c62]); (0x26c, [0xa7ad]);
   (0x26f, [0x19c]); (0x271, [0x2c6e]); (0x272, [0x19d]); (0x275, [0x19f]);
   (0x27d, [0x2c64]); (0x280, [0x1a6]); (0x282, [0xa7c5]); (0x283, [0x1a9]);
   (0x287, [0xa7b1]); (0x288, [0x1ae]); (0x289, [0x244]); (0x28a, [0x1b1]);
   (0x28b, [0x1b2]); (0x28c, [0x245]); (0x292, [0x1b7]); (0x29d, [0xa7b2]);
   (0x29e, [0xa7b0]); (0x345, [0x399]); (0x371, [0x370]); (0x373, [0x372]);
   (0x377, [0x376]); (0x37b, [0x3fd]); (0x37c, [0x3fe]); (0x37d, [0x3ff]);
   (0x390, [0x399; 0x308; 0x301]); (0x3ac, [0x386]); (0x3ad, [0x388]);
   (0x3ae, [0x389]); (0x3af, [0x38a]); (0x3b0, [0x3a5; 0x308; 0x301]);
   (0x3b1, [0x391]); (0x3b2, [0x392]); (0x3b3, [0x393]); (0x3b4, [0x394]);
   (0x3b5, [0x395]); (0x3b6, [0x396]); (0x3b7, [0x397]); (0x3b8, [0x398]);
   (0x3b9, [0x399]); (0x3ba, [0x39a]); (0x3bb, [0x39b]); (0x3bc, [0x39c]);
   (0x3bd, [0x39d]); (0x3be, [0x39e]); (0x3bf, [0x39f]); (0x3c0, [0x3a0]);
   (0x3c1, [0x3a1]); (0x3c2, [0x3a3]); (0x3c3, [0x3a3]); (0x3c4, [0x3a4]);
   (0x3c5, [0x3a5]); (0x3c6, [0x3a6]); (0x3c7, [0x3a7]); (0x3c8, [0x3a8]);
   (0x3c9, [0x3a9]); (0x3ca, [0x3aa]); (0x3cb, [0x3ab]); (0x3cc, [0x38c]);
   (0x3cd, [0x38e]); (0x3ce, [0x38f]); (0x3d0, [0x392]); (0x3d1, [0x398]);
   (0x3d5, [0x3a6]); (0x3d6, [0x3a0]); (0x3d7, [0x3cf]); (0x3d9, [0x3d8]);
   (0x3db, [0x3da]); (0x3dd, [0x3dc]); (0x3df, [0x3de]); (0x3e1, [0x3e0]);
   (0x3e3, [0x3e2]); (0x3e5, [0x3e4]); (0x3e7, [0x3e6]); (0x3e9, [0x3e8]);
   (0x3eb, [0x3ea]); (0x3ed, [0x3ec]); (0x3ef, [0x3ee]); (0x3f0, [0x39a]);
   (0x3f1, [0x3a1]); (0x3f2, [0x3f9]); (0x3f3, [0x37f]); (0x3f5, [0x395]);
   (0x3f8, [0x3f7]); (0x3fb, [0x3fa]); (0x430, [0x410]); (0x431, [0x411]);
   (0x432, [0x412]); (0x433, [0x413]); (0x434, [0x414]); (0x435, [0x415]);
   (0x436, [0x416]); (0x437, [0x417]); (0x438, [0x418]); (0x439, [0x419]);
   (0x43a, [0x41a]); (0x43b, [0x41b]); (0x43c, [0x41c]); (0x43d, [0x41d]);
   (0x43e, [0x41e]); (0x43f, [0x41f]); (0x440, [0x420]); (0x441, [0x421]);
   (0x442, [0x422]); (0x443, [0x423]); (0x444, [0x424]); (0x445, [0x425]);
   (0x446, [0x426]); (0x447, [0x427]); (0x448, [0x428]); (0x449, [0x429]);
   (0x44a, [0x42a]); (0x44b, [0x42b]); (0x44c, [0x42c]); (0x44d, [0x42d]);
   (0x44e, [0x42e]); (0x44f, [0x42f]); (0x450, [0x400]); (0x451, [0x401]);
   (0x452, [0x402]); (0x453, [0x403]); (0x454, [0x404]); (0x455, [0x405]);
   (0x456, [0x406]); (0x457, [0x407]); (0x458, [0x408]); (0x459, [0x409]);
   (0x45a, [0x40a]); (0x45b, [0x40b]); (0x45c, [0x40c]); (0x45d, [0x40d]);
   (0x45e, [0x40e]); (0x45f, [0x40f]); (0x461, [0x460]); (0x463, [0x462]);
   (0x465, [0x464]); (0x467, [0x466]); (0x469, [0x468]); (0x46b, [0x46a]);
   (0x46d, [0x46c]); (0x46f, [0x46e]); (0x471, [0x470]); (0x473, [0x472]);
   (0x475, [0x474]); (0x477, [0x476]); (0x479, [0x478]); (0x47b, [0x47a]);
   (0x47d, [0x47c]); (0x47f, [0x47e]); (0x481, [0x480]); (0x48b, [0x48a]);
   (0x48d, [0x48c]); (0x48f, [0x48e]); (0x491, [0x490]); (0x493, [0x492]);
   (0x495, [0x494]); (0x497, [0x496]); (0x499, [0x498]); (0x49b, [0x49a]);
   (0x49d, [0x49c]); (0x49f, [0x49e]); (0x4a1, [0x4a0]); (0x4a3, [0x4a2]);
   (0x4a5, [0x4a4]); (0x4a7, [0x4a6]); (0x4a9, [0x4a8]); (0x4ab, [0x4aa]);
   (0x4ad, [0x4ac]); (0x4af, [0x4ae]); (0x4b1, [0x4b0]); (0x4b3, [0x4b2]);
   (0x4b5, [0x4b4]); (0x4b7, [0x4b6]); (0x4b9, [0x4b8]); (0x4bb, [0x4ba]);
   (0x4bd, [0x4bc]); (0x4bf, [0x4be]); (0x4c2, [0x4c1]); (0x4c4, [0x4c3]);
   (0x4c6, [0x4c5]); (0x4c8, [0x4c7]); (0x4ca, [0x4c9]); (0x4cc, [0x4cb]);
   (0x4ce, [0x4cd]); (0x4cf, [0x4c0]); (0x4d1, [0x4d0]); (0x4d3, [0x4d2]);
   (0x4d5, [0x4d4]); (0x4d7, [0x4d6]); (0x4d9, [0x4d8]); (0x4db, [0x4da]);
   (0x4dd, [0x4dc]); (0x4df, [0x4de]); (0x4e1, [0x4e0]); (0x4e3, [0x4e2]);
   (0x4e5, [0x4e4]); (0x4e7, [0x4e6])
  ].

Definition to_upper_3 : list (N * list N) :=
  [
   (0x4e9, [0x4e8]); (0x4eb, [0x4ea]); (0x4ed, [0x4ec]); (0x4ef, [0x4ee]);
   (0x4f1, [0x4f0]); (0x4f3, [0x4f2]); (0x4f5, [0x4f4]); (0x4f7, [0x4f6]);
   (0x4f9, [0x4f8]); (0x4fb, [0x4fa]); (0x4fd, [0x4fc]); (0x4ff, [0x4fe]);
   (0x501, [0x500]); (0x503, [0x502]); (0x505, [0x504]); (0x507, [0x506]);
   (0x509, [0x508]); (0x50b, [0x50a]); (0x50d, [0x50c]); (0x50f, [0x50e]);
   (0x511, [0x510]); (0x513, [0x512]); (0x515, [0x514]); (0x517, [0x516]);
   (0x519, [0x518]); (0x51b, [0x51a]); (0x51d, [0x51c]); (0x51f, [0x51e]);
   (0x521, [0x520]); (0x523, [0x522]); (0x525, [0x524]); (0x527, [0x526]);
   (0x529, [0x528]); (0x52b, [0x52a]); (0x52d, [0x52c]); (0x52f, [0x52e]);
   (0x561, [0x531]); (0x562, [0x532]); (0x563, [0x533]); (0x564, [0x534]);
   (0x565, [0x535]); (0x566, [0x536]); (0x567, [0x537]); (0x568, [0x538]);
   (0x569, [0x539]); (0x56a, [0x53a]); (0x56b, [0x53b]); (0x56c, [0x53c]);
   (0x56d, [0x53d]); (0x56e, [0x53e]); (0x56f, [0x53f]); (0x570, [0x540]);
   (0x571, [0x541]); (0x572, [0x542]); (0x573, [0x543]); (0x574, [0x544]);
   (0x575, [0x545]); (0x576, [0x546]); (0x577, [0x547]); (0x578, [0x548]);
   (0x579, [0x549]); (0x57a, [0x54a]); (0x57b, [0x54b]); (0x57c, [0x54c]);
   (0x57d, [0x54d]); (0x57e, [0x54e]); (0x57f, [0x54f]); (0x580, [0x550]);
   (0x581, [0x551]); (0x582, [0x552]); (0x583, [0x553]); (0x584, [0x554]);
   (0x585, [0x555]); (0x586, [0x556]); (0x587, [0x535; 0x552]);
   (0x10d0, [0x1c90]); (0x10d1, [0x1c91]); (0x10d2, [0x1c92]);
   (0x10d3, [0x1c93]); (0x10d4, [0x1c94]); (0x10d5, [0x1c95]);
   (0x10d6, [0x1c96]); (0x10d7, [0x1c97]); (0x10d8, [0x1c98]);
   (0x10d9, [0x1c99]); (0x10da, [0x1c9a]); (0x10db, [0x1c9b]);
   (0x10dc, [0x1c9c]); (0x10dd, [0x1c9d]); (0x10de, [0x1c9e]);
   (0x10df, [0x1c9f]); (0x10e0, [0x1ca0]); (0x10e1, [0x1ca1]);
   (0x10e2, [0x1ca2]); (0x10e3, [0x1ca3]); (0x10e4, [0x1ca4]);
   (0x10e5, [0x1ca5]); (0x10e6, [0x1ca6]); (0x10e7, [0x1ca7]);
   (0x10e8, [0x1ca8]); (0x10e9, [0x1ca9]); (0x10ea, [0x1caa]);
   (0x10eb, [0x1cab]); (0x10ec, [0x1cac]); (0x10ed, [0x1cad]);
   (0x10ee, [0x1cae]); (0x10ef, [0x1caf]); (0x10f0, [0x1cb0]);
   (0x10f1, [0x1cb1]); (0x10f2, [0x1cb2]); (0x10f3, [0x1cb3]);
   (0x10f4, [0x1cb4]); (0x10f5, [0x1cb5]); (0x10f6, [0x1cb6]);
   (0x10f7, [0x1cb7]); (0x10f8, [0x1cb8]); (0x10f9, [0x1cb9]);
   (0x10fa, [0x1cba]); (0x10fd, [0x1cbd]); (0x10fe, [0x1cbe]);
   (0x10ff, [0x1cbf]); (0x13f8, [0x13f0]); (0x13f9, [0x13f1]);
   (0x13fa, [0x13f2]); (0x13fb, [0x13f3]); (0x13fc, [0x13f4]);
   (0x13fd, [0x13f5]); (0x1c80, [0x412]); (0x1c81, [0x414]);
   (0x1c82, [0x41e]); (0x1c83, [0x421]); (0x1c84, [0x422]); (0x1c85, [0x422]);
   (0x1c86, [0x42a]); (0x1c87, [0x462]); (0x1c88, [0xa64a]);
   (0x1d79, [0xa77d]); (0x1d7d, [0x2c63]); (0x1d8e, [0xa7c6]);
   (0x1e01, [0x1e00]); (0x1e03, [0x1e02]); (0x1e05, [0x1e04]);
   (0x1e07, [0x1e06]); (0x1e09, [0x1e08]); (0x1e0b, [0x1e0a]);
   (0x1e0d, [0x1e0c]); (0x1e0f, [0x1e0e]); (0x1e11, [0x1e10]);
   (0x1e13, [0x1e12]); (0x1e15, [0x1e14]); (0x1e17, [0x1e16]);
   (0x1e19, [0x1e18]); (0x1e1b, [0x1e1a]); (0x1e1d, [0x1e1c]);
   (0x1e1f, [0x1e1e]); (0x1e21, [0x1e20]); (0x1e23, [0x1e22]);
   (0x1e25, [0x1e24]); (0x1e27, [0x1e26]); (0x1e29, [0x1e28]);
   (0x1e2b, [0x1e2a]); (0x1e2d, [0x1e2c]); (0x1e2f, [0x1e2e]);
   (0x1e31, [0x1e30]); (0x1e33, [0x1e32]); (0x1e35, [0x1e34]);
   (0x1e37, [0x1e36]); (0x1e39, [0x1e38]); (0x1e3b, [0x1e3a]);
   (0x1e3d, [0x1e3c]); (0x1e3f, [0x1e3e]); (0x1e41, [0x1e40]);
   (0x1e43, [0x1e42]); (0x1e45, [0x1e44]); (0x1e47, [0x1e46]);
   (0x1e49, [0x1e48]); (0x1e4b, [0x1e4a]); (0x1e4d, [0x1e4c]);
   (0x1e4f, [0x1e4e]); (0x1e51, [0x1e50]); (0x1e53, [0x1e52]);
   (0x1e55, [0x1e54]); (0x1e57, [0x1e56]); (0x1e59, [0x1e58]);
   (0x1e5b, [0x1e5a]); (0x1e5d, [0x1e5c]); (0x1e5f, [0x1e5e]);
   (0x1e61, [0x1e60]); (0x1e63, [0x1e62]); (0x1e65, [0x1e64]);
   (0x1e67, [0x1e66]); (0x1e69, [0x1e68]); (0x1e6b, [0x1e6a]);
   (0x1e6d, [0x1e6c]); (0x1e6f, [0x1e6e]); (0x1e71, [0x1e70]);
   (0x1e73, [0x1e72]); (0x1e75, [0x1e74]); (0x1e77, [0x1e76]);
   (0x1e79, [0x1e78])
  ].

Definition to_upper_4 : list (N * list N) :=
  [
   (0x1e7b, [0x1e7a]); (0x1e7d, [0x1e7c]); (0x1e7f, [0x1e7e]);
   (0x1e81, [0x1e80]); (0x1e83, [0x1e82]); (0x1e85, [0x1e84]);
   (0x1e87, [0x1e86]); (0x1e89, [0x1e88]); (0x1e8b, [0x1e8a]);
   (0x1e8d, [0x1e8c]); (0x1e8f, [0x1e8e]); (0x1e91, [0x1e90]);
   (0x1e93, [0x1e92]); (0x1e95, [0x1e94]); (0x1e96, [0x48; 0x331]);
   (0x1e97, [0x54; 0x308]); (0x1e98, [0x57; 0x30a]); (0x1e99, [0x59; 0x30a]);
   (0x1e9a, [0x41; 0x2be]); (0x1e9b, [0x1e60]); (0x1ea1, [0x1ea0]);
   (0x1ea3, [0x1ea2]); (0x1ea5, [0x1ea4]); (0x1ea7, [0x1ea6]);
   (0x1ea9, [0x1ea8]); (0x1eab, [0x1eaa]); (0x1ead, [0x1eac]);
   (0x1eaf, [0x1eae]); (0x1eb1, [0x1eb0]); (0x1eb3, [0x1eb2]);
   (0x1eb5, [0x1eb4]); (0x1eb7, [0x1eb6]); (0x1eb9, [0x1eb8]);
   (0x1ebb, [0x1eba]); (0x1ebd, [0x1ebc]); (0x1ebf, [0x1ebe]);
   (0x1ec1, [0x1ec0]); (0x1ec3, [0x1ec2]); (0x1ec5, [0x1ec4]);
   (0x1ec7, [0x1ec6]); (0x1ec9, [0x1ec8]); (0x1ecb, [0x1eca]);
   (0x1ecd, [0x1ecc]); (0x1ecf, [0x1ece]); (0x1ed1, [0x1ed0]);
   (0x1ed3, [0x1ed2]); (0x1ed5, [0x1ed4]); (0x1ed7, [0x1ed6]);
   (0x1ed9, [0x1ed8]); (0x1edb, [0x1eda]); (0x1edd, [0x1edc]);
   (0x1edf, [0x1ede]); (0x1ee1, [0x1ee0]); (0x1ee3, [0x1ee2]);
   (0x1ee5, [0x1ee4]); (0x1ee7, [0x1ee6]); (0x1ee9, [0x1ee8]);
   (0x1eeb, [0x1eea]); (0x1eed, [0x1eec]); (0x1eef, [0x1eee]);
   (0x1ef1, [0x1ef0]); (0x1ef3, [0x1ef2]); (0x1ef5, [0x1ef4]);
   (0x1ef7, [0x1ef6]); (0x1ef9, [0x1ef8]); (0x1efb, [0x1efa]);
   (0x1efd, [0x1efc]); (0x1eff, [0x1efe]); (0x1f00, [0x1f08]);
   (0x1f01, [0x1f09]); (0x1f02, [0x1f0a]); (0x1f03, [0x1f0b]);
   (0x1f04, [0x1f0c]); (0x1f05, [0x1f0d]); (0x1f06, [0x1f0e]);
   (0x1f07, [0x1f0f]); (0x1f10, [0x1f18]); (0x1f11, [0x1f19]);
   (0x1f12, [0x1f1a]); (0x1f13, [0x1f1b]); (0x1f14, [0x1f1c]);
   (0x1f15, [0x1f1d]); (0x1f20, [0x1f28]); (0x1f21, [0x1f29]);
   (0x1f22, [0x1f2a]); (0x1f23, [0x1f2b]); (0x1f24, [0x1f2c]);
   (0x1f25, [0x1f2d]); (0x1f26, [0x1f2e]); (0x1f27, [0x1f2f]);
   (0x1f30, [0x1f38]); (0x1f31, [0x1f39]); (0x1f32, [0x1f3a]);
   (0x1f33, [0x1f3b]); (0x1f34, [0x1f3c]); (0x1f35, [0x1f3d]);
   (0x1f36, [0x1f3e]); (0x1f37, [0x1f3f]); (0x1f40, [0x1f48]);
   (0x1f41, [0x1f49]); (0x1f42, [0x1f4a]); (0x1f43, [0x1f4b]);
   (0x1f44, [0x1f4c]); (0x1f45, [0x1f4d]); (0x1f50, [0x3a5; 0x313]);
   (0x1f51, [0x1f59]); (0x1f52, [0x3a5; 0x313; 0x300]); (0x1f53, [0x1f5b]);
   (0x1f54, [0x3a5; 0x313; 0x301]); (0x1f55, [0x1f5d]);
   (0x1f56, [0x3a5; 0x313; 0x342]); (0x1f57, [0x1f5f]); (0x1f60, [0x1f68]);
   (0x1f61, [0x1f69]); (0x1f62, [0x1f6a]); (0x1f63, [0x1f6b]);
   (0x1f64, [0x1f6c]); (0x1f65, [0x1f6d]); (0x1f66, [0x1f6e]);
   (0x1f67, [0x1f6f]); (0x1f70, [0x1fba]); (0x1f71, [0x1fbb]);
   (0x1f72, [0x1fc8]); (0x1f73, [0x1fc9]); (0x1f74, [0x1fca]);
   (0x1f75, [0x1fcb]); (0x1f76, [0x1fda]); (0x1f77, [0x1fdb]);
   (0x1f78, [0x1ff8]); (0x1f79, [0x1ff9]); (0x1f7a, [0x1fea]);
   (0x1f7b, [0x1feb]); (0x1f7c, [0x1ffa]); (0x1f7d, [0x1ffb]);
   (0x1f80, [0x1f08; 0x399]); (0x1f81, [0x1f09; 0x399]);
   (0x1f82, [0x1f0a; 0x399]); (0x1f83, [0x1f0b; 0x399]);
   (0x1f84, [0x1f0c; 0x399]); (0x1f85, [0x1f0d; 0x399]);
   (0x1f86, [0x1f0e; 0x399]); (0x1f87, [0x1f0f; 0x399]);
   (0x1f88, [0x1f08; 0x399]); (0x1f89, [0x1f09; 0x399]);
   (0x1f8a, [0x1f0a; 0x399]); (0x1f8b, [0x1f0b; 0x399]);
   (0x1f8c, [0x1f0c; 0x399]); (0x1f8d, [0x1f0d; 0x399]);
   (0x1f8e, [0x1f0e; 0x399]); (0x1f8f, [0x1f0f; 0x399]);
   (0x1f90, [0x1f28; 0x399]); (0x1f91, [0x1f29; 0x399]);
   (0x1f92, [0x1f2a; 0x399]); (0x1f93, [0x1f2b; 0x399]);
   (0x1f94, [0x1f2c; 0x399]); (0x1f95, [0x1f2d; 0x399]);
   (0x1f96, [0x1f2e; 0x399]); (0x1f97, [0x1f2f; 0x399]);
   (0x1f98, [0x1f28; 0x399]); (0x1f99, [0x1f29; 0x399]);
   (0x1f9a, [0x1f2a; 0x399]); (0x1f9b, [0x1f2b; 0x399]);
   (0x1f9c, [0x1f2c; 0x399]); (0x1f9d, [0x1f2d; 0x399]);
   (0x1f9e, [0x1f2e; 0x399]); (0x1f9f, [0x1f2f; 0x399]);
   (0x1fa0, [0x1f68; 0x399]); (0x1fa1, [0x1f69; 0x399]);
   (0x1fa2, [0x1f6a; 0x399]); (0x1fa3, [0x1f6b; 0x399]);
   (0x1fa4, [0x1f6c; 0x399]); (0x1fa5, [0x1f6d; 0x399]);
   (0x1fa6, [0x1f6e; 0x399]); (0x1fa7, [0x1f6f; 0x399]);
   (0x1fa8, [0x1f68; 0x399]); (0x1fa9, [0x1f69; 0x399]);
   (0x1faa, [0x1f6a; 0x399]); (0x1fab, [0x1f6b; 0x399]);
   (0x1fac, [0x1f6c; 0x399]); (0x1fad, [0x1f6d; 0x399]);
   (0x1fae, [0x1f6e; 0x399]); (0x1faf, [0x1f6f; 0x399]); (0x1fb0, [0x1fb8]);
   (0x1fb1, [0x1fb9]); (0x1fb2, [0x1fba; 0x399]); (0x1fb3, [0x391; 0x399]);
   (0x1fb4, [0x386; 0x399]); (0x1fb6, [0x391; 0x342]);
   (0x1fb7, [0x391; 0x342; 0x399]); (0x1fbc, [0x391; 0x399]);
   (0x1fbe, [0x399]); (0x1fc2, [0x1fca; 0x399]); (0x1fc3, [0x397; 0x399]);
   (0x1fc4, [0x389; 0x399]); (0x1fc6, [0x397; 0x342]);
   (0x1fc7, [0x397; 0x342; 0x399]); (0x1fcc, [0x397; 0x399]);
   (0x1fd0, [0x1fd8]); (0x1fd1, [0x1fd9]); (0x1fd2, [0x399; 0x308; 0x300])
  ].

Definition to_upper_5 : list (N * list N) :=
  [
   (0x1fd3, [0x399; 0x308; 0x301]); (0x1fd6, [0x399; 0x342]);
   (0x1fd7, [0x399; 0x308; 0x342]); (0x1fe0, [0x1fe8]); (0x1fe1, [0x1fe9]);
   (0x1fe2, [0x3a5; 0x308; 0x300]); (0x1fe3, [0x3a5; 0x308; 0x301]);
   (0x1fe4, [0x3a1; 0x313]); (0x1fe5, [0x1fec]); (0x1fe6, [0x3a5; 0x342]);
   (0x1fe7, [0x3a5; 0x308; 0x342]); (0x1ff2, [0x1ffa; 0x399]);
   (0x1ff3, [0x3a9; 0x399]); (0x1ff4, [0x38f; 0x399]);
   (0x1ff6, [0x3a9; 0x342]); (0x1ff7, [0x3a9; 0x342; 0x399]);
   (0x1ffc, [0x3a9; 0x399]); (0x214e, [0x2132]); (0x2170, [0x2160]);
   (0x2171, [0x2161]); (0x2172, [0x2162]); (0x2173, [0x2163]);
   (0x2174, [0x2164]); (0x2175, [0x2165]); (0x2176, [0x2166]);
   (0x2177, [0x2167]); (0x2178, [0x2168]); (0x2179, [0x2169]);
   (0x217a, [0x216a]); (0x217b, [0x216b]); (0x217c, [0x216c]);
   (0x217d, [0x216d]); (0x217e, [0x216e]); (0x217f, [0x216f]);
   (0x2184, [0x2183]); (0x24d0, [0x24b6]); (0x24d1, [0x24b7]);
   (0x24d2, [0x24b8]); (0x24d3, [0x24b9]); (0x24d4, [0x24ba]);
   (0x24d5, [0x24bb]); (0x24d6, [0x24bc]); (0x24d7, [0x24bd]);
   (0x24d8, [0x24be]); (0x24d9, [0x24bf]); (0x24da, [0x24c0]);
   (0x24db, [0x24c1]); (0x24dc, [0x24c2]); (0x24dd, [0x24c3]);
   (0x24de, [0x24c4]); (0x24df, [0x24c5]); (0x24e0, [0x24c6]);
   (0x24e1, [0x24c7]); (0x24e2, [0x24c8]); (0x24e3, [0x24c9]);
   (0x24e4, [0x24ca]); (0x24e5, [0x24cb]); (0x24e6, [0x24cc]);
   (0x24e7, [0x24cd]); (0x24e8, [0x24ce]); (0x24e9, [0x24cf]);
   (0x2c30, [0x2c00]); (0x2c31, [0x2c01]); (0x2c32, [0x2c02]);
   (0x2c33, [0x2c03]); (0x2c34, [0x2c04]); (0x2c35, [0x2c05]);
   (0x2c36, [0x2c06]); (0x2c37, [0x2c07]); (0x2c38, [0x2c08]);
   (0x2c39, [0x2c09]); (0x2c3a, [0x2c0a]); (0x2c3b, [0x2c0b]);
   (0x2c3c, [0x2c0c]); (0x2c3d, [0x2c0d]); (0x2c3e, [0x2c0e]);
   (0x2c3f, [0x2c0f]); (0x2c40, [0x2c10]); (0x2c41, [0x2c11]);
   (0x2c42, [0x2c12]); (0x2c43, [0x2c13]); (0x2c44, [0x2c14]);
   (0x2c45, [0x2c15]); (0x2c46, [0x2c16]); (0x2c47, [0x2c17]);
   (0x2c48, [0x2c18]); (0x2c49, [0x2c19]); (0x2c4a, [0x2c1a]);
   (0x2c4b, [0x2c1b]); (0x2c4c, [0x2c1c]); (0x2c4d, [0x2c1d]);
   (0x2c4e, [0x2c1e]); (0x2c4f, [0x2c1f]); (0x2c50, [0x2c20]);
   (0x2c51, [0x2c21]); (0x2c52, [0x2c22]); (0x2c53, [0x2c23]);
   (0x2c54, [0x2c24]); (0x2c55, [0x2c25]); (0x2c56, [0x2c26]);
   (0x2c57, [0x2c27]); (0x2c58, [0x2c28]); (0x2c59, [0x2c29]);
   (0x2c5a, [0x2c2a]); (0x2c5b, [0x2c2b]); (0x2c5c, [0x2c2c]);
   (0x2c5d, [0x2c2d]); (0x2c5e, [0x2c2e]); (0x2c5f, [0x2c2f]);
   (0x2c61, [0x2c60]); (0x2c65, [0x23a]); (0x2c66, [0x23e]);
   (0x2c68, [0x2c67]); (0x2c6a, [0x2c69]); (0x2c6c, [0x2c6b]);
   (0x2c73, [0x2c72]); (0x2c76, [0x2c75]); (0x2c81, [0x2c80]);
   (0x2c83, [0x2c82]); (0x2c85, [0x2c84]); (0x2c87, [0x2c86]);
   (0x2c89, [0x2c88]); (0x2c8b, [0x2c8a]); (0x2c8d, [0x2c8c]);
   (0x2c8f, [0x2c8e]); (0x2c91, [0x2c90]); (0x2c93, [0x2c92]);
   (0x2c95, [0x2c94]); (0x2c97, [0x2c96]); (0x2c99, [0x2c98]);
   (0x2c9b, [0x2c9a]); (0x2c9d, [0x2c9c]); (0x2c9f, [0x2c9e]);
   (0x2ca1, [0x2ca0]); (0x2ca3, [0x2ca2]); (0x2ca5, [0x2ca4]);
   (0x2ca7, [0x2ca6]); (0x2ca9, [0x2ca8]); (0x2cab, [0x2caa]);
   (0x2cad, [0x2cac]); (0x2caf, [0x2cae]); (0x2cb1, [0x2cb0]);
   (0x2cb3, [0x2cb2]); (0x2cb5, [0x2cb4]); (0x2cb7, [0x2cb6]);
   (0x2cb9, [0x2cb8]); (0x2cbb, [0x2cba]); (0x2cbd, [0x2cbc]);
   (0x2cbf, [0x2cbe]); (0x2cc1, [0x2cc0]); (0x2cc3, [0x2cc2]);
   (0x2cc5, [0x2cc4]); (0x2cc7, [0x2cc6]); (0x2cc9, [0x2cc8]);
   (0x2ccb, [0x2cca]); (0x2ccd, [0x2ccc]); (0x2ccf, [0x2cce]);
   (0x2cd1, [0x2cd0]); (0x2cd3, [0x2cd2]); (0x2cd5, [0x2cd4]);
   (0x2cd7, [0x2cd6]); (0x2cd9, [0x2cd8]); (0x2cdb, [0x2cda]);
   (0x2cdd, [0x2cdc]); (0x2cdf, [0x2cde]); (0x2ce1, [0x2ce0]);
   (0x2ce3, [0x2ce2]); (0x2cec, [0x2ceb]); (0x2cee, [0x2ced]);
   (0x2cf3, [0x2cf2]); (0x2d00, [0x10a0]); (0x2d01, [0x10a1]);
   (0x2d02, [0x10a2]); (0x2d03, [0x10a3]); (0x2d04, [0x10a4]);
   (0x2d05, [0x10a5]); (0x2d06, [0x10a6]); (0x2d07, [0x10a7]);
   (0x2d08, [0x10a8]); (0x2d09, [0x10a9]); (0x2d0a, [0x10aa]);
   (0x2d0b, [0x10ab]); (0x2d0c, [0x10ac]); (0x2d0d, [0x10ad]);
   (0x2d0e, [0x10ae]); (0x2d0f, [0x10af]); (0x2d10, [0x10b0]);
   (0x2d11, [0x10b1]); (0x2d12, [0x10b2]); (0x2d13, [0x10b3]);
   (0x2d14, [0x10b4]); (0x2d15, [0x10b5]); (0x2d16, [0x10b6]);
   (0x2d17, [0x10b7]); (0x2d18, [0x10b8]); (0x2d19, [0x10b9]);
   (0x2d1a, [0x10ba]); (0x2d1b, [0x10bb]); (0x2d1c, [0x10bc]);
   (0x2d1d, [0x10bd])
  ].

Definition to_upper_6 : list (N * list N) :=
  [
   (0x2d1e, [0x10be]); (0x2d1f, [0x10bf]); (0x2d20, [0x10c0]);
   (0x2d21, [0x10c1]); (0x2d22, [0x10c2]); (0x2d23, [0x10c3]);
   (0x2d24, [0x10c4]); (0x2d25, [0x10c5]); (0x2d27, [0x10c7]);
   (0x2d2d, [0x10cd]); (0xa641, [0xa640]); (0xa643, [0xa642]);
   (0xa645, [0xa644]); (0xa647, [0xa646]); (0xa649, [0xa648]);
   (0xa64b, [0xa64a]); (0xa64d, [0xa64c]); (0xa64f, [0xa64e]);
   (0xa651, [0xa650]); (0xa653, [0xa652]); (0xa655, [0xa654]);
   (0xa657, [0xa656]); (0xa659, [0xa658]); (0xa65b, [0xa65a]);
   (0xa65d, [0xa65c]); (0xa65f, [0xa65e]); (0xa661, [0xa660]);
   (0xa663, [0xa662]); (0xa665, [0xa664]); (0xa667, [0xa666]);
   (0xa669, [0xa668]); (0xa66b, [0xa66a]); (0xa66d, [0xa66c]);
   (0xa681, [0xa680]); (0xa683, [0xa682]); (0xa685, [0xa684]);
   (0xa687, [0xa686]); (0xa689, [0xa688]); (0xa68b, [0xa68a]);
   (0xa68d, [0xa68c]); (0xa68f, [0xa68e]); (0xa691, [0xa690]);
   (0xa693, [0xa692]); (0xa695, [0xa694]); (0xa697, [0xa696]);
   (0xa699, [0xa698]); (0xa69b, [0xa69a]); (0xa723, [0xa722]);
   (0xa725, [0xa724]); (0xa727, [0xa726]); (0xa729, [0xa728]);
   (0xa72b, [0xa72a]); (0xa72d, [0xa72c]); (0xa72f, [0xa72e]);
   (0xa733, [0xa732]); (0xa735, [0xa734]); (0xa737, [0xa736]);
   (0xa739, [0xa738]); (0xa73b, [0xa73a]); (0xa73d, [0xa73c]);
   (0xa73f, [0xa73e]); (0xa741, [0xa740]); (0xa743, [0xa742]);
   (0xa745, [0xa744]); (0xa747, [0xa746]); (0xa749, [0xa748]);
   (0xa74b, [0xa74a]); (0xa74d, [0xa74c]); (0xa74f, [0xa74e]);
   (0xa751, [0xa750]); (0xa753, [0xa752]); (0xa755, [0xa754]);
   (0xa757, [0xa756]); (0xa759, [0xa758]); (0xa75b, [0xa75a]);
   (0xa75d, [0xa75c]); (0xa75f, [0xa75e]); (0xa761, [0xa760]);
   (0xa763, [0xa762]); (0xa765, [0xa764]); (0xa767, [0xa766]);
   (0xa769, [0xa768]); (0xa76b, [0xa76a]); (0xa76d, [0xa76c]);
   (0xa76f, [0xa76e]); (0xa77a, [0xa779]); (0xa77c, [0xa77b]);
   (0xa77f, [0xa77e]); (0xa781, [0xa780]); (0xa783, [0xa782]);
   (0xa785, [0xa784]); (0xa787, [0xa786]); (0xa78c, [0xa78b]);
   (0xa791, [0xa790]); (0xa793, [0xa792]); (0xa794, [0xa7c4]);
   (0xa797, [0xa796]); (0xa799, [0xa798]); (0xa79b, [0xa79a]);
   (0xa79d, [0xa79c]); (0xa79f, [0xa79e]); (0xa7a1, [0xa7a0]);
   (0xa7a3, [0xa7a2]); (0xa7a5, [0xa7a4]); (0xa7a7, [0xa7a6]);
   (0xa7a9, [0xa7a8]); (0xa7b5, [0xa7b4]); (0xa7b7, [0xa7b6]);
   (0xa7b9, [0xa7b8]); (0xa7bb, [0xa7ba]); (0xa7bd, [0xa7bc]);
   (0xa7bf, [0xa7be]); (0xa7c1, [0xa7c0]); (0xa7c3, [0xa7c2]);
   (0xa7c8, [0xa7c7]); (0xa7ca, [0xa7c9]); (0xa7d1, [0xa7d0]);
   (0xa7d7, [0xa7d6]); (0xa7d9, [0xa7d8]); (0xa7f6, [0xa7f5]);
   (0xab53, [0xa7b3]); (0xab70, [0x13a0]); (0xab71, [0x13a1]);
   (0xab72, [0x13a2]); (0xab73, [0x13a3]); (0xab74, [0x13a4]);
   (0xab75, [0x13a5]); (0xab76, [0x13a6]); (0xab77, [0x13a7]);
   (0xab78, [0x13a8]); (0xab79, [0x13a9]); (0xab7a, [0x13aa]);
   (0xab7b, [0x13ab]); (0xab7c, [0x13ac]); (0xab7d, [0x13ad]);
   (0xab7e, [0x13ae]); (0xab7f, [0x13af]); (0xab80, [0x13b0]);
   (0xab81, [0x13b1]); (0xab82, [0x13b2]); (0xab83, [0x13b3]);
   (0xab84, [0x13b4]); (0xab85, [0x13b5]); (0xab86, [0x13b6]);
   (0xab87, [0x13b7]); (0xab88, [0x13b8]); (0xab89, [0x13b9]);
   (0xab8a, [0x13ba]); (0xab8b, [0x13bb]); (0xab8c, [0x13bc]);
   (0xab8d, [0x13bd]); (0xab8e, [0x13be]); (0xab8f, [0x13bf]);
   (0xab90, [0x13c0]); (0xab91, [0x13c1]); (0xab92, [0x13c2]);
   (0xab93, [0x13c3]); (0xab94, [0x13c4]); (0xab95, [0x13c5]);
   (0xab96, [0x13c6]); (0xab97, [0x13c7]); (0xab98, [0x13c8]);
   (0xab99, [0x13c9]); (0xab9a, [0x13ca]); (0xab9b, [0x13cb]);
   (0xab9c, [0x13cc]); (0xab9d, [0x13cd]); (0xab9e, [0x13ce]);
   (0xab9f, [0x13cf]); (0xaba0, [0x13d0]); (0xaba1, [0x13d1]);
   (0xaba2, [0x13d2]); (0xaba3, [0x13d3]); (0xaba4, [0x13d4]);
   (0xaba5, [0x13d5]); (0xaba6, [0x13d6]); (0xaba7, [0x13d7]);
   (0xaba8, [0x13d8]); (0xaba9, [0x13d9]); (0xabaa, [0x13da]);
   (0xabab, [0x13db]); (0xabac, [0x13dc]); (0xabad, [0x13dd]);
   (0xabae, [0x13de]); (0xabaf, [0x13df]); (0xabb0, [0x13e0]);
   (0xabb1, [0x13e1]); (0xabb2, [0x13e2]); (0xabb3, [0x13e3]);
   (0xabb4, [0x13e4]); (0xabb5, [0x13e5]); (0xabb6, [0x13e6]);
   (0xabb7, [0x13e7]); (0xabb8, [0x13e8]); (0xabb9, [0x13e9]);
   (0xabba, [0x13ea]); (0xabbb, [0x13eb]); (0xabbc, [0x13ec]);
   (0xabbd, [0x13ed]); (0xabbe, [0x13ee])
  ].

Definition to_upper_7 : list (N * list N) :=
  [
   (0xabbf, [0x13ef]); (0xfb00, [0x46; 0x46]); (0xfb01, [0x46; 0x49]);
   (0xfb02, [0x46; 0x4c]); (0xfb03, [0x46; 0x46; 0x49]);
   (0xfb04, [0x46; 0x46; 0x4c]); (0xfb05, [0x53; 0x54]);
   (0xfb06, [0x53; 0x54]); (0xfb13, [0x544; 0x546]); (0xfb14, [0x544; 0x535]);
   (0xfb15, [0x544; 0x53b]); (0xfb16, [0x54e; 0x546]);
   (0xfb17, [0x544; 0x53d]); (0xff41, [0xff21]); (0xff42, [0xff22]);
   (0xff43, [0xff23]); (0xff44, [0xff24]); (0xff45, [0xff25]);
   (0xff46, [0xff26]); (0xff47, [0xff27]); (0xff48, [0xff28]);
   (0xff49, [0xff29]); (0xff4a, [0xff2a]); (0xff4b, [0xff2b]);
   (0xff4c, [0xff2c]); (0xff4d, [0xff2d]); (0xff4e, [0xff2e]);
   (0xff4f, [0xff2f]); (0xff50, [0xff30]); (0xff51, [0xff31]);
   (0xff52, [0xff32]); (0xff53, [0xff33]); (0xff54, [0xff34]);
   (0xff55, [0xff35]); (0xff56, [0xff36]); (0xff57, [0xff37]);
   (0xff58, [0xff38]); (0xff59, [0xff39]); (0xff5a, [0xff3a]);
   (0x10428, [0x10400]); (0x10429, [0x10401]); (0x1042a, [0x10402]);
   (0x1042b, [0x10403]); (0x1042c, [0x10404]); (0x1042d, [0x10405]);
   (0x1042e, [0x10406]); (0x1042f, [0x10407]); (0x10430, [0x10408]);
   (0x10431, [0x10409]); (0x10432, [0x1040a]); (0x10433, [0x1040b]);
   (0x10434, [0x1040c]); (0x10435, [0x1040d]); (0x10436, [0x1040e]);
   (0x10437, [0x1040f]); (0x10438, [0x10410]); (0x10439, [0x10411]);
   (0x1043a, [0x10412]); (0x1043b, [0x10413]); (0x1043c, [0x10414]);
   (0x1043d, [0x10415]); (0x1043e, [0x10416]); (0x1043f, [0x10417]);
   (0x10440, [0x10418]); (0x10441, [0x10419]); (0x10442, [0x1041a]);
   (0x10443, [0x1041b]); (0x10444, [0x1041c]); (0x10445, [0x1041d]);
   (0x10446, [0x1041e]); (0x10447, [0x1041f]); (0x10448, [0x10420]);
   (0x10449, [0x10421]); (0x1044a, [0x10422]); (0x1044b, [0x10423]);
   (0x1044c, [0x10424]); (0x1044d, [0x10425]); (0x1044e, [0x10426]);
   (0x1044f, [0x10427]); (0x104d8, [0x104b0]); (0x104d9, [0x104b1]);
   (0x104da, [0x104b2]); (0x104db, [0x104b3]); (0x104dc, [0x104b4]);
   (0x104dd, [0x104b5]); (0x104de, [0x104b6]); (0x104df, [0x104b7]);
   (0x104e0, [0x104b8]); (0x104e1, [0x104b9]); (0x104e2, [0x104ba]);
   (0x104e3, [0x104bb]); (0x104e4, [0x104bc]); (0x104e5, [0x104bd]);
   (0x104e6, [0x104be]); (0x104e7, [0x104bf]); (0x104e8, [0x104c0]);
   (0x104e9, [0x104c1]); (0x104ea, [0x104c2]); (0x104eb, [0x104c3]);
   (0x104ec, [0x104c4]); (0x104ed, [0x104c5]); (0x104ee, [0x104c6]);
   (0x104ef, [0x104c7]); (0x104f0, [0x104c8]); (0x104f1, [0x104c9]);
   (0x104f2, [0x104ca]); (0x104f3, [0x104cb]); (0x104f4, [0x104cc]);
   (0x104f5, [0x104cd]); (0x104f6, [0x104ce]); (0x104f7, [0x104cf]);
   (0x104f8, [0x104d0]); (0x104f9, [0x104d1]); (0x104fa, [0x104d2]);
   (0x104fb, [0x104d3]); (0x10597, [0x10570]); (0x10598, [0x10571]);
   (0x10599, [0x10572]); (0x1059a, [0x10573]); (0x1059b, [0x10574]);
   (0x1059c, [0x10575]); (0x1059d, [0x10576]); (0x1059e, [0x10577]);
   (0x1059f, [0x10578]); (0x105a0, [0x10579]); (0x105a1, [0x1057a]);
   (0x105a3, [0x1057c]); (0x105a4, [0x1057d]); (0x105a5, [0x1057e]);
   (0x105a6, [0x1057f]); (0x105a7, [0x10580]); (0x105a8, [0x10581]);
   (0x105a9, [0x10582]); (0x105aa, [0x10583]); (0x105ab, [0x10584]);
   (0x105ac, [0x10585]); (0x105ad, [0x10586]); (0x105ae, [0x10587]);
   (0x105af, [0x10588]); (0x105b0, [0x10589]); (0x105b1, [0x1058a]);
   (0x105b3, [0x1058c]); (0x105b4, [0x1058d]); (0x105b5, [0x1058e]);
   (0x105b6, [0x1058f]); (0x105b7, [0x10590]); (0x105b8, [0x10591]);
   (0x105b9, [0x10592]); (0x105bb, [0x10594]); (0x105bc, [0x10595]);
   (0x10cc0, [0x10c80]); (0x10cc1, [0x10c81]); (0x10cc2, [0x10c82]);
   (0x10cc3, [0x10c83]); (0x10cc4, [0x10c84]); (0x10cc5, [0x10c85]);
   (0x10cc6, [0x10c86]); (0x10cc7, [0x10c87]); (0x10cc8, [0x10c88]);
   (0x10cc9, [0x10c89]); (0x10cca, [0x10c8a]); (0x10ccb, [0x10c8b]);
   (0x10ccc, [0x10c8c]); (0x10ccd, [0x10c8d]); (0x10cce, [0x10c8e]);
   (0x10ccf, [0x10c8f]); (0x10cd0, [0x10c90]); (0x10cd1, [0x10c91]);
   (0x10cd2, [0x10c92]); (0x10cd3, [0x10c93]); (0x10cd4, [0x10c94]);
   (0x10cd5, [0x10c95]); (0x10cd6, [0x10c96]); (0x10cd7, [0x10c97]);
   (0x10cd8, [0x10c98]); (0x10cd9, [0x10c99]); (0x10cda, [0x10c9a]);
   (0x10cdb, [0x10c9b]); (0x10cdc, [0x10c9c]); (0x10cdd, [0x10c9d]);
   (0x10cde, [0x10c9e]); (0x10cdf, [0x10c9f]); (0x10ce0, [0x10ca0]);
   (0x10ce1, [0x10ca1]); (0x10ce2, [0x10ca2]); (0x10ce3, [0x10ca3]);
   (0x10ce4, [0x10ca4]); (0x10ce5, [0x10ca5]); (0x10ce6, [0x10ca6]);
   (0x10ce7, [0x10ca7]); (0x10ce8, [0x10ca8]); (0x10ce9, [0x10ca9]);
   (0x10cea, [0x10caa]); (0x10ceb, [0x10cab]); (0x10cec, [0x10cac]);
   (0x10ced, [0x10cad]); (0x10cee, [0x10cae]); (0x10cef, [0x10caf]);
   (0x10cf0, [0x10cb0]); (0x10cf1, [0x10cb1])
  ].

Definition to_upper_8 : list (N * list N) :=
  [
   (0x10cf2, [0x10cb2]); (0x118c0, [0x118a0]); (0x118c1, [0x118a1]);
   (0x118c2, [0x118a2]); (0x118c3, [0x118a3]); (0x118c4, [0x118a4]);
   (0x118c5, [0x118a5]); (0x118c6, [0x118a6]); (0x118c7, [0x118a7]);
   (0x118c8, [0x118a8]); (0x118c9, [0x118a9]); (0x118ca, [0x118aa]);
   (0x118cb, [0x118ab]); (0x118cc, [0x118ac]); (0x118cd, [0x118ad]);
   (0x118ce, [0x118ae]); (0x118cf, [0x118af]); (0x118d0, [0x118b0]);
   (0x118d1, [0x118b1]); (0x118d2, [0x118b2]); (0x118d3, [0x118b3]);
   (0x118d4, [0x118b4]); (0x118d5, [0x118b5]); (0x118d6, [0x118b6]);
   (0x118d7, [0x118b7]); (0x118d8, [0x118b8]); (0x118d9, [0x118b9]);
   (0x118da, [0x118ba]); (0x118db, [0x118bb]); (0x118dc, [0x118bc]);
   (0x118dd, [0x118bd]); (0x118de, [0x118be]); (0x118df, [0x118bf]);
   (0x16e60, [0x16e40]); (0x16e61, [0x16e41]); (0x16e62, [0x16e42]);
   (0x16e63, [0x16e43]); (0x16e64, [0x16e44]); (0x16e65, [0x16e45]);
   (0x16e66, [0x16e46]); (0x16e67, [0x16e47]); (0x16e68, [0x16e48]);
   (0x16e69, [0x16e49]); (0x16e6a, [0x16e4a]); (0x16e6b, [0x16e4b]);
   (0x16e6c, [0x16e4c]); (0x16e6d, [0x16e4d]); (0x16e6e, [0x16e4e]);
   (0x16e6f, [0x16e4f]); (0x16e70, [0x16e50]); (0x16e71, [0x16e51]);
   (0x16e72, [0x16e52]); (0x16e73, [0x16e53]); (0x16e74, [0x16e54]);
   (0x16e75, [0x16e55]); (0x16e76, [0x16e56]); (0x16e77, [0x16e57]);
   (0x16e78, [0x16e58]); (0x16e79, [0x16e59]); (0x16e7a, [0x16e5a]);
   (0x16e7b, [0x16e5b]); (0x16e7c, [0x16e5c]); (0x16e7d, [0x16e5d]);
   (0x16e7e, [0x16e5e]); (0x16e7f, [0x16e5f]); (0x1e922, [0x1e900]);
   (0x1e923, [0x1e901]); (0x1e924, [0x1e902]); (0x1e925, [0x1e903]);
   (0x1e926, [0x1e904]); (0x1e927, [0x1e905]); (0x1e928, [0x1e906]);
   (0x1e929, [0x1e907]); (0x1e92a, [0x1e908]); (0x1e92b, [0x1e909]);
   (0x1e92c, [0x1e90a]); (0x1e92d, [0x1e90b]); (0x1e92e, [0x1e90c]);
   (0x1e92f, [0x1e90d]); (0x1e930, [0x1e90e]); (0x1e931, [0x1e90f]);
   (0x1e932, [0x1e910]); (0x1e933, [0x1e911]); (0x1e934, [0x1e912]);
   (0x1e935, [0x1e913]); (0x1e936, [0x1e914]); (0x1e937, [0x1e915]);
   (0x1e938, [0x1e916]); (0x1e939, [0x1e917]); (0x1e93a, [0x1e918]);
   (0x1e93b, [0x1e919]); (0x1e93c, [0x1e91a]); (0x1e93d, [0x1e91b]);
   (0x1e93e, [0x1e91c]); (0x1e93f, [0x1e91d]); (0x1e940, [0x1e91e]);
   (0x1e941, [0x1e91f]); (0x1e942, [0x1e920]); (0x1e943, [0x1e921])
  ].

(** The code points from U+0080 on whose upper case is not themselves,
    in increasing order, each with its full upper case. *)
Definition to_upper : list (N * list N) :=
  to_upper_1
  ++ to_upper_2
  ++ to_upper_3
  ++ to_upper_4
  ++ to_upper_5
  ++ to_upper_6
  ++ to_upper_7
  ++ to_upper_8.

Definition to_lower_1 : list (N * list N) :=
  [
   (0xc0, [0xe0]); (0xc1, [0xe1]); (0xc2, [0xe2]); (0xc3, [0xe3]);
   (0xc4, [0xe4]); (0xc5, [0xe5]); (0xc6, [0xe6]); (0xc7, [0xe7]);
   (0xc8, [0xe8]); (0xc9, [0xe9]); (0xca, [0xea]); (0xcb, [0xeb]);
   (0xcc, [0xec]); (0xcd, [0xed]); (0xce, [0xee]); (0xcf, [0xef]);
   (0xd0, [0xf0]); (0xd1, [0xf1]); (0xd2, [0xf2]); (0xd3, [0xf3]);
   (0xd4, [0xf4]); (0xd5, [0xf5]); (0xd6, [0xf6]); (0xd8, [0xf8]);
   (0xd9, [0xf9]); (0xda, [0xfa]); (0xdb, [0xfb]); (0xdc, [0xfc]);
   (0xdd, [0xfd]); (0xde, [0xfe]); (0x100, [0x101]); (0x102, [0x103]);
   (0x104, [0x105]); (0x106, [0x107]); (0x108, [0x109]); (0x10a, [0x10b]);
   (0x10c, [0x10d]); (0x10e, [0x10f]); (0x110, [0x111]); (0x112, [0x113]);
   (0x114, [0x115]); (0x116, [0x117]); (0x118, [0x119]); (0x11a, [0x11b]);
   (0x11c, [0x11d]); (0x11e, [0x11f]); (0x120, [0x121]); (0x122, [0x123]);
   (0x124, [0x125]); (0x126, [0x127]); (0x128, [0x129]); (0x12a, [0x12b]);
   (0x12c, [0x12d]); (0x12e, [0x12f]); (0x130, [0x69; 0x307]);
   (0x132, [0x133]); (0x134, [0x135]); (0x136, [0x137]); (0x139, [0x13a]);
   (0x13b, [0x13c]); (0x13d, [0x13e]); (0x13f, [0x140]); (0x141, [0x142]);
   (0x143, [0x144]); (0x145, [0x146]); (0x147, [0x148]); (0x14a, [0x14b]);
   (0x14c, [0x14d]); (0x14e, [0x14f]); (0x150, [0x151]); (0x152, [0x153]);
   (0x154, [0x155]); (0x156, [0x157]); (0x158, [0x159]); (0x15a, [0x15b]);
   (0x15c, [0x15d]); (0x15e, [0x15f]); (0x160, [0x161]); (0x162, [0x163]);
   (0x164, [0x165]); (0x166, [0x167]); (0x168, [0x169]); (0x16a, [0x16b]);
   (0x16c, [0x16d]); (0x16e, [0x16f]); (0x170, [0x171]); (0x172, [0x173]);
   (0x174, [0x175]); (0x176, [0x177]); (0x178, [0xff]); (0x179, [0x17a]);
   (0x17b, [0x17c]); (0x17d, [0x17e]); (0x181, [0x253]); (0x182, [0x183]);
   (0x184, [0x185]); (0x186, [0x254]); (0x187, [0x188]); (0x189, [0x256]);
   (0x18a, [0x257]); (0x18b, [0x18c]); (0x18e, [0x1dd]); (0x18f, [0x259]);
   (0x190, [0x25b]); (0x191, [0x192]); (0x193, [0x260]); (0x194, [0x263]);
   (0x196, [0x269]); (0x197, [0x268]); (0x198, [0x199]); (0x19c, [0x26f]);
   (0x19d, [0x272]); (0x19f, [0x275]); (0x1a0, [0x1a1]); (0x1a2, [0x1a3]);
   (0x1a4, [0x1a5]); (0x1a6, [0x280]); (0x1a7, [0x1a8]); (0x1a9, [0x283]);
   (0x1ac, [0x1ad]); (0x1ae, [0x288]); (0x1af, [0x1b0]); (0x1b1, [0x28a]);
   (0x1b2, [0x28b]); (0x1b3, [0x1b4]); (0x1b5, [0x1b6]); (0x1b7, [0x292]);
   (0x1b8, [0x1b9]); (0x1bc, [0x1bd]); (0x1c4, [0x1c6]); (0x1c5, [0x1c6]);
   (0x1c7, [0x1c9]); (0x1c8, [0x1c9]); (0x1ca, [0x1cc]); (0x1cb, [0x1cc]);
   (0x1cd, [0x1ce]); (0x1cf, [0x1d0]); (0x1d1, [0x1d2]); (0x1d3, [0x1d4]);
   (0x1d5, [0x1d6]); (0x1d7, [0x1d8]); (0x1d9, [0x1da]); (0x1db, [0x1dc]);
   (0x1de, [0x1df]); (0x1e0, [0x1e1]); (0x1e2, [0x1e3]); (0x1e4, [0x1e5]);
   (0x1e6, [0x1e7]); (0x1e8, [0x1e9]); (0x1ea, [0x1eb]); (0x1ec, [0x1ed]);
   (0x1ee, [0x1ef]); (0x1f1, [0x1f3]); (0x1f2, [0x1f3]); (0x1f4, [0x1f5]);
   (0x1f6, [0x195]); (0x1f7, [0x1bf]); (0x1f8, [0x1f9]); (0x1fa, [0x1fb]);
   (0x1fc, [0x1fd]); (0x1fe, [0x1ff]); (0x200, [0x201]); (0x202, [0x203]);
   (0x204, [0x205]); (0x206, [0x207]); (0x208, [0x209]); (0x20a, [0x20b]);
   (0x20c, [0x20d]); (0x20e, [0x20f]); (0x210, [0x211]); (0x212, [0x213]);
   (0x214, [0x215]); (0x216, [0x217]); (0x218, [0x219]); (0x21a, [0x21b]);
   (0x21c, [0x21d]); (0x21e, [0x21f]); (0x220, [0x19e]); (0x222, [0x223]);
   (0x224, [0x225]); (0x226, [0x227]); (0x228, [0x229]); (0x22a, [0x22b]);
   (0x22c, [0x22d]); (0x22e, [0x22f]); (0x230, [0x231]); (0x232, [0x233]);
   (0x23a, [0x2c65]); (0x23b, [0x23c]); (0x23d, [0x19a]); (0x23e, [0x2c66]);
   (0x241, [0x242]); (0x243, [0x180]); (0x244, [0x289]); (0x245, [0x28c]);
   (0x246, [0x247]); (0x248, [0x249]); (0x24a, [0x24b]); (0x24c, [0x24d]);
   (0x24e, [0x24f])
  ].

Definition to_lower_2 : list (N * list N) :=
  [
   (0x370, [0x371]); (0x372, [0x373]); (0x376, [0x377]); (0x37f, [0x3f3]);
   (0x386, [0x3ac]); (0x388, [0x3ad]); (0x389, [0x3ae]); (0x38a, [0x3af]);
   (0x38c, [0x3cc]); (0x38e, [0x3cd]); (0x38f, [0x3ce]); (0x391, [0x3b1]);
   (0x392, [0x3b2]); (0x393, [0x3b3]); (0x394, [0x3b4]); (0x395, [0x3b5]);
   (0x396, [0x3b6]); (0x397, [0x3b7]); (0x398, [0x3b8]); (0x399, [0x3b9]);
   (0x39a, [0x3ba]); (0x39b, [0x3bb]); (0x39c, [0x3bc]); (0x39d, [0x3bd]);
   (0x39e, [0x3be]); (0x39f, [0x3bf]); (0x3a0, [0x3c0]); (0x3a1, [0x3c1]);
   (0x3a4, [0x3c4]); (0x3a5, [0x3c5]); (0x3a6, [0x3c6]); (0x3a7, [0x3c7]);
   (0x3a8, [0x3c8]); (0x3a9, [0x3c9]); (0x3aa, [0x3ca]); (0x3ab, [0x3cb]);
   (0x3cf, [0x3d7]); (0x3d8, [0x3d9]); (0x3da, [0x3db]); (0x3dc, [0x3dd]);
   (0x3de, [0x3df]); (0x3e0, [0x3e1]); (0x3e2, [0x3e3]); (0x3e4, [0x3e5]);
   (0x3e6, [0x3e7]); (0x3e8, [0x3e9]); (0x3ea, [0x3eb]); (0x3ec, [0x3ed]);
   (0x3ee, [0x3ef]); (0x3f4, [0x3b8]); (0x3f7, [0x3f8]); (0x3f9, [0x3f2]);
   (0x3fa, [0x3fb]); (0x3fd, [0x37b]); (0x3fe, [0x37c]); (0x3ff, [0x37d]);
   (0x400, [0x450]); (0x401, [0x451]); (0x402, [0x452]); (0x403, [0x453]);
   (0x404, [0x454]); (0x405, [0x455]); (0x406, [0x456]); (0x407, [0x457]);
   (0x408, [0x458]); (0x409, [0x459]); (0x40a, [0x45a]); (0x40b, [0x45b]);
   (0x40c, [0x45c]); (0x40d, [0x45d]); (0x40e, [0x45e]); (0x40f, [0x45f]);
   (0x410, [0x430]); (0x411, [0x431]); (0x412, [0x432]); (0x413, [0x433]);
   (0x414, [0x434]); (0x415, [0x435]); (0x416, [0x436]); (0x417, [0x437]);
   (0x418, [0x438]); (0x419, [0x439]); (0x41a, [0x43a]); (0x41b, [0x43b]);
   (0x41c, [0x43c]); (0x41d, [0x43d]); (0x41e, [0x43e]); (0x41f, [0x43f]);
   (0x420, [0x440]); (0x421, [0x441]); (0x422, [0x442]); (0x423, [0x443]);
   (0x424, [0x444]); (0x425, [0x445]); (0x426, [0x446]); (0x427, [0x447]);
   (0x428, [0x448]); (0x429, [0x449]); (0x42a, [0x44a]); (0x42b, [0x44b]);
   (0x42c, [0x44c]); (0x42d, [0x44d]); (0x42e, [0x44e]); (0x42f, [0x44f]);
   (0x460, [0x461]); (0x462, [0x463]); (0x464, [0x465]); (0x466, [0x467]);
   (0x468, [0x469]); (0x46a, [0x46b]); (0x46c, [0x46d]); (0x46e, [0x46f]);
   (0x470, [0x471]); (0x472, [0x473]); (0x474, [0x475]); (0x476, [0x477]);
   (0x478, [0x479]); (0x47a, [0x47b]); (0x47c, [0x47d]); (0x47e, [0x47f]);
   (0x480, [0x481]); (0x48a, [0x48b]); (0x48c, [0x48d]); (0x48e, [0x48f]);
   (0x490, [0x491]); (0x492, [0x493]); (0x494, [0x495]); (0x496, [0x497]);
   (0x498, [0x499]); (0x49a, [0x49b]); (0x49c, [0x49d]); (0x49e, [0x49f]);
   (0x4a0, [0x4a1]); (0x4a2, [0x4a3]); (0x4a4, [0x4a5]); (0x4a6, [0x4a7]);
   (0x4a8, [0x4a9]); (0x4aa, [0x4ab]); (0x4ac, [0x4ad]); (0x4ae, [0x4af]);
   (0x4b0, [0x4b1]); (0x4b2, [0x4b3]); (0x4b4, [0x4b5]); (0x4b6, [0x4b7]);
   (0x4b8, [0x4b9]); (0x4ba, [0x4bb]); (0x4bc, [0x4bd]); (0x4be, [0x4bf]);
   (0x4c0, [0x4cf]); (0x4c1, [0x4c2]); (0x4c3, [0x4c4]); (0x4c5, [0x4c6]);
   (0x4c7, [0x4c8]); (0x4c9, [0x4ca]); (0x4cb, [0x4cc]); (0x4cd, [0x4ce]);
   (0x4d0, [0x4d1]); (0x4d2, [0x4d3]); (0x4d4, [0x4d5]); (0x4d6, [0x4d7]);
   (0x4d8, [0x4d9]); (0x4da, [0x4db]); (0x4dc, [0x4dd]); (0x4de, [0x4df]);
   (0x4e0, [0x4e1]); (0x4e2, [0x4e3]); (0x4e4, [0x4e5]); (0x4e6, [0x4e7]);
   (0x4e8, [0x4e9]); (0x4ea, [0x4eb]); (0x4ec, [0x4ed]); (0x4ee, [0x4ef]);
   (0x4f0, [0x4f1]); (0x4f2, [0x4f3]); (0x4f4, [0x4f5]); (0x4f6, [0x4f7]);
   (0x4f8, [0x4f9]); (0x4fa, [0x4fb]); (0x4fc, [0x4fd]); (0x4fe, [0x4ff]);
   (0x500, [0x501]); (0x502, [0x503]); (0x504, [0x505]); (0x506, [0x507]);
   (0x508, [0x509]); (0x50a, [0x50b]); (0x50c, [0x50d]); (0x50e, [0x50f]);
   (0x510, [0x511]); (0x512, [0x513]); (0x514, [0x515]); (0x516, [0x517]);
   (0x518, [0x519]); (0x51a, [0x51b]); (0x51c, [0x51d]); (0x51e, [0x51f]);
   (0x520, [0x521]); (0x522, [0x523]); (0x524, [0x525]); (0x526, [0x527])
  ].

Definition to_lower_3 : list (N * list N) :=
  [
   (0x528, [0x529]); (0x52a, [0x52b]); (0x52c, [0x52d]); (0x52e, [0x52f]);
   (0x531, [0x561]); (0x532, [0x562]); (0x533, [0x563]); (0x534, [0x564]);
   (0x535, [0x565]); (0x536, [0x566]); (0x537, [0x567]); (0x538, [0x568]);
   (0x539, [0x569]); (0x53a, [0x56a]); (0x53b, [0x56b]); (0x53c, [0x56c]);
   (0x53d, [0x56d]); (0x53e, [0x56e]); (0x53f, [0x56f]); (0x540, [0x570]);
   (0x541, [0x571]); (0x542, [0x572]); (0x543, [0x573]); (0x544, [0x574]);
   (0x545, [0x575]); (0x546, [0x576]); (0x547, [0x577]); (0x548, [0x578]);
   (0x549, [0x579]); (0x54a, [0x57a]); (0x54b, [0x57b]); (0x54c, [0x57c]);
   (0x54d, [0x57d]); (0x54e, [0x57e]); (0x54f, [0x57f]); (0x550, [0x580]);
   (0x551, [0x581]); (0x552, [0x582]); (0x553, [0x583]); (0x554, [0x584]);
   (0x555, [0x585]); (0x556, [0x586]); (0x10a0, [0x2d00]); (0x10a1, [0x2d01]);
   (0x10a2, [0x2d02]); (0x10a3, [0x2d03]); (0x10a4, [0x2d04]);
   (0x10a5, [0x2d05]); (0x10a6, [0x2d06]); (0x10a7, [0x2d07]);
   (0x10a8, [0x2d08]); (0x10a9, [0x2d09]); (0x10aa, [0x2d0a]);
   (0x10ab, [0x2d0b]); (0x10ac, [0x2d0c]); (0x10ad, [0x2d0d]);
   (0x10ae, [0x2d0e]); (0x10af, [0x2d0f]); (0x10b0, [0x2d10]);
   (0x10b1, [0x2d11]); (0x10b2, [0x2d12]); (0x10b3, [0x2d13]);
   (0x10b4, [0x2d14]); (0x10b5, [0x2d15]); (0x10b6, [0x2d16]);
   (0x10b7, [0x2d17]); (0x10b8, [0x2d18]); (0x10b9, [0x2d19]);
   (0x10ba, [0x2d1a]); (0x10bb, [0x2d1b]); (0x10bc, [0x2d1c]);
   (0x10bd, [0x2d1d]); (0x10be, [0x2d1e]); (0x10bf, [0x2d1f]);
   (0x10c0, [0x2d20]); (0x10c1, [0x2d21]); (0x10c2, [0x2d22]);
   (0x10c3, [0x2d23]); (0x10c4, [0x2d24]); (0x10c5, [0x2d25]);
   (0x10c7, [0x2d27]); (0x10cd, [0x2d2d]); (0x13a0, [0xab70]);
   (0x13a1, [0xab71]); (0x13a2, [0xab72]); (0x13a3, [0xab73]);
   (0x13a4, [0xab74]); (0x13a5, [0xab75]); (0x13a6, [0xab76]);
   (0x13a7, [0xab77]); (0x13a8, [0xab78]); (0x13a9, [0xab79]);
   (0x13aa, [0xab7a]); (0x13ab, [0xab7b]); (0x13ac, [0xab7c]);
   (0x13ad, [0xab7d]); (0x13ae, [0xab7e]); (0x13af, [0xab7f]);
   (0x13b0, [0xab80]); (0x13b1, [0xab81]); (0x13b2, [0xab82]);
   (0x13b3, [0xab83]); (0x13b4, [0xab84]); (0x13b5, [0xab85]);
   (0x13b6, [0xab86]); (0x13b7, [0xab87]); (0x13b8, [0xab88]);
   (0x13b9, [0xab89]); (0x13ba, [0xab8a]); (0x13bb, [0xab8b]);
   (0x13bc, [0xab8c]); (0x13bd, [0xab8d]); (0x13be, [0xab8e]);
   (0x13bf, [0xab8f]); (0x13c0, [0xab90]); (0x13c1, [0xab91]);
   (0x13c2, [0xab92]); (0x13c3, [0xab93]); (0x13c4, [0xab94]);
   (0x13c5, [0xab95]); (0x13c6, [0xab96]); (0x13c7, [0xab97]);
   (0x13c8, [0xab98]); (0x13c9, [0xab99]); (0x13ca, [0xab9a]);
   (0x13cb, [0xab9b]); (0x13cc, [0xab9c]); (0x13cd, [0xab9d]);
   (0x13ce, [0xab9e]); (0x13cf, [0xab9f]); (0x13d0, [0xaba0]);
   (0x13d1, [0xaba1]); (0x13d2, [0xaba2]); (0x13d3, [0xaba3]);
   (0x13d4, [0xaba4]); (0x13d5, [0xaba5]); (0x13d6, [0xaba6]);
   (0x13d7, [0xaba7]); (0x13d8, [0xaba8]); (0x13d9, [0xaba9]);
   (0x13da, [0xabaa]); (0x13db, [0xabab]); (0x13dc, [0xabac]);
   (0x13dd, [0xabad]); (0x13de, [0xabae]); (0x13df, [0xabaf]);
   (0x13e0, [0xabb0]); (0x13e1, [0xabb1]); (0x13e2, [0xabb2]);
   (0x13e3, [0xabb3]); (0x13e4, [0xabb4]); (0x13e5, [0xabb5]);
   (0x13e6, [0xabb6]); (0x13e7, [0xabb7]); (0x13e8, [0xabb8]);
   (0x13e9, [0xabb9]); (0x13ea, [0xabba]); (0x13eb, [0xabbb]);
   (0x13ec, [0xabbc]); (0x13ed, [0xabbd]); (0x13ee, [0xabbe]);
   (0x13ef, [0xabbf]); (0x13f0, [0x13f8]); (0x13f1, [0x13f9]);
   (0x13f2, [0x13fa]); (0x13f3, [0x13fb]); (0x13f4, [0x13fc]);
   (0x13f5, [0x13fd]); (0x1c90, [0x10d0]); (0x1c91, [0x10d1]);
   (0x1c92, [0x10d2]); (0x1c93, [0x10d3]); (0x1c94, [0x10d4]);
   (0x1c95, [0x10d5]); (0x1c96, [0x10d6]); (0x1c97, [0x10d7]);
   (0x1c98, [0x10d8]); (0x1c99, [0x10d9]); (0x1c9a, [0x10da]);
   (0x1c9b, [0x10db]); (0x1c9c, [0x10dc]); (0x1c9d, [0x10dd]);
   (0x1c9e, [0x10de]); (0x1c9f, [0x10df]); (0x1ca0, [0x10e0]);
   (0x1ca1, [0x10e1]); (0x1ca2, [0x10e2]); (0x1ca3, [0x10e3]);
   (0x1ca4, [0x10e4]); (0x1ca5, [0x10e5]); (0x1ca6, [0x10e6]);
   (0x1ca7, [0x10e7]); (0x1ca8, [0x10e8]); (0x1ca9, [0x10e9]);
   (0x1caa, [0x10ea]); (0x1cab, [0x10eb]); (0x1cac, [0x10ec]);
   (0x1cad, [0x10ed]); (0x1cae, [0x10ee]); (0x1caf, [0x10ef])
  ].

Definition to_lower_4 : list (N * list N) :=
  [
   (0x1cb0, [0x10f0]); (0x1cb1, [0x10f1]); (0x1cb2, [0x10f2]);
   (0x1cb3, [0x10f3]); (0x1cb4, [0x10f4]); (0x1cb5, [0x10f5]);
   (0x1cb6, [0x10f6]); (0x1cb7, [0x10f7]); (0x1cb8, [0x10f8]);
   (0x1cb9, [0x10f9]); (0x1cba, [0x10fa]); (0x1cbd, [0x10fd]);
   (0x1cbe, [0x10fe]); (0x1cbf, [0x10ff]); (0x1e00, [0x1e01]);
   (0x1e02, [0x1e03]); (0x1e04, [0x1e05]); (0x1e06, [0x1e07]);
   (0x1e08, [0x1e09]); (0x1e0a, [0x1e0b]); (0x1e0c, [0x1e0d]);
   (0x1e0e, [0x1e0f]); (0x1e10, [0x1e11]); (0x1e12, [0x1e13]);
   (0x1e14, [0x1e15]); (0x1e16, [0x1e17]); (0x1e18, [0x1e19]);
   (0x1e1a, [0x1e1b]); (0x1e1c, [0x1e1d]); (0x1e1e, [0x1e1f]);
   (0x1e20, [0x1e21]); (0x1e22, [0x1e23]); (0x1e24, [0x1e25]);
   (0x1e26, [0x1e27]); (0x1e28, [0x1e29]); (0x1e2a, [0x1e2b]);
   (0x1e2c, [0x1e2d]); (0x1e2e, [0x1e2f]); (0x1e30, [0x1e31]);
   (0x1e32, [0x1e33]); (0x1e34, [0x1e35]); (0x1e36, [0x1e37]);
   (0x1e38, [0x1e39]); (0x1e3a, [0x1e3b]); (0x1e3c, [0x1e3d]);
   (0x1e3e, [0x1e3f]); (0x1e40, [0x1e41]); (0x1e42, [0x1e43]);
   (0x1e44, [0x1e45]); (0x1e46, [0x1e47]); (0x1e48, [0x1e49]);
   (0x1e4a, [0x1e4b]); (0x1e4c, [0x1e4d]); (0x1e4e, [0x1e4f]);
   (0x1e50, [0x1e51]); (0x1e52, [0x1e53]); (0x1e54, [0x1e55]);
   (0x1e56, [0x1e57]); (0x1e58, [0x1e59]); (0x1e5a, [0x1e5b]);
   (0x1e5c, [0x1e5d]); (0x1e5e, [0x1e5f]); (0x1e60, [0x1e61]);
   (0x1e62, [0x1e63]); (0x1e64, [0x1e65]); (0x1e66, [0x1e67]);
   (0x1e68, [0x1e69]); (0x1e6a, [0x1e6b]); (0x1e6c, [0x1e6d]);
   (0x1e6e, [0x1e6f]); (0x1e70, [0x1e71]); (0x1e72, [0x1e73]);
   (0x1e74, [0x1e75]); (0x1e76, [0x1e77]); (0x1e78, [0x1e79]);
   (0x1e7a, [0x1e7b]); (0x1e7c, [0x1e7d]); (0x1e7e, [0x1e7f]);
   (0x1e80, [0x1e81]); (0x1e82, [0x1e83]); (0x1e84, [0x1e85]);
   (0x1e86, [0x1e87]); (0x1e88, [0x1e89]); (0x1e8a, [0x1e8b]);
   (0x1e8c, [0x1e8d]); (0x1e8e, [0x1e8f]); (0x1e90, [0x1e91]);
   (0x1e92, [0x1e93]); (0x1e94, [0x1e95]); (0x1e9e, [0xdf]);
   (0x1ea0, [0x1ea1]); (0x1ea2, [0x1ea3]); (0x1ea4, [0x1ea5]);
   (0x1ea6, [0x1ea7]); (0x1ea8, [0x1ea9]); (0x1eaa, [0x1eab]);
   (0x1eac, [0x1ead]); (0x1eae, [0x1eaf]); (0x1eb0, [0x1eb1]);
   (0x1eb2, [0x1eb3]); (0x1eb4, [0x1eb5]); (0x1eb6, [0x1eb7]);
   (0x1eb8, [0x1eb9]); (0x1eba, [0x1ebb]); (0x1ebc, [0x1ebd]);
   (0x1ebe, [0x1ebf]); (0x1ec0, [0x1ec1]); (0x1ec2, [0x1ec3]);
   (0x1ec4, [0x1ec5]); (0x1ec6, [0x1ec7]); (0x1ec8, [0x1ec9]);
   (0x1eca, [0x1ecb]); (0x1ecc, [0x1ecd]); (0x1ece, [0x1ecf]);
   (0x1ed0, [0x1ed1]); (0x1ed2, [0x1ed3]); (0x1ed4, [0x1ed5]);
   (0x1ed6, [0x1ed7]); (0x1ed8, [0x1ed9]); (0x1eda, [0x1edb]);
   (0x1edc, [0x1edd]); (0x1ede, [0x1edf]); (0x1ee0, [0x1ee1]);
   (0x1ee2, [0x1ee3]); (0x1ee4, [0x1ee5]); (0x1ee6, [0x1ee7]);
   (0x1ee8, [0x1ee9]); (0x1eea, [0x1eeb]); (0x1eec, [0x1eed]);
   (0x1eee, [0x1eef]); (0x1ef0, [0x1ef1]); (0x1ef2, [0x1ef3]);
   (0x1ef4, [0x1ef5]); (0x1ef6, [0x1ef7]); (0x1ef8, [0x1ef9]);
   (0x1efa, [0x1efb]); (0x1efc, [0x1efd]); (0x1efe, [0x1eff]);
   (0x1f08, [0x1f00]); (0x1f09, [0x1f01]); (0x1f0a, [0x1f02]);
   (0x1f0b, [0x1f03]); (0x1f0c, [0x1f04]); (0x1f0d, [0x1f05]);
   (0x1f0e, [0x1f06]); (0x1f0f, [0x1f07]); (0x1f18, [0x1f10]);
   (0x1f19, [0x1f11]); (0x1f1a, [0x1f12]); (0x1f1b, [0x1f13]);
   (0x1f1c, [0x1f14]); (0x1f1d, [0x1f15]); (0x1f28, [0x1f20]);
   (0x1f29, [0x1f21]); (0x1f2a, [0x1f22]); (0x1f2b, [0x1f23]);
   (0x1f2c, [0x1f24]); (0x1f2d, [0x1f25]); (0x1f2e, [0x1f26]);
   (0x1f2f, [0x1f27]); (0x1f38, [0x1f30]); (0x1f39, [0x1f31]);
   (0x1f3a, [0x1f32]); (0x1f3b, [0x1f33]); (0x1f3c, [0x1f34]);
   (0x1f3d, [0x1f35]); (0x1f3e, [0x1f36]); (0x1f3f, [0x1f37]);
   (0x1f48, [0x1f40]); (0x1f49, [0x1f41]); (0x1f4a, [0x1f42]);
   (0x1f4b, [0x1f43]); (0x1f4c, [0x1f44]); (0x1f4d, [0x1f45]);
   (0x1f59, [0x1f51]); (0x1f5b, [0x1f53]); (0x1f5d, [0x1f55]);
   (0x1f5f, [0x1f57]); (0x1f68, [0x1f60]); (0x1f69, [0x1f61]);
   (0x1f6a, [0x1f62]); (0x1f6b, [0x1f63]); (0x1f6c, [0x1f64]);
   (0x1f6d, [0x1f65]); (0x1f6e, [0x1f66]); (0x1f6f, [0x1f67]);
   (0x1f88, [0x1f80]); (0x1f89, [0x1f81]); (0x1f8a, [0x1f82]);
   (0x1f8b, [0x1f83]); (0x1f8c, [0x1f84]); (0x1f8d, [0x1f85]);
   (0x1f8e, [0x1f86]); (0x1f8f, [0x1f87]); (0x1f98, [0x1f90]);
   (0x1f99, [0x1f91]); (0x1f9a, [0x1f92]); (0x1f9b, [0x1f93]);
   (0x1f9c, [0x1f94]); (0x1f9d, [0x1f95])
  ].

Definition to_lower_5 : list (N * list N) :=
  [
   (0x1f9e, [0x1f96]); (0x1f9f, [0x1f97]); (0x1fa8, [0x1fa0]);
   (0x1fa9, [0x1fa1]); (0x1faa, [0x1fa2]); (0x1fab, [0x1fa3]);
   (0x1fac, [0x1fa4]); (0x1fad, [0x1fa5]); (0x1fae, [0x1fa6]);
   (0x1faf, [0x1fa7]); (0x1fb8, [0x1fb0]); (0x1fb9, [0x1fb1]);
   (0x1fba, [0x1f70]); (0x1fbb, [0x1f71]); (0x1fbc, [0x1fb3]);
   (0x1fc8, [0x1f72]); (0x1fc9, [0x1f73]); (0x1fca, [0x1f74]);
   (0x1fcb, [0x1f75]); (0x1fcc, [0x1fc3]); (0x1fd8, [0x1fd0]);
   (0x1fd9, [0x1fd1]); (0x1fda, [0x1f76]); (0x1fdb, [0x1f77]);
   (0x1fe8, [0x1fe0]); (0x1fe9, [0x1fe1]); (0x1fea, [0x1f7a]);
   (0x1feb, [0x1f7b]); (0x1fec, [0x1fe5]); (0x1ff8, [0x1f78]);
   (0x1ff9, [0x1f79]); (0x1ffa, [0x1f7c]); (0x1ffb, [0x1f7d]);
   (0x1ffc, [0x1ff3]); (0x2126, [0x3c9]); (0x212a, [0x6b]); (0x212b, [0xe5]);
   (0x2132, [0x214e]); (0x2160, [0x2170]); (0x2161, [0x2171]);
   (0x2162, [0x2172]); (0x2163, [0x2173]); (0x2164, [0x2174]);
   (0x2165, [0x2175]); (0x2166, [0x2176]); (0x2167, [0x2177]);
   (0x2168, [0x2178]); (0x2169, [0x2179]); (0x216a, [0x217a]);
   (0x216b, [0x217b]); (0x216c, [0x217c]); (0x216d, [0x217d]);
   (0x216e, [0x217e]); (0x216f, [0x217f]); (0x2183, [0x2184]);
   (0x24b6, [0x24d0]); (0x24b7, [0x24d1]); (0x24b8, [0x24d2]);
   (0x24b9, [0x24d3]); (0x24ba, [0x24d4]); (0x24bb, [0x24d5]);
   (0x24bc, [0x24d6]); (0x24bd, [0x24d7]); (0x24be, [0x24d8]);
   (0x24bf, [0x24d9]); (0x24c0, [0x24da]); (0x24c1, [0x24db]);
   (0x24c2, [0x24dc]); (0x24c3, [0x24dd]); (0x24c4, [0x24de]);
   (0x24c5, [0x24df]); (0x24c6, [0x24e0]); (0x24c7, [0x24e1]);
   (0x24c8, [0x24e2]); (0x24c9, [0x24e3]); (0x24ca, [0x24e4]);
   (0x24cb, [0x24e5]); (0x24cc, [0x24e6]); (0x24cd, [0x24e7]);
   (0x24ce, [0x24e8]); (0x24cf, [0x24e9]); (0x2c00, [0x2c30]);
   (0x2c01, [0x2c31]); (0x2c02, [0x2c32]); (0x2c03, [0x2c33]);
   (0x2c04, [0x2c34]); (0x2c05, [0x2c35]); (0x2c06, [0x2c36]);
   (0x2c07, [0x2c37]); (0x2c08, [0x2c38]); (0x2c09, [0x2c39]);
   (0x2c0a, [0x2c3a]); (0x2c0b, [0x2c3b]); (0x2c0c, [0x2c3c]);
   (0x2c0d, [0x2c3d]); (0x2c0e, [0x2c3e]); (0x2c0f, [0x2c3f]);
   (0x2c10, [0x2c40]); (0x2c11, [0x2c41]); (0x2c12, [0x2c42]);
   (0x2c13, [0x2c43]); (0x2c14, [0x2c44]); (0x2c15, [0x2c45]);
   (0x2c16, [0x2c46]); (0x2c17, [0x2c47]); (0x2c18, [0x2c48]);
   (0x2c19, [0x2c49]); (0x2c1a, [0x2c4a]); (0x2c1b, [0x2c4b]);
   (0x2c1c, [0x2c4c]); (0x2c1d, [0x2c4d]); (0x2c1e, [0x2c4e]);
   (0x2c1f, [0x2c4f]); (0x2c20, [0x2c50]); (0x2c21, [0x2c51]);
   (0x2c22, [0x2c52]); (0x2c23, [0x2c53]); (0x2c24, [0x2c54]);
   (0x2c25, [0x2c55]); (0x2c26, [0x2c56]); (0x2c27, [0x2c57]);
   (0x2c28, [0x2c58]); (0x2c29, [0x2c59]); (0x2c2a, [0x2c5a]);
   (0x2c2b, [0x2c5b]); (0x2c2c, [0x2c5c]); (0x2c2d, [0x2c5d]);
   (0x2c2e, [0x2c5e]); (0x2c2f, [0x2c5f]); (0x2c60, [0x2c61]);
   (0x2c62, [0x26b]); (0x2c63, [0x1d7d]); (0x2c64, [0x27d]);
   (0x2c67, [0x2c68]); (0x2c69, [0x2c6a]); (0x2c6b, [0x2c6c]);
   (0x2c6d, [0x251]); (0x2c6e, [0x271]); (0x2c6f, [0x250]); (0x2c70, [0x252]);
   (0x2c72, [0x2c73]); (0x2c75, [0x2c76]); (0x2c7e, [0x23f]);
   (0x2c7f, [0x240]); (0x2c80, [0x2c81]); (0x2c82, [0x2c83]);
   (0x2c84, [0x2c85]); (0x2c86, [0x2c87]); (0x2c88, [0x2c89]);
   (0x2c8a, [0x2c8b]); (0x2c8c, [0x2c8d]); (0x2c8e, [0x2c8f]);
   (0x2c90, [0x2c91]); (0x2c92, [0x2c93]); (0x2c94, [0x2c95]);
   (0x2c96, [0x2c97]); (0x2c98, [0x2c99]); (0x2c9a, [0x2c9b]);
   (0x2c9c, [0x2c9d]); (0x2c9e, [0x2c9f]); (0x2ca0, [0x2ca1]);
   (0x2ca2, [0x2ca3]); (0x2ca4, [0x2ca5]); (0x2ca6, [0x2ca7]);
   (0x2ca8, [0x2ca9]); (0x2caa, [0x2cab]); (0x2cac, [0x2cad]);
   (0x2cae, [0x2caf]); (0x2cb0, [0x2cb1]); (0x2cb2, [0x2cb3]);
   (0x2cb4, [0x2cb5]); (0x2cb6, [0x2cb7]); (0x2cb8, [0x2cb9]);
   (0x2cba, [0x2cbb]); (0x2cbc, [0x2cbd]); (0x2cbe, [0x2cbf]);
   (0x2cc0, [0x2cc1]); (0x2cc2, [0x2cc3]); (0x2cc4, [0x2cc5]);
   (0x2cc6, [0x2cc7]); (0x2cc8, [0x2cc9]); (0x2cca, [0x2ccb]);
   (0x2ccc, [0x2ccd]); (0x2cce, [0x2ccf]); (0x2cd0, [0x2cd1]);
   (0x2cd2, [0x2cd3]); (0x2cd4, [0x2cd5]); (0x2cd6, [0x2cd7]);
   (0x2cd8, [0x2cd9]); (0x2cda, [0x2cdb]); (0x2cdc, [0x2cdd]);
   (0x2cde, [0x2cdf]); (0x2ce0, [0x2ce1]); (0x2ce2, [0x2ce3]);
   (0x2ceb, [0x2cec]); (0x2ced, [0x2cee]); (0x2cf2, [0x2cf3]);
   (0xa640, [0xa641]); (0xa642, [0xa643]); (0xa644, [0xa645])
  ].

Definition to_lower_6 : list (N * list N) :=
  [
   (0xa646, [0xa647]); (0xa648, [0xa649]); (0xa64a, [0xa64b]);
   (0xa64c, [0xa64d]); (0xa64e, [0xa64f]); (0xa650, [0xa651]);
   (0xa652, [0xa653]); (0xa654, [0xa655]); (0xa656, [0xa657]);
   (0xa658, [0xa659]); (0xa65a, [0xa65b]); (0xa65c, [0xa65d]);
   (0xa65e, [0xa65f]); (0xa660, [0xa661]); (0xa662, [0xa663]);
   (0xa664, [0xa665]); (0xa666, [0xa667]); (0xa668, [0xa669]);
   (0xa66a, [0xa66b]); (0xa66c, [0xa66d]); (0xa680, [0xa681]);
   (0xa682, [0xa683]); (0xa684, [0xa685]); (0xa686, [0xa687]);
   (0xa688, [0xa689]); (0xa68a, [0xa68b]); (0xa68c, [0xa68d]);
   (0xa68e, [0xa68f]); (0xa690, [0xa691]); (0xa692, [0xa693]);
   (0xa694, [0xa695]); (0xa696, [0xa697]); (0xa698, [0xa699]);
   (0xa69a, [0xa69b]); (0xa722, [0xa723]); (0xa724, [0xa725]);
   (0xa726, [0xa727]); (0xa728, [0xa729]); (0xa72a, [0xa72b]);
   (0xa72c, [0xa72d]); (0xa72e, [0xa72f]); (0xa732, [0xa733]);
   (0xa734, [0xa735]); (0xa736, [0xa737]); (0xa738, [0xa739]);
   (0xa73a, [0xa73b]); (0xa73c, [0xa73d]); (0xa73e, [0xa73f]);
   (0xa740, [0xa741]); (0xa742, [0xa743]); (0xa744, [0xa745]);
   (0xa746, [0xa747]); (0xa748, [0xa749]); (0xa74a, [0xa74b]);
   (0xa74c, [0xa74d]); (0xa74e, [0xa74f]); (0xa750, [0xa751]);
   (0xa752, [0xa753]); (0xa754, [0xa755]); (0xa756, [0xa757]);
   (0xa758, [0xa759]); (0xa75a, [0xa75b]); (0xa75c, [0xa75d]);
   (0xa75e, [0xa75f]); (0xa760, [0xa761]); (0xa762, [0xa763]);
   (0xa764, [0xa765]); (0xa766, [0xa767]); (0xa768, [0xa769]);
   (0xa76a, [0xa76b]); (0xa76c, [0xa76d]); (0xa76e, [0xa76f]);
   (0xa779, [0xa77a]); (0xa77b, [0xa77c]); (0xa77d, [0x1d79]);
   (0xa77e, [0xa77f]); (0xa780, [0xa781]); (0xa782, [0xa783]);
   (0xa784, [0xa785]); (0xa786, [0xa787]); (0xa78b, [0xa78c]);
   (0xa78d, [0x265]); (0xa790, [0xa791]); (0xa792, [0xa793]);
   (0xa796, [0xa797]); (0xa798, [0xa799]); (0xa79a, [0xa79b]);
   (0xa79c, [0xa79d]); (0xa79e, [0xa79f]); (0xa7a0, [0xa7a1]);
   (0xa7a2, [0xa7a3]); (0xa7a4, [0xa7a5]); (0xa7a6, [0xa7a7]);
   (0xa7a8, [0xa7a9]); (0xa7aa, [0x266]); (0xa7ab, [0x25c]);
   (0xa7ac, [0x261]); (0xa7ad, [0x26c]); (0xa7ae, [0x26a]); (0xa7b0, [0x29e]);
   (0xa7b1, [0x287]); (0xa7b2, [0x29d]); (0xa7b3, [0xab53]);
   (0xa7b4, [0xa7b5]); (0xa7b6, [0xa7b7]); (0xa7b8, [0xa7b9]);
   (0xa7ba, [0xa7bb]); (0xa7bc, [0xa7bd]); (0xa7be, [0xa7bf]);
   (0xa7c0, [0xa7c1]); (0xa7c2, [0xa7c3]); (0xa7c4, [0xa794]);
   (0xa7c5, [0x282]); (0xa7c6, [0x1d8e]); (0xa7c7, [0xa7c8]);
   (0xa7c9, [0xa7ca]); (0xa7d0, [0xa7d1]); (0xa7d6, [0xa7d7]);
   (0xa7d8, [0xa7d9]); (0xa7f5, [0xa7f6]); (0xff21, [0xff41]);
   (0xff22, [0xff42]); (0xff23, [0xff43]); (0xff24, [0xff44]);
   (0xff25, [0xff45]); (0xff26, [0xff46]); (0xff27, [0xff47]);
   (0xff28, [0xff48]); (0xff29, [0xff49]); (0xff2a, [0xff4a]);
   (0xff2b, [0xff4b]); (0xff2c, [0xff4c]); (0xff2d, [0xff4d]);
   (0xff2e, [0xff4e]); (0xff2f, [0xff4f]); (0xff30, [0xff50]);
   (0xff31, [0xff51]); (0xff32, [0xff52]); (0xff33, [0xff53]);
   (0xff34, [0xff54]); (0xff35, [0xff55]); (0xff36, [0xff56]);
   (0xff37, [0xff57]); (0xff38, [0xff58]); (0xff39, [0xff59]);
   (0xff3a, [0xff5a]); (0x10400, [0x10428]); (0x10401, [0x10429]);
   (0x10402, [0x1042a]); (0x10403, [0x1042b]); (0x10404, [0x1042c]);
   (0x10405, [0x1042d]); (0x10406, [0x1042e]); (0x10407, [0x1042f]);
   (0x10408, [0x10430]); (0x10409, [0x10431]); (0x1040a, [0x10432]);
   (0x1040b, [0x10433]); (0x1040c, [0x10434]); (0x1040d, [0x10435]);
   (0x1040e, [0x10436]); (0x1040f, [0x10437]); (0x10410, [0x10438]);
   (0x10411, [0x10439]); (0x10412, [0x1043a]); (0x10413, [0x1043b]);
   (0x10414, [0x1043c]); (0x10415, [0x1043d]); (0x10416, [0x1043e]);
   (0x10417, [0x1043f]); (0x10418, [0x10440]); (0x10419, [0x10441]);
   (0x1041a, [0x10442]); (0x1041b, [0x10443]); (0x1041c, [0x10444]);
   (0x1041d, [0x10445]); (0x1041e, [0x10446]); (0x1041f, [0x10447]);
   (0x10420, [0x10448]); (0x10421, [0x10449]); (0x10422, [0x1044a]);
   (0x10423, [0x1044b]); (0x10424, [0x1044c]); (0x10425, [0x1044d]);
   (0x10426, [0x1044e]); (0x10427, [0x1044f]); (0x104b0, [0x104d8]);
   (0x104b1, [0x104d9]); (0x104b2, [0x104da]); (0x104b3, [0x104db]);
   (0x104b4, [0x104dc]); (0x104b5, [0x104dd]); (0x104b6, [0x104de]);
   (0x104b7, [0x104df]); (0x104b8, [0x104e0]); (0x104b9, [0x104e1]);
   (0x104ba, [0x104e2]); (0x104bb, [0x104e3]); (0x104bc, [0x104e4]);
   (0x104bd, [0x104e5])
  ].

Definition to_lower_7 : list (N * list N) :=
  [
   (0x104be, [0x104e6]); (0x104bf, [0x104e7]); (0x104c0, [0x104e8]);
   (0x104c1, [0x104e9]); (0x104c2, [0x104ea]); (0x104c3, [0x104eb]);
   (0x104c4, [0x104ec]); (0x104c5, [0x104ed]); (0x104c6, [0x104ee]);
   (0x104c7, [0x104ef]); (0x104c8, [0x104f0]); (0x104c9, [0x104f1]);
   (0x104ca, [0x104f2]); (0x104cb, [0x104f3]); (0x104cc, [0x104f4]);
   (0x104cd, [0x104f5]); (0x104ce, [0x104f6]); (0x104cf, [0x104f7]);
   (0x104d0, [0x104f8]); (0x104d1, [0x104f9]); (0x104d2, [0x104fa]);
   (0x104d3, [0x104fb]); (0x10570, [0x10597]); (0x10571, [0x10598]);
   (0x10572, [0x10599]); (0x10573, [0x1059a]); (0x10574, [0x1059b]);
   (0x10575, [0x1059c]); (0x10576, [0x1059d]); (0x10577, [0x1059e]);
   (0x10578, [0x1059f]); (0x10579, [0x105a0]); (0x1057a, [0x105a1]);
   (0x1057c, [0x105a3]); (0x1057d, [0x105a4]); (0x1057e, [0x105a5]);
   (0x1057f, [0x105a6]); (0x10580, [0x105a7]); (0x10581, [0x105a8]);
   (0x10582, [0x105a9]); (0x10583, [0x105aa]); (0x10584, [0x105ab]);
   (0x10585, [0x105ac]); (0x10586, [0x105ad]); (0x10587, [0x105ae]);
   (0x10588, [0x105af]); (0x10589, [0x105b0]); (0x1058a, [0x105b1]);
   (0x1058c, [0x105b3]); (0x1058d, [0x105b4]); (0x1058e, [0x105b5]);
   (0x1058f, [0x105b6]); (0x10590, [0x105b7]); (0x10591, [0x105b8]);
   (0x10592, [0x105b9]); (0x10594, [0x105bb]); (0x10595, [0x105bc]);
   (0x10c80, [0x10cc0]); (0x10c81, [0x10cc1]); (0x10c82, [0x10cc2]);
   (0x10c83, [0x10cc3]); (0x10c84, [0x10cc4]); (0x10c85, [0x10cc5]);
   (0x10c86, [0x10cc6]); (0x10c87, [0x10cc7]); (0x10c88, [0x10cc8]);
   (0x10c89, [0x10cc9]); (0x10c8a, [0x10cca]); (0x10c8b, [0x10ccb]);
   (0x10c8c, [0x10ccc]); (0x10c8d, [0x10ccd]); (0x10c8e, [0x10cce]);
   (0x10c8f, [0x10ccf]); (0x10c90, [0x10cd0]); (0x10c91, [0x10cd1]);
   (0x10c92, [0x10cd2]); (0x10c93, [0x10cd3]); (0x10c94, [0x10cd4]);
   (0x10c95, [0x10cd5]); (0x10c96, [0x10cd6]); (0x10c97, [0x10cd7]);
   (0x10c98, [0x10cd8]); (0x10c99, [0x10cd9]); (0x10c9a, [0x10cda]);
   (0x10c9b, [0x10cdb]); (0x10c9c, [0x10cdc]); (0x10c9d, [0x10cdd]);
   (0x10c9e, [0x10cde]); (0x10c9f, [0x10cdf]); (0x10ca0, [0x10ce0]);
   (0x10ca1, [0x10ce1]); (0x10ca2, [0x10ce2]); (0x10ca3, [0x10ce3]);
   (0x10ca4, [0x10ce4]); (0x10ca5, [0x10ce5]); (0x10ca6, [0x10ce6]);
   (0x10ca7, [0x10ce7]); (0x10ca8, [0x10ce8]); (0x10ca9, [0x10ce9]);
   (0x10caa, [0x10cea]); (0x10cab, [0x10ceb]); (0x10cac, [0x10cec]);
   (0x10cad, [0x10ced]); (0x10cae, [0x10cee]); (0x10caf, [0x10cef]);
   (0x10cb0, [0x10cf0]); (0x10cb1, [0x10cf1]); (0x10cb2, [0x10cf2]);
   (0x118a0, [0x118c0]); (0x118a1, [0x118c1]); (0x118a2, [0x118c2]);
   (0x118a3, [0x118c3]); (0x118a4, [0x118c4]); (0x118a5, [0x118c5]);
   (0x118a6, [0x118c6]); (0x118a7, [0x118c7]); (0x118a8, [0x118c8]);
   (0x118a9, [0x118c9]); (0x118aa, [0x118ca]); (0x118ab, [0x118cb]);
   (0x118ac, [0x118cc]); (0x118ad, [0x118cd]); (0x118ae, [0x118ce]);
   (0x118af, [0x118cf]); (0x118b0, [0x118d0]); (0x118b1, [0x118d1]);
   (0x118b2, [0x118d2]); (0x118b3, [0x118d3]); (0x118b4, [0x118d4]);
   (0x118b5, [0x118d5]); (0x118b6, [0x118d6]); (0x118b7, [0x118d7]);
   (0x118b8, [0x118d8]); (0x118b9, [0x118d9]); (0x118ba, [0x118da]);
   (0x118bb, [0x118db]); (0x118bc, [0x118dc]); (0x118bd, [0x118dd]);
   (0x118be, [0x118de]); (0x118bf, [0x118df]); (0x16e40, [0x16e60]);
   (0x16e41, [0x16e61]); (0x16e42, [0x16e62]); (0x16e43, [0x16e63]);
   (0x16e44, [0x16e64]); (0x16e45, [0x16e65]); (0x16e46, [0x16e66]);
   (0x16e47, [0x16e67]); (0x16e48, [0x16e68]); (0x16e49, [0x16e69]);
   (0x16e4a, [0x16e6a]); (0x16e4b, [0x16e6b]); (0x16e4c, [0x16e6c]);
   (0x16e4d, [0x16e6d]); (0x16e4e, [0x16e6e]); (0x16e4f, [0x16e6f]);
   (0x16e50, [0x16e70]); (0x16e51, [0x16e71]); (0x16e52, [0x16e72]);
   (0x16e53, [0x16e73]); (0x16e54, [0x16e74]); (0x16e55, [0x16e75]);
   (0x16e56, [0x16e76]); (0x16e57, [0x16e77]); (0x16e58, [0x16e78]);
   (0x16e59, [0x16e79]); (0x16e5a, [0x16e7a]); (0x16e5b, [0x16e7b]);
   (0x16e5c, [0x16e7c]); (0x16e5d, [0x16e7d]); (0x16e5e, [0x16e7e]);
   (0x16e5f, [0x16e7f]); (0x1e900, [0x1e922]); (0x1e901, [0x1e923]);
   (0x1e902, [0x1e924]); (0x1e903, [0x1e925]); (0x1e904, [0x1e926]);
   (0x1e905, [0x1e927]); (0x1e906, [0x1e928]); (0x1e907, [0x1e929]);
   (0x1e908, [0x1e92a]); (0x1e909, [0x1e92b]); (0x1e90a, [0x1e92c]);
   (0x1e90b, [0x1e92d]); (0x1e90c, [0x1e92e]); (0x1e90d, [0x1e92f]);
   (0x1e90e, [0x1e930]); (0x1e90f, [0x1e931]); (0x1e910, [0x1e932]);
   (0x1e911, [0x1e933]); (0x1e912, [0x1e934]); (0x1e913, [0x1e935]);
   (0x1e914, [0x1e936]); (0x1e915, [0x1e937]); (0x1e916, [0x1e938]);
   (0x1e917, [0x1e939]); (0x1e918, [0x1e93a]); (0x1e919, [0x1e93b]);
   (0x1e91a, [0x1e93c]); (0x1e91b, [0x1e93d])
  ].

Definition to_lower_8 : list (N * list N) :=
  [
   (0x1e91c, [0x1e93e]); (0x1e91d, [0x1e93f]); (0x1e91e, [0x1e940]);
   (0x1e91f, [0x1e941]); (0x1e920, [0x1e942]); (0x1e921, [0x1e943])
  ].

(** The same for the lower case; the capital sigma U+03A3, whose lower
    case depends on its context, is not listed. *)
Definition to_lower : list (N * list N) :=
  to_lower_1
  ++ to_lower_2
  ++ to_lower_3
  ++ to_lower_4
  ++ to_lower_5
  ++ to_lower_6
  ++ to_lower_7
  ++ to_lower_8.

(** The property Cased, as inclusive ranges. *)
Definition cased : list (N * N) :=
  [
   (0x41, 0x5a); (0x61, 0x7a); (0xaa, 0xaa); (0xb5, 0xb5); (0xba, 0xba);
   (0xc0, 0xd6); (0xd8, 0xf6); (0xf8, 0x1ba); (0x1bc, 0x1bf); (0x1c4, 0x293);
   (0x295, 0x2b8); (0x2c0, 0x2c1); (0x2e0, 0x2e4); (0x345, 0x345);
   (0x370, 0x373); (0x376, 0x377); (0x37a, 0x37d); (0x37f, 0x37f);
   (0x386, 0x386); (0x388, 0x38a); (0x38c, 0x38c); (0x38e, 0x3a1);
   (0x3a3, 0x3f5); (0x3f7, 0x481); (0x48a, 0x52f); (0x531, 0x556);
   (0x560, 0x588); (0x10a0, 0x10c5); (0x10c7, 0x10c7); (0x10cd, 0x10cd);
   (0x10d0, 0x10fa); (0x10fd, 0x10ff); (0x13a0, 0x13f5); (0x13f8, 0x13fd);
   (0x1c80, 0x1c88); (0x1c90, 0x1cba); (0x1cbd, 0x1cbf); (0x1d00, 0x1dbf);
   (0x1e00, 0x1f15); (0x1f18, 0x1f1d); (0x1f20, 0x1f45); (0x1f48, 0x1f4d);
   (0x1f50, 0x1f57); (0x1f59, 0x1f59); (0x1f5b, 0x1f5b); (0x1f5d, 0x1f5d);
   (0x1f5f, 0x1f7d); (0x1f80, 0x1fb4); (0x1fb6, 0x1fbc); (0x1fbe, 0x1fbe);
   (0x1fc2, 0x1fc4); (0x1fc6, 0x1fcc); (0x1fd0, 0x1fd3); (0x1fd6, 0x1fdb);
   (0x1fe0, 0x1fec); (0x1ff2, 0x1ff4); (0x1ff6, 0x1ffc); (0x2071, 0x2071);
   (0x207f, 0x207f); (0x2090, 0x209c); (0x2102, 0x2102); (0x2107, 0x2107);
   (0x210a, 0x2113); (0x2115, 0x2115); (0x2119, 0x211d); (0x2124, 0x2124);
   (0x2126, 0x2126); (0x2128, 0x2128); (0x212a, 0x212d); (0x212f, 0x2134);
   (0x2139, 0x2139); (0x213c, 0x213f); (0x2145, 0x2149); (0x214e, 0x214e);
   (0x2160, 0x217f); (0x2183, 0x2184); (0x24b6, 0x24e9); (0x2c00, 0x2ce4);
   (0x2ceb, 0x2cee); (0x2cf2, 0x2cf3); (0x2d00, 0x2d25); (0x2d27, 0x2d27);
   (0x2d2d, 0x2d2d); (0xa640, 0xa66d); (0xa680, 0xa69d); (0xa722, 0xa787);
   (0xa78b, 0xa78e); (0xa790, 0xa7ca); (0xa7d0, 0xa7d1); (0xa7d3, 0xa7d3);
   (0xa7d5, 0xa7d9); (0xa7f5, 0xa7f6); (0xa7f8, 0xa7fa); (0xab30, 0xab5a);
   (0xab5c, 0xab68); (0xab70, 0xabbf); (0xfb00, 0xfb06); (0xfb13, 0xfb17);
   (0xff21, 0xff3a); (0xff41, 0xff5a); (0x10400, 0x1044f); (0x104b0, 0x104d3);
   (0x104d8, 0x104fb); (0x10570, 0x1057a); (0x1057c, 0x1058a);
   (0x1058c, 0x10592); (0x10594, 0x10595); (0x10597, 0x105a1);
   (0x105a3, 0x105b1); (0x105b3, 0x105b9); (0x105bb, 0x105bc);
   (0x10780, 0x10780); (0x10783, 0x10785); (0x10787, 0x107b0);
   (0x107b2, 0x107ba); (0x10c80, 0x10cb2); (0x10cc0, 0x10cf2);
   (0x118a0, 0x118df); (0x16e40, 0x16e7f); (0x1d400, 0x1d454);
   (0x1d456, 0x1d49c); (0x1d49e, 0x1d49f); (0x1d4a2, 0x1d4a2);
   (0x1d4a5, 0x1d4a6); (0x1d4a9, 0x1d4ac); (0x1d4ae, 0x1d4b9);
   (0x1d4bb, 0x1d4bb); (0x1d4bd, 0x1d4c3); (0x1d4c5, 0x1d505);
   (0x1d507, 0x1d50a); (0x1d50d, 0x1d514); (0x1d516, 0x1d51c);
   (0x1d51e, 0x1d539); (0x1d53b, 0x1d53e); (0x1d540, 0x1d544);
   (0x1d546, 0x1d546); (0x1d54a, 0x1d550); (0x1d552, 0x1d6a5);
   (0x1d6a8, 0x1d6c0); (0x1d6c2, 0x1d6da); (0x1d6dc, 0x1d6fa);
   (0x1d6fc, 0x1d714); (0x1d716, 0x1d734); (0x1d736, 0x1d74e);
   (0x1d750, 0x1d76e); (0x1d770, 0x1d788); (0x1d78a, 0x1d7a8);
   (0x1d7aa, 0x1d7c2); (0x1d7c4, 0x1d7cb); (0x1df00, 0x1df09);
   (0x1df0b, 0x1df1e); (0x1e900, 0x1e943); (0x1f130, 0x1f149);
   (0x1f150, 0x1f169); (0x1f170, 0x1f189)
  ].

Definition case_ignorable_1 : list (N * N) :=
  [
   (0x27, 0x27); (0x2e, 0x2e); (0x3a, 0x3a); (0x5e, 0x5e); (0x60, 0x60);
   (0xa8, 0xa8); (0xad, 0xad); (0xaf, 0xaf); (0xb4, 0xb4); (0xb7, 0xb8);
   (0x2b0, 0x36f); (0x374, 0x375); (0x37a, 0x37a); (0x384, 0x385);
   (0x387, 0x387); (0x483, 0x489); (0x559, 0x559); (0x55f, 0x55f);
   (0x591, 0x5bd); (0x5bf, 0x5bf); (0x5c1, 0x5c2); (0x5c4, 0x5c5);
   (0x5c7, 0x5c7); (0x5f4, 0x5f4); (0x600, 0x605); (0x610, 0x61a);
   (0x61c, 0x61c); (0x640, 0x640); (0x64b, 0x65f); (0x670, 0x670);
   (0x6d6, 0x6dd); (0x6df, 0x6e8); (0x6ea, 0x6ed); (0x70f, 0x70f);
   (0x711, 0x711); (0x730, 0x74a); (0x7a6, 0x7b0); (0x7eb, 0x7f5);
   (0x7fa, 0x7fa); (0x7fd, 0x7fd); (0x816, 0x82d); (0x859, 0x85b);
   (0x888, 0x888); (0x890, 0x891); (0x898, 0x89f); (0x8c9, 0x902);
   (0x93a, 0x93a); (0x93c, 0x93c); (0x941, 0x948); (0x94d, 0x94d);
   (0x951, 0x957); (0x962, 0x963); (0x971, 0x971); (0x981, 0x981);
   (0x9bc, 0x9bc); (0x9c1, 0x9c4); (0x9cd, 0x9cd); (0x9e2, 0x9e3);
   (0x9fe, 0x9fe); (0xa01, 0xa02); (0xa3c, 0xa3c); (0xa41, 0xa42);
   (0xa47, 0xa48); (0xa4b, 0xa4d); (0xa51, 0xa51); (0xa70, 0xa71);
   (0xa75, 0xa75); (0xa81, 0xa82); (0xabc, 0xabc); (0xac1, 0xac5);
   (0xac7, 0xac8); (0xacd, 0xacd); (0xae2, 0xae3); (0xafa, 0xaff);
   (0xb01, 0xb01); (0xb3c, 0xb3c); (0xb3f, 0xb3f); (0xb41, 0xb44);
   (0xb4d, 0xb4d); (0xb55, 0xb56); (0xb62, 0xb63); (0xb82, 0xb82);
   (0xbc0, 0xbc0); (0xbcd, 0xbcd); (0xc00, 0xc00); (0xc04, 0xc04);
   (0xc3c, 0xc3c); (0xc3e, 0xc40); (0xc46, 0xc48); (0xc4a, 0xc4d);
   (0xc55, 0xc56); (0xc62, 0xc63); (0xc81, 0xc81); (0xcbc, 0xcbc);
   (0xcbf, 0xcbf); (0xcc6, 0xcc6); (0xccc, 0xccd); (0xce2, 0xce3);
   (0xd00, 0xd01); (0xd3b, 0xd3c); (0xd41, 0xd44); (0xd4d, 0xd4d);
   (0xd62, 0xd63); (0xd81, 0xd81); (0xdca, 0xdca); (0xdd2, 0xdd4);
   (0xdd6, 0xdd6); (0xe31, 0xe31); (0xe34, 0xe3a); (0xe46, 0xe4e);
   (0xeb1, 0xeb1); (0xeb4, 0xebc); (0xec6, 0xec6); (0xec8, 0xecd);
   (0xf18, 0xf19); (0xf35, 0xf35); (0xf37, 0xf37); (0xf39, 0xf39);
   (0xf71, 0xf7e); (0xf80, 0xf84); (0xf86, 0xf87); (0xf8d, 0xf97);
   (0xf99, 0xfbc); (0xfc6, 0xfc6); (0x102d, 0x1030); (0x1032, 0x1037);
   (0x1039, 0x103a); (0x103d, 0x103e); (0x1058, 0x1059); (0x105e, 0x1060);
   (0x1071, 0x1074); (0x1082, 0x1082); (0x1085, 0x1086); (0x108d, 0x108d);
   (0x109d, 0x109d); (0x10fc, 0x10fc); (0x135d, 0x135f); (0x1712, 0x1714);
   (0x1732, 0x1733); (0x1752, 0x1753); (0x1772, 0x1773); (0x17b4, 0x17b5);
   (0x17b7, 0x17bd); (0x17c6, 0x17c6); (0x17c9, 0x17d3); (0x17d7, 0x17d7);
   (0x17dd, 0x17dd); (0x180b, 0x180f); (0x1843, 0x1843); (0x1885, 0x1886);
   (0x18a9, 0x18a9); (0x1920, 0x1922); (0x1927, 0x1928); (0x1932, 0x1932);
   (0x1939, 0x193b); (0x1a17, 0x1a18); (0x1a1b, 0x1a1b); (0x1a56, 0x1a56);
   (0x1a58, 0x1a5e); (0x1a60, 0x1a60); (0x1a62, 0x1a62); (0x1a65, 0x1a6c);
   (0x1a73, 0x1a7c); (0x1a7f, 0x1a7f); (0x1aa7, 0x1aa7); (0x1ab0, 0x1ace);
   (0x1b00, 0x1b03); (0x1b34, 0x1b34); (0x1b36, 0x1b3a); (0x1b3c, 0x1b3c);
   (0x1b42, 0x1b42); (0x1b6b, 0x1b73); (0x1b80, 0x1b81); (0x1ba2, 0x1ba5);
   (0x1ba8, 0x1ba9); (0x1bab, 0x1bad); (0x1be6, 0x1be6); (0x1be8, 0x1be9);
   (0x1bed, 0x1bed); (0x1bef, 0x1bf1); (0x1c2c, 0x1c33); (0x1c36, 0x1c37);
   (0x1c78, 0x1c7d); (0x1cd0, 0x1cd2); (0x1cd4, 0x1ce0); (0x1ce2, 0x1ce8);
   (0x1ced, 0x1ced); (0x1cf4, 0x1cf4); (0x1cf8, 0x1cf9); (0x1d2c, 0x1d6a);
   (0x1d78, 0x1d78); (0x1d9b, 0x1dff); (0x1fbd, 0x1fbd); (0x1fbf, 0x1fc1);
   (0x1fcd, 0x1fcf); (0x1fdd, 0x1fdf); (0x1fed, 0x1fef); (0x1ffd, 0x1ffe);
   (0x200b, 0x200f); (0x2018, 0x2019); (0x2024, 0x2024); (0x2027, 0x2027);
   (0x202a, 0x202e); (0x2060, 0x2064); (0x2066, 0x206f); (0x2071, 0x2071);
   (0x207f, 0x207f); (0x2090, 0x209c); (0x20d0, 0x20f0); (0x2c7c, 0x2c7d);
   (0x2cef, 0x2cf1); (0x2d6f, 0x2d6f); (0x2d7f, 0x2d7f); (0x2de0, 0x2dff);
   (0x2e2f, 0x2e2f); (0x3005, 0x3005); (0x302a, 0x302d); (0x3031, 0x3035);
   (0x303b, 0x303b); (0x3099, 0x309e); (0x30fc, 0x30fe); (0xa015, 0xa015);
   (0xa4f8, 0xa4fd); (0xa60c, 0xa60c); (0xa66f, 0xa672); (0xa674, 0xa67d);
   (0xa67f, 0xa67f); (0xa69c, 0xa69f); (0xa6f0, 0xa6f1); (0xa700, 0xa721);
   (0xa770, 0xa770); (0xa788, 0xa78a); (0xa7f2, 0xa7f4); (0xa7f8, 0xa7f9);
   (0xa802, 0xa802); (0xa806, 0xa806); (0xa80b, 0xa80b); (0xa825, 0xa826);
   (0xa82c, 0xa82c); (0xa8c4, 0xa8c5); (0xa8e0, 0xa8f1); (0xa8ff, 0xa8ff);
   (0xa926, 0xa92d); (0xa947, 0xa951); (0xa980, 0xa982); (0xa9b3, 0xa9b3);
   (0xa9b6, 0xa9b9); (0xa9bc, 0xa9bd); (0xa9cf, 0xa9cf); (0xa9e5, 0xa9e6);
   (0xaa29, 0xaa2e); (0xaa31, 0xaa32); (0xaa35, 0xaa36); (0xaa43, 0xaa43);
   (0xaa4c, 0xaa4c); (0xaa70, 0xaa70); (0xaa7c, 0xaa7c); (0xaab0, 0xaab0);
   (0xaab2, 0xaab4); (0xaab7, 0xaab8); (0xaabe, 0xaabf); (0xaac1, 0xaac1);
   (0xaadd, 0xaadd); (0xaaec, 0xaaed); (0xaaf3, 0xaaf4); (0xaaf6, 0xaaf6);
   (0xab5b, 0xab5f); (0xab69, 0xab6b); (0xabe5, 0xabe5); (0xabe8, 0xabe8);
   (0xabed, 0xabed); (0xfb1e, 0xfb1e); (0xfbb2, 0xfbc2); (0xfe00, 0xfe0f);
   (0xfe13, 0xfe13); (0xfe20, 0xfe2f); (0xfe52, 0xfe52); (0xfe55, 0xfe55);
   (0xfeff, 0xfeff); (0xff07, 0xff07); (0xff0e, 0xff0e); (0xff1a, 0xff1a);
   (0xff3e, 0xff3e); (0xff40, 0xff40); (0xff70, 0xff70); (0xff9e, 0xff9f);
   (0xffe3, 0xffe3); (0xfff9, 0xfffb); (0x101fd, 0x101fd); (0x102e0, 0x102e0);
   (0x10376, 0x1037a); (0x10780, 0x10785); (0x10787, 0x107b0);
   (0x107b2, 0x107ba); (0x10a01, 0x10a03); (0x10a05, 0x10a06);
   (0x10a0c, 0x10a0f); (0x10a38, 0x10a3a); (0x10a3f, 0x10a3f);
   (0x10ae5, 0x10ae6)
  ].

Definition case_ignorable_2 : list (N * N) :=
  [
   (0x10d24, 0x10d27); (0x10eab, 0x10eac); (0x10f46, 0x10f50);
   (0x10f82, 0x10f85); (0x11001, 0x11001); (0x11038, 0x11046);
   (0x11070, 0x11070); (0x11073, 0x11074); (0x1107f, 0x11081);
   (0x110b3, 0x110b6); (0x110b9, 0x110ba); (0x110bd, 0x110bd);
   (0x110c2, 0x110c2); (0x110cd, 0x110cd); (0x11100, 0x11102);
   (0x11127, 0x1112b); (0x1112d, 0x11134); (0x11173, 0x11173);
   (0x11180, 0x11181); (0x111b6, 0x111be); (0x111c9, 0x111cc);
   (0x111cf, 0x111cf); (0x1122f, 0x11231); (0x11234, 0x11234);
   (0x11236, 0x11237); (0x1123e, 0x1123e); (0x112df, 0x112df);
   (0x112e3, 0x112ea); (0x11300, 0x11301); (0x1133b, 0x1133c);
   (0x11340, 0x11340); (0x11366, 0x1136c); (0x11370, 0x11374);
   (0x11438, 0x1143f); (0x11442, 0x11444); (0x11446, 0x11446);
   (0x1145e, 0x1145e); (0x114b3, 0x114b8); (0x114ba, 0x114ba);
   (0x114bf, 0x114c0); (0x114c2, 0x114c3); (0x115b2, 0x115b5);
   (0x115bc, 0x115bd); (0x115bf, 0x115c0); (0x115dc, 0x115dd);
   (0x11633, 0x1163a); (0x1163d, 0x1163d); (0x1163f, 0x11640);
   (0x116ab, 0x116ab); (0x116ad, 0x116ad); (0x116b0, 0x116b5);
   (0x116b7, 0x116b7); (0x1171d, 0x1171f); (0x11722, 0x11725);
   (0x11727, 0x1172b); (0x1182f, 0x11837); (0x11839, 0x1183a);
   (0x1193b, 0x1193c); (0x1193e, 0x1193e); (0x11943, 0x11943);
   (0x119d4, 0x119d7); (0x119da, 0x119db); (0x119e0, 0x119e0);
   (0x11a01, 0x11a0a); (0x11a33, 0x11a38); (0x11a3b, 0x11a3e);
   (0x11a47, 0x11a47); (0x11a51, 0x11a56); (0x11a59, 0x11a5b);
   (0x11a8a, 0x11a96); (0x11a98, 0x11a99); (0x11c30, 0x11c36);
   (0x11c38, 0x11c3d); (0x11c3f, 0x11c3f); (0x11c92, 0x11ca7);
   (0x11caa, 0x11cb0); (0x11cb2, 0x11cb3); (0x11cb5, 0x11cb6);
   (0x11d31, 0x11d36); (0x11d3a, 0x11d3a); (0x11d3c, 0x11d3d);
   (0x11d3f, 0x11d45); (0x11d47, 0x11d47); (0x11d90, 0x11d91);
   (0x11d95, 0x11d95); (0x11d97, 0x11d97); (0x11ef3, 0x11ef4);
   (0x13430, 0x13438); (0x16af0, 0x16af4); (0x16b30, 0x16b36);
   (0x16b40, 0x16b43); (0x16f4f, 0x16f4f); (0x16f8f, 0x16f9f);
   (0x16fe0, 0x16fe1); (0x16fe3, 0x16fe4); (0x1aff0, 0x1aff3);
   (0x1aff5, 0x1affb); (0x1affd, 0x1affe); (0x1bc9d, 0x1bc9e);
   (0x1bca0, 0x1bca3); (0x1cf00, 0x1cf2d); (0x1cf30, 0x1cf46);
   (0x1d167, 0x1d169); (0x1d173, 0x1d182); (0x1d185, 0x1d18b);
   (0x1d1aa, 0x1d1ad); (0x1d242, 0x1d244); (0x1da00, 0x1da36);
   (0x1da3b, 0x1da6c); (0x1da75, 0x1da75); (0x1da84, 0x1da84);
   (0x1da9b, 0x1da9f); (0x1daa1, 0x1daaf); (0x1e000, 0x1e006);
   (0x1e008, 0x1e018); (0x1e01b, 0x1e021); (0x1e023, 0x1e024);
   (0x1e026, 0x1e02a); (0x1e130, 0x1e13d); (0x1e2ae, 0x1e2ae);
   (0x1e2ec, 0x1e2ef); (0x1e8d0, 0x1e8d6); (0x1e944, 0x1e94b);
   (0x1f3fb, 0x1f3ff); (0xe0001, 0xe0001); (0xe0020, 0xe007f);
   (0xe0100, 0xe01ef)
  ].

(** The property Case_Ignorable, as inclusive ranges. *)
Definition case_ignorable : list (N * N) :=
  case_ignorable_1
  ++ case_ignorable_2.

(** The characters [str.isspace] accepts and [str.strip] removes. *)
Definition white_space : list (N * N) :=
  [
   (0x9, 0xd); (0x1c, 0x20); (0x85, 0x85); (0xa0, 0xa0); (0x1680, 0x1680);
   (0x2000, 0x200a); (0x2028, 0x2029); (0x202f, 0x202f); (0x205f, 0x205f);
   (0x3000, 0x3000)
  ].

End Unicode.

Module Py.

(** [a + b] *)
Definition cat (a b : str) : str := a ++ b.

(** [a == b] *)
Definition eqb (a b : str) : bool := bool_decide (a = b).

Definition is_ascii_lower (c : N) : bool := ((97 <=? c) && (c <=? 122))%N.

Definition is_ascii_upper (c : N) : bool := ((65 <=? c) && (c <=? 90))%N.

Definition is_ascii_letter (c : N) : bool :=
  is_ascii_lower c || is_ascii_upper c.

(** Look-up in a mapping table of [Unicode]. *)
Fixpoint assoc (c : N) (table : list (N * list N)) : option (list N) :=
  match table with
  | [] => None
  | (k, v) :: rest => if (k =? c)%N then Some v else assoc c rest
  end.

(** Membership in a table of inclusive ranges. *)
Definition in_ranges (c : N) (ranges : list (N * N)) : bool :=
  existsb (fun r => ((fst r <=? c) && (c <=? snd r))%N) ranges.

(** The case mappings of ASCII. *)
Definition ascii_upper (c : N) : N :=
  if is_ascii_lower c then (c - 32)%N else c.

Definition ascii_lower (c : N) : N :=
  if is_ascii_upper c then (c + 32)%N else c.

(** [c.upper()] and [c.lower()] for a single character [c] that is not
    the capital sigma: a string of one to three characters. *)
Definition upper_char (c : N) : str :=
  if (c <? 128)%N then [ascii_upper c]
  else default [c] (assoc c Unicode.to_upper).

Definition lower_char (c : N) : str :=
  if (c <? 128)%N then [ascii_lower c]
  else default [c] (assoc c Unicode.to_lower).

(** [s.upper()]: character by character. *)
Definition upper (s : str) : str := flat_map upper_char s.

Definition is_cased (c : N) : bool := in_ranges c Unicode.cased.

Definition is_case_ignorable (c : N) : bool :=
  in_ranges c Unicode.case_ignorable.

Fixpoint skip_case_ignorable (s : str) : str :=
  match s with
  | [] => []
  | c :: s' => if is_case_ignorable c then skip_case_ignorable s' else s
  end.

(** Whether a capital sigma ends a word: a cased letter comes before it
    and none after it, case-ignorable characters apart.  [before] is the
    text in front of the sigma, nearest character first. *)
Definition final_sigma (before after : str) : bool :=
  match skip_case_ignorable before with
  | [] => false
  | c :: _ =>
      is_cased c
      && match skip_case_ignorable after with
         | [] => true
         | d :: _ => negb (is_cased d)
         end
  end.

Fixpoint lower_from (before s : str) : str :=
  match s with
  | [] => []
  | c :: s' =>
      (if (c =? 0x3a3)%N then
         [if final_sigma before s' then 0x3c2%N else 0x3c3%N]
       else lower_char c)
      ++ lower_from (c :: before) s'
  end.

(** [s.lower()] *)
Definition lower (s : str) : str := lower_from [] s.

(** [c.isspace()]: the characters [str.strip()] removes. *)
Definition isspace (c : N) : bool := in_ranges c Unicode.white_space.

Fixpoint lstrip (s : str) : str :=
  match s with
  | [] => []
  | c :: s' => if isspace c then lstrip s' else s
  end.

Definition rstrip (s : str) : str := rev (lstrip (rev s)).

(** [s.strip()]. *)
Definition strip (s : str) : str := rstrip (lstrip s).

(** [re.match(r'^[...]+$', s)] for a character class: one or more
    characters of the class up to the end of the string; Python's [$]
    also matches just before one final line feed. *)
Definition at_end (s : str) : bool :=
  match s with
  | [] => true
  | [c] => (c =? 10)%N
  | _ => false
  end.

Fixpoint re_class_plus_end (cls : N -> bool) (s : str) : bool :=
  match s with
  | [] => false
  | c :: s' => cls c && (at_end s' || re_class_plus_end cls s')
  end.

(** [len(set(s))]: the number of distinct characters. *)
Fixpoint distinct_chars (s : str) (seen : list N) : nat :=
  match s with
  | [] => List.length seen
  | c :: s' =>
      if existsb (N.eqb c) seen then distinct_chars s' seen
      else distinct_chars s' (c :: seen)
  end.

(** [sum(1 for c in s if c in cls)]. *)
Fixpoint count_chars (cls : N -> bool) (s : str) : nat :=
  match s with
  | [] => 0%nat
  | c :: s' => ((if cls c then 1 else 0) + count_chars cls s')%nat
  end.

(** [str(n)] for a non-negative integer. *)
Definition str_of_nat (n : nat) : str :=
  NilEmpty.string_of_uint (Nat.to_uint n).

(** [sep.join(l)]. *)
Fixpoint join (sep : str) (l : list str) : str :=
  match l with
  | [] => []
  | [x] => x
  | x :: l' => cat x (cat sep (join sep l'))
  end.

(** [float(z)] for an integer of moderate size. *)
Definition float_of_Z (z : Z) : float :=
  if z <? 0 then PrimFloat.opp (PrimFloat.of_uint63 (Uint63.of_Z (- z)))
  else PrimFloat.of_uint63 (Uint63.of_Z z).

Definition float_of_nat (n : nat) : float := float_of_Z (Z.of_nat n).

End Py.

Infix "+:+" := Py.cat (at level 60, right associativity).

(** ** Outcomes of calls that may raise *)

Inductive exn : Type :=
| ValueError (msg : str)
| ZeroDivisionError
| IndexError.

Inductive outcome (A : Type) : Type :=
| Return (a : A)
| Raise (e : exn).

Arguments Return {A} a.
Arguments Raise {A} e.

(** ** The lexicon: [app/core/word_validator.py] *)

Module Lexicon.

Import Py.

(** The attributes of a [WordValidator] object.  [_filtered_words_cache]
    is only touched by [get_common_words] and is left out. *)
Record WordValidator : Type := mkWordValidator {
  min_word_length : Z;
  max_word_length : Z;
  custom_words : gset str;
  _wordnet_cache : gmap str bool;
  _nltk_words_cache : option (gset str);
  _excluded_words : gset str
}.

Definition set_custom_words (wv : WordValidator) (cw : gset str) :=
  mkWordValidator (min_word_length wv) (max_word_length wv) cw
    (_wordnet_cache wv) (_nltk_words_cache wv) (_excluded_words wv).

Definition set_nltk_words_cache (wv : WordValidator) (c : option (gset str)) :=
  mkWordValidator (min_word_length wv) (max_word_length wv) (custom_words wv)
    (_wordnet_cache wv) c (_excluded_words wv).

(** [self._wordnet_cache[key] = b] *)
Definition cache_store (wv : WordValidator) (key : str) (b : bool) :=
  mkWordValidator (min_word_length wv) (max_word_length wv) (custom_words wv)
    (<[key := b]> (_wordnet_cache wv)) (_nltk_words_cache wv)
    (_excluded_words wv).

Definition unusual_letters : list N := py "QXZJ".
Definition vowels_upper : list N := py "AEIOU".
Definition vowels_lower : list N := py "aeiou".

Definition char_in (l : list N) (c : N) : bool :=
  existsb (N.eqb c) l.

(** The float literals [0.6], [0.25], [0.4], [0.5] of the source, written
    as the binary64 values Python parses them to. *)
Definition f0_6 : float := 0x1.3333333333333p-1%float.
Definition f0_4 : float := 0x1.999999999999ap-2%float.
Definition f0_25 : float := 0x1p-2%float.
Definition f0_5 : float := 0x1p-1%float.
Definition f1 : float := 0x1p+0%float.
Definition f2 : float := 0x1p+1%float.
Definition f4 : float := 0x1p+2%float.

(** [_is_good_english_word]: the quality filter. *)
Definition _is_good_english_word (wv : WordValidator) (word : str) : bool :=
  let word := upper word in
  let len := length word in
  if bool_decide (word ∈ _excluded_words wv) then false
  else if negb (re_class_plus_end is_ascii_upper word) then false
  else if ((len <? 3) || (8 <? len))%nat then false
  else if PrimFloat.ltb (float_of_nat (distinct_chars word []))
                        (PrimFloat.mul (float_of_nat len) f0_6) then false
  else
    let unusual_count := count_chars (char_in unusual_letters) word in
    if (1 <? unusual_count)%nat then false
    else
      let vowel_count := count_chars (char_in vowels_upper) word in
      if ((vowel_count =? 0) && (2 <? len))%nat then false
      else
        let consonant_count := (len - vowel_count)%nat in
        if (0 <? vowel_count)%nat then
          let ratio := PrimFloat.div (float_of_nat consonant_count)
                                     (float_of_nat vowel_count) in
          if PrimFloat.ltb f4 ratio || PrimFloat.ltb ratio f0_25 then false
          else true
        else true.

Section WithWordNet.

(** Truth value of [wordnet.synsets(w)]: whether WordNet knows [w]. *)
Variable wordnet_synsets : str -> bool.

(** [is_valid_word]: the membership oracle, with its memo table. *)
Definition is_valid_word (wv : WordValidator) (word : str)
  : bool * WordValidator :=
  match word with
  | [] => (false, wv)
  | _ =>
    let word := strip word in
    let len := Z.of_nat (length word) in
    if (len <? min_word_length wv) || (max_word_length wv <? len) then
      (false, wv)
    else if negb (re_class_plus_end is_ascii_letter word) then (false, wv)
    else
      let word_upper := upper word in
      let word_lower := lower word in
      if bool_decide (word_upper ∈ _excluded_words wv) then (false, wv)
      else
        match _wordnet_cache wv !! word_upper with
        | Some b => (b, wv)
        | None =>
          if bool_decide (word_upper ∈ custom_words wv)
             || bool_decide (word_lower ∈ custom_words wv) then
            (true, cache_store wv word_upper true)
          else if match _nltk_words_cache wv with
                  | Some nltk =>
                      negb (bool_decide (nltk = ∅))
                      && bool_decide (word_upper ∈ nltk)
                  | None => false
                  end then
            (true, cache_store wv word_upper true)
          else if wordnet_synsets word_lower
                  && _is_good_english_word wv word_upper then
            (true, cache_store wv word_upper true)
          else (false, cache_store wv word_upper false)
        end
  end.

(** [is_one_letter_change]: the loop over [zip(word1, word2)], with the
    running counter [differences] and its early exit. *)
Fixpoint count_differences (w1 w2 : str) (differences : nat) : bool :=
  match w1, w2 with
  | c1 :: r1, c2 :: r2 =>
      if N.eqb c1 c2 then count_differences r1 r2 differences
      else
        let differences := S differences in
        if (1 <? differences)%nat then false
        else count_differences r1 r2 differences
  | _, _ => (differences =? 1)%nat
  end.

Definition is_one_letter_change (word1 word2 : str) : bool :=
  if negb (length word1 =? length word2)%nat then false
  else count_differences (upper word1) (upper word2) 0.

Definition ALPHABET : list N := py "ABCDEFGHIJKLMNOPQRSTUVWXYZ".

(** [word[:i] + letter + word[i+1:]] *)
Definition substitute (word : str) (i : nat) (letter : N) : str :=
  take i word ++ letter :: drop (S i) word.

(** The inner loop of [get_possible_words], over the alphabet. *)
Fixpoint try_letters (wv : WordValidator) (word : str) (i : nat)
    (letters : list N) (possible_words : list str)
  : list str * WordValidator :=
  match letters with
  | [] => (possible_words, wv)
  | letter :: rest =>
      if bool_decide (word !! i = Some letter) then
        try_letters wv word i rest possible_words
      else
        let new_word := substitute word i letter in
        let '(ok, wv') := is_valid_word wv new_word in
        try_letters wv' word i rest
          (if ok then possible_words ++ [new_word] else possible_words)
  end.

(** The outer loop of [get_possible_words], over the positions. *)
Fixpoint try_positions (wv : WordValidator) (word : str)
    (positions : list nat) (possible_words : list str)
  : list str * WordValidator :=
  match positions with
  | [] => (possible_words, wv)
  | i :: rest =>
      let '(possible_words', wv') :=
        try_letters wv word i ALPHABET possible_words in
      try_positions wv' word rest possible_words'
  end.

Definition get_possible_words (wv : WordValidator) (word : str)
  : list str * WordValidator :=
  let word := upper word in
  try_positions wv word (seq 0 (length word)) [].

(** [add_word] *)
Definition add_word (wv : WordValidator) (word : str) : WordValidator :=
  if _is_good_english_word wv (upper word) then
    set_custom_words wv (custom_words wv ∪ {[lower word]} ∪ {[upper word]})
  else wv.

(** [get_word_difficulty] *)
Definition get_word_difficulty (wv : WordValidator) (word : str)
  : outcome float :=
  let word := lower word in
  let len := Z.of_nat (length word) in
  let span := max_word_length wv - min_word_length wv in
  if span =? 0 then Raise ZeroDivisionError
  else
    let q := PrimFloat.div (float_of_Z (len - min_word_length wv))
                           (float_of_Z span) in
    let length_factor := if PrimFloat.ltb q f1 then q else f1 in
    let vowels := count_chars (char_in vowels_lower) word in
    let consonants := (length word - vowels)%nat in
    let ratio :=
      if (consonants =? 0)%nat then f1
      else PrimFloat.div (float_of_nat vowels) (float_of_nat consonants) in
    let balance_factor :=
      PrimFloat.mul (PrimFloat.abs (PrimFloat.sub f0_5 ratio)) f2 in
    Return (PrimFloat.add (PrimFloat.mul f0_6 length_factor)
                          (PrimFloat.mul f0_4 balance_factor)).

End WithWordNet.

(** *** Construction: [WordValidator.__init__] *)

(** The literal of [self._excluded_words] in [__init__]. *)
Definition excluded_word_list : list str :=
  map py [
   "YURTA"; "YURT"; "MASAI"; "MAASAI"; "HINDI"; "URDU"; "BANTU"; "ZULU";
   "SWAZI"; "TAMIL"; "TELUGU"; "SCOTS"; "WELSH"; "GAELIC"; "BENZO";
   "NITRO"; "HYDRO"; "THIOL"; "HEXYL"; "BUTYL"; "ETHYL"; "PHENYL"; "VINYL";
   "OXIME"; "AZIDE"; "OXIDE"; "ESTER"; "RADAR"; "SONAR"; "LASER"; "SCUBA";
   "AWASH"; "SWATH"; "QUAFF"; "QUASH"; "QUALM"; "QUARK"; "QUASI"; "QUASAR";
   "FJORD"; "SHARD"; "WHARF"; "SCARF"; "DWARF"; "GYOZA"; "PIZZA"; "FUZZY";
   "JAZZY"; "DIZZY"; "FIZZY"
  ].

(** The literal [critical_words] of [_add_critical_path_words], in source order. *)
Definition critical_words : list str :=
  map py [
   "COLD"; "CORD"; "WORD"; "WORM"; "WARM"; "WOLD"; "WILD"; "WELD"; "WEND";
   "WIND"; "CARD"; "WARD"; "WARE"; "WORE"; "WORT"; "COLT"; "BOLT"; "BOLE";
   "BORE"; "BARE"; "BANK"; "BAND"; "LAND"; "LOAD"; "LOAN"; "BUNK"; "LANK";
   "LEAN"; "BALD"; "BOLD"; "BIRD"; "BIND"; "FIND"; "FISH"; "FIST"; "BARD";
   "BEAD"; "BEAT"; "BEND"; "BEST"; "FAST"; "LAST"; "LOST"; "SLOT"; "SLOW";
   "CAST"; "COST"; "COLT"; "SCOT"; "SHOT"; "ROCK"; "SOCK"; "SACK"; "SANK";
   "SAND"; "RACK"; "ROOK"; "RUCK"; "RANK"; "RANG"; "LEAD"; "LOAD"; "GOAD";
   "GOLD"; "GLAD"; "GOOD"; "ROAD"; "READ"; "TREE"; "FREE"; "FLEE"; "FLEW";
   "BLEW"; "BLOW"; "BROW"; "CROW"; "CRAW"; "CRAM"; "GRAM"; "GRIM"; "GRIT";
   "BRIT"; "BRUT"; "BUST"; "BUSH"; "GREW"; "HOUSE"; "MOUSE"; "MOOSE";
   "LOOSE"; "LANCE"; "RANCH"; "HORDE"; "HORSE"; "WORSE"; "HAPPY"; "HARPY";
   "SHARP"; "SHARE"; "SHIRE"; "SPIRE"; "SMILE"; "WHILE"; "SHINE"; "BRAIN";
   "BRUIN"; "BRINK"; "THINK"; "THING"; "BRING"; "BLINK"; "BLANK"; "OCEAN";
   "CLEAN"; "CLEAR"; "CHEAR"; "WHEAT"; "WATER"; "LATER"; "CATER"; "LASER";
   "BARE"; "CARE"; "DARE"; "FARE"; "HARE"; "MARE"; "PARE"; "RARE"; "TARE";
   "WARE"; "BALE"; "DALE"; "GALE"; "HALE"; "KALE"; "MALE"; "PALE"; "SALE";
   "TALE"; "VALE"; "BANE"; "CANE"; "DANE"; "FANE"; "JANE"; "LANE"; "MANE";
   "PANE"; "SANE"; "VANE"; "BAKE"; "CAKE"; "FAKE"; "JAKE"; "LAKE"; "MAKE";
   "RAKE"; "SAKE"; "TAKE"; "WAKE"; "BASE"; "CASE"; "EASE"; "LASE"; "VASE";
   "WISE"; "ROSE"; "POSE"; "NOSE"; "LOSE"; "ABLE"; "MILE"; "PILE"; "TILE";
   "BILE"; "FILE"; "NILE"; "WILE"; "HOLE"; "ROLE"; "BONE"; "CONE"; "DONE";
   "GONE"; "HONE"; "LONE"; "NONE"; "TONE"; "ZONE"; "PONE"; "BORE"; "CORE";
   "FORE"; "GORE"; "LORE"; "MORE"; "PORE"; "SORE"; "TORE"; "WORE"; "BODE";
   "CODE"; "LODE"; "MODE"; "NODE"; "RODE"; "RUDE"; "NUDE"; "DUDE"; "TUBE";
   "BOLE"; "COLE"; "DOLE"; "HOLE"; "MOLE"; "POLE"; "ROLE"; "SOLE"; "TOLE";
   "VOLE"; "BOARD"; "HOARD"; "SWORD"; "WORLD"; "WORTH"; "NORTH"; "FORTH";
   "MONTH"; "SOUTH"; "PLACE"; "GRACE"; "SPACE"; "TRACE"; "BRACE"; "PEACE";
   "PIECE"; "SLICE"; "PRICE"; "PLANE"; "CRANE"; "BRAIN"; "GRAIN"; "TRAIN";
   "STAIN"; "CHAIN"; "PLAIN"; "SPAIN"; "PLANT"; "GRANT"; "GIANT"; "SLANT";
   "WANT"; "PAINT"; "SAINT"; "FAINT"; "POINT"; "PLATE"; "STATE"; "SLATE";
   "GRATE"; "CRATE"; "SKATE"; "STAKE"; "SNAKE"; "SHAKE"; "PRICE"; "SLICE";
   "SPICE"; "TWICE"; "VOICE"; "CHOICE"; "JUICE"; "DANCE"; "FENCE"; "PRIDE";
   "BRIDE"; "GUIDE"; "SLIDE"; "GLIDE"; "ASIDE"; "WIDE"; "RIDE"; "TIDE";
   "PRIME"; "CRIME"; "GRIME"; "SLIME"; "CHIME"; "TIME"; "DIME"; "LIME";
   "MIME"; "BLEND"; "BLIND"; "BLOOD"; "BLOOM"; "BLOWN"; "BOARD"; "BOAST";
   "BOOST"; "BREAD"; "BREAK"; "BREED"; "BRING"; "BROAD"; "BROKE"; "BROWN";
   "BUILD"; "BUILT"; "CHAIR"; "CHAIN"; "CHARM"; "CHART"; "CHASE"; "CHEAP";
   "CHECK"; "CHEST"; "CHILD"; "CHINA"; "CLAIM"; "CLASS"; "CLEAN"; "CLEAR";
   "CLIMB"; "CLOCK"; "CLOSE"; "CLOUD"; "COACH"; "COAST"; "COULD"; "COUNT";
   "COURT"; "COVER"; "CRAFT"; "CRASH"; "CREAM"; "CRIME"; "CROSS"; "CROWD";
   "CROWN"; "DANCE"; "DEATH"; "DEPTH"; "DOUBT"; "DRAFT"; "DRAMA"; "DRAWN";
   "DREAM"; "DRESS"; "DRILL"; "DRINK"; "DRIVE"; "DROVE"; "EARLY"; "EARTH";
   "THEIR"; "THERE"; "THESE"; "THREE"; "THREW"; "THROW"; "TIGHT"; "TIMES";
   "TODAY"; "TRADE"; "TRAIN"; "TREAT"; "TREND"; "TRIAL"; "TRIED"; "TRIES";
   "TRUCK"; "TRULY"; "TRUST"; "TRUTH"; "TWICE"; "UNDER"; "UNION"; "UNITY";
   "UNTIL"; "UPPER"; "UPSET"; "URBAN"; "USAGE"; "USUAL"; "VALID"; "VALUE";
   "VIDEO"; "VIRUS"; "VISIT"; "VITAL"; "VOICE"; "WASTE"; "WATCH"; "WATER";
   "WHEEL"; "WHERE"; "WHICH"; "WHILE"; "WHITE"; "WHOLE"; "WHOSE"; "WOMAN";
   "WOMEN"; "WORLD"; "WORRY"; "WORSE"; "WORST"; "WORTH"; "WOULD"; "WOUND";
   "WRITE"; "WRONG"; "WROTE"; "YIELD"; "YOUNG"; "YOUTH"; "ZERO"
  ].

(** The list [words_4] of [_load_custom_dictionary]. *)
Definition words_4 : list str :=
  map py [
   "bird"; "fish"; "bear"; "deer"; "duck"; "goat"; "wolf"; "lion"; "cold";
   "warm"; "hard"; "soft"; "dark"; "life"; "time"; "work"; "play"; "game";
   "word"; "book"; "page"; "door"; "room"; "wall"; "hand"; "head"; "foot";
   "body"; "hair"; "face"; "neck"; "back"; "cold"; "cord"; "word"; "worm";
   "warm"; "wold"; "wild"; "weld"; "wend"; "wind"; "card"; "ward"; "ware";
   "wore"; "wort"; "colt"; "bolt"; "bole"; "bore"; "bare"; "able"; "also";
   "area"; "army"; "away"; "baby"; "back"; "ball"; "band"; "bank"; "base";
   "bath"; "beat"; "been"; "beer"; "bell"; "belt"; "best"; "bill"; "blow";
   "blue"; "boat"; "body"; "bomb"; "bond"; "bone"; "book"; "boot"; "born";
   "boss"; "both"; "bowl"; "burn"; "bush"; "busy"; "cake"; "call"; "calm";
   "came"; "camp"; "care"; "cart"; "case"; "cash"; "cast"; "cave"; "cell";
   "city"; "club"; "coal"; "coat"; "code"; "coin"; "cold"; "come"; "cook";
   "cool"; "copy"; "core"; "corn"; "cost"; "crew"; "crop"; "dark"; "data";
   "date"; "dawn"; "dead"; "deal"; "dear"; "deep"; "desk"; "died"; "diet";
   "dirt"; "dish"; "dock"; "door"; "down"; "draw"; "drew"; "drop"; "drug";
   "drum"; "duck"; "dust"; "duty"; "each"; "earn"; "ease"; "east"; "easy";
   "edge"; "else"; "even"; "ever"; "exit"; "face"; "fact"; "fail"; "fair";
   "fall"; "farm"; "fast"; "fate"; "fear"; "feed"; "feel"; "feet"; "fell";
   "felt"; "file"; "fill"; "film"; "find"; "fine"; "fire"; "firm"; "fish";
   "five"; "flag"; "flat"; "flow"; "fold"; "folk"; "food"; "foot"; "form";
   "fort"; "four"; "free"; "from"; "fuel"; "full"; "fund"; "gain"; "game";
   "gate"; "gave"; "gear"; "gift"; "girl"; "give"; "glad"; "goal"; "gold";
   "golf"; "gone"; "good"; "gray"; "grew"; "grow"; "hair"; "half"; "hall";
   "hand"; "hang"; "hard"; "harm"; "hate"; "have"; "head"; "hear"; "heat";
   "held"; "hell"; "help"; "here"; "hero"; "hide"; "high"; "hill"; "hire";
   "hold"; "hole"; "holy"; "home"; "hope"; "horn"; "host"; "hour"; "huge";
   "hung"; "hunt"; "hurt"; "idea"; "inch"; "into"; "iron"; "item"; "join";
   "joke"; "jump"; "jury"; "just"; "keep"; "kept"; "kick"; "kill"; "kind";
   "king"; "knee"; "knew"; "know"; "lack"; "lady"; "laid"; "lake"; "lamp";
   "land"; "lane"; "last"; "late"; "lead"; "leaf"; "lean"; "left"; "lend";
   "less"; "life"; "lift"; "like"; "line"; "link"; "list"; "live"; "load";
   "loan"; "lock"; "long"; "look"; "lord"; "lose"; "loss"; "lost"; "loud";
   "love"; "luck"; "made"; "mail"; "main"; "make"; "male"; "mall"; "many";
   "mark"; "mass"; "mate"; "meal"; "mean"; "meat"; "meet"; "menu"; "mere";
   "mile"; "milk"; "mill"; "mind"; "mine"; "mint"; "miss"; "mode"; "mood";
   "moon"; "more"; "most"; "move"; "much"; "must"; "name"; "navy"; "near";
   "neck"; "need"; "news"; "next"; "nice"; "nine"; "none"; "noon"; "nose";
   "note"; "okay"; "once"; "only"; "onto"; "open"; "oral"; "over"; "pace";
   "pack"; "page"; "paid"; "pain"; "pair"; "palm"; "park"; "part"; "pass";
   "past"; "path"; "peak"; "pick"; "pink"; "pipe"; "plan"; "play"; "plot";
   "plug"; "plus"; "poem"; "poet"; "pole"; "poll"; "pond"; "pool"; "poor";
   "port"; "post"; "pull"; "pure"; "push"; "quit"; "race"; "rail"; "rain";
   "rank"; "rare"; "rate"; "read"; "real"; "rear"; "rely"; "rent"; "rest";
   "rice"; "rich"; "ride"; "ring"; "rise"; "risk"; "road"; "rock"; "role";
   "roll"; "roof"; "room"; "root"; "rope"; "rose"; "rule"; "rush"; "safe";
   "said"; "sail"; "sale"; "salt"; "same"; "sand"; "save"; "seat"; "seed";
   "seek"; "seem"; "seen"; "self"; "sell"; "send"; "sent"; "ship"; "shoe";
   "shop"; "shot"; "show"; "shut"; "sick"; "side"; "sign"; "silk"; "sing";
   "sink"; "site"; "size"; "skin"; "slip"; "slow"; "snow"; "soft"; "soil";
   "sold"; "sole"; "some"; "song"; "soon"; "sort"; "soul"; "spot"; "star";
   "stay"; "step"; "stop"; "such"; "suit"; "sure"; "swim"; "tail"; "take";
   "tale"; "talk"; "tall"; "tank"; "tape"; "task"; "team"; "tell"; "tend";
   "term"; "test"; "text"; "than"; "that"; "them"; "then"; "they"; "thin";
   "this"; "thus"; "tide"; "tiny"; "told"; "toll"; "tone"; "took"; "tool";
   "tour"; "town"; "tree"; "trip"; "true"; "tune"; "turn"; "twin"; "type";
   "unit"; "upon"; "used"; "user"; "vary"; "vast"; "very"; "view"; "vote";
   "wage"; "wait"; "wake"; "walk"; "wall"; "want"; "ward"; "warm"; "wash";
   "wave"; "weak"; "wear"; "week"; "well"; "went"; "were"; "west"; "what";
   "when"; "whom"; "wide"; "wife"; "wild"; "will"; "wind"; "wine"; "wing";
   "wire"; "wise"; "wish"; "with"; "wood"; "word"; "wore"; "work"; "yard";
   "year"; "your"; "zone"
  ].

(** The list [words_5] of [_load_custom_dictionary]. *)
Definition words_5 : list str :=
  map py [
   "happy"; "world"; "smart"; "brain"; "think"; "dream"; "peace"; "quiet";
   "storm"; "light"; "night"; "fight"; "right"; "about"; "above"; "actor";
   "adult"; "after"; "again"; "agent"; "agree"; "ahead"; "alarm"; "album";
   "alert"; "alike"; "alive"; "allow"; "alone"; "along"; "alter"; "among";
   "anger"; "angle"; "angry"; "apart"; "apple"; "apply"; "argue"; "arise";
   "array"; "aside"; "audio"; "avoid"; "award"; "aware"; "badly"; "basic";
   "basis"; "beach"; "began"; "begin"; "begun"; "being"; "below"; "bench";
   "birth"; "black"; "blame"; "blind"; "block"; "blood"; "board"; "boost";
   "booth"; "bound"; "brain"; "brand"; "bread"; "break"; "breed"; "brief";
   "bring"; "broad"; "broke"; "brown"; "build"; "built"; "buyer"; "cable";
   "carry"; "catch"; "cause"; "chain"; "chair"; "chart"; "chase"; "cheap";
   "check"; "chest"; "chief"; "child"; "china"; "chose"; "civil"; "claim";
   "class"; "clean"; "clear"; "click"; "clock"; "close"; "coach"; "coast";
   "could"; "count"; "court"; "cover"; "craft"; "crash"; "cream"; "crime";
   "cross"; "crowd"; "crown"; "curve"; "cycle"; "daily"; "dance"; "dealt";
   "death"; "debut"; "delay"; "depth"; "doing"; "doubt"; "dozen"; "draft";
   "drama"; "drawn"; "dream"; "dress"; "drill"; "drink"; "drive"; "drove";
   "dying"; "eager"; "early"; "earth"; "eight"; "elite"; "empty"; "enemy";
   "enjoy"; "enter"; "entry"; "equal"; "error"; "event"; "every"; "exact";
   "exist"; "extra"; "faith"; "false"; "fault"; "field"; "fifth"; "fifty";
   "fight"; "final"; "first"; "fixed"; "flash"; "fleet"; "floor"; "fluid";
   "focus"; "force"; "forth"; "forty"; "forum"; "found"; "frame"; "frank";
   "fresh"; "front"; "fruit"; "fully"; "funny"; "given"; "glass"; "globe";
   "going"; "grace"; "grade"; "grand"; "grant"; "grass"; "great"; "green";
   "gross"; "group"; "grown"; "guard"; "guess"; "guest"; "guide"; "happy";
   "heart"; "heavy"; "hence"; "horse"; "hotel"; "house"; "human"; "ideal";
   "image"; "index"; "inner"; "input"; "issue"; "joint"; "judge"; "known";
   "label"; "large"; "laser"; "later"; "laugh"; "layer"; "learn"; "lease";
   "least"; "leave"; "legal"; "level"; "light"; "limit"; "links"; "lives";
   "local"; "logic"; "loose"; "lower"; "lucky"; "lunch"; "lying"; "magic";
   "major"; "maker"; "march"; "maria"; "match"; "maybe"; "mayor"; "meant";
   "media"; "metal"; "might"; "minor"; "minus"; "mixed"; "model"; "money";
   "month"; "moral"; "motor"; "mount"; "mouse"; "mouth"; "movie"; "music";
   "needs"; "never"; "newly"; "night"; "noise"; "north"; "noted"; "novel";
   "nurse"; "occur"; "ocean"; "offer"; "often"; "order"; "other"; "ought";
   "paint"; "panel"; "paper"; "party"; "peace"; "phase"; "phone"; "photo";
   "piece"; "pilot"; "pitch"; "place"; "plain"; "plane"; "plant"; "plate";
   "point"; "pound"; "power"; "press"; "price"; "pride"; "prime"; "print";
   "prior"; "prize"; "proof"; "proud"; "prove"; "queen"; "quick"; "quiet";
   "quite"; "radio"; "raise"; "range"; "rapid"; "ratio"; "reach"; "ready";
   "refer"; "right"; "rival"; "river"; "rough"; "round"; "route"; "royal";
   "rural"; "scale"; "scene"; "scope"; "score"; "sense"; "serve"; "seven";
   "shall"; "shape"; "share"; "sharp"; "sheet"; "shelf"; "shell"; "shift";
   "shirt"; "shock"; "shoot"; "short"; "shown"; "sight"; "since"; "sixth";
   "sixty"; "sized"; "skill"; "sleep"; "slide"; "small"; "smart"; "smile";
   "smoke"; "solid"; "solve"; "sorry"; "sound"; "south"; "space"; "spare";
   "speak"; "speed"; "spend"; "spent"; "split"; "spoke"; "sport"; "staff";
   "stage"; "stake"; "stand"; "start"; "state"; "steam"; "steel"; "stick";
   "still"; "stock"; "stone"; "stood"; "store"; "storm"; "story"; "strip";
   "stuck"; "study"; "stuff"; "style"; "sugar"; "suite"; "super"; "sweet";
   "table"; "taken"; "taste"; "taxes"; "teach"; "teeth"; "thank"; "theft";
   "their"; "theme"; "there"; "these"; "thick"; "thing"; "think"; "third";
   "those"; "three"; "threw"; "throw"; "tight"; "times"; "tired"; "title";
   "today"; "topic"; "total"; "touch"; "tough"; "tower"; "track"; "trade";
   "train"; "treat"; "trend"; "trial"; "tried"; "tries"; "truck"; "truly";
   "trust"; "truth"; "twice"; "under"; "union"; "unity"; "until"; "upper";
   "upset"; "urban"; "usage"; "usual"; "valid"; "value"; "video"; "virus";
   "visit"; "vital"; "voice"; "waste"; "watch"; "water"; "wheel"; "where";
   "which"; "while"; "white"; "whole"; "whose"; "woman"; "women"; "world";
   "worry"; "worse"; "worst"; "worth"; "would"; "wound"; "write"; "wrong";
   "wrote"; "yield"; "young"; "youth"
  ].

(** The body shared by the loading loops: add both spellings. *)
Definition add_both_cases (cw : gset str) (word : str) : gset str :=
  cw ∪ {[lower word]} ∪ {[upper word]}.

(** [_load_custom_dictionary]: the two loops over [words_4] and [words_5]. *)
Definition _load_custom_dictionary (wv : WordValidator) : WordValidator :=
  let load := fold_left (fun wv word =>
    if _is_good_english_word wv (upper word) then
      set_custom_words wv (add_both_cases (custom_words wv) word)
    else wv) in
  load words_5 (load words_4 wv).

(** [_load_nltk_words].  [corpus] is the content of NLTK's [words.words()],
    or [None] when reading it raises. *)
Definition _load_nltk_words (corpus : option (list str)) (wv : WordValidator)
  : WordValidator :=
  match corpus with
  | Some ws =>
      let nltk_words_raw : gset str := list_to_set (map upper ws) in
      set_nltk_words_cache wv
        (Some (filter (fun w => _is_good_english_word wv w = true) nltk_words_raw))
  | None => set_nltk_words_cache wv (Some ∅)
  end.

(** [_add_critical_path_words] *)
Definition _add_critical_path_words (wv : WordValidator) : WordValidator :=
  fold_left (fun wv word =>
    set_custom_words wv (add_both_cases (custom_words wv) word))
    critical_words wv.

Definition __init__ (corpus : option (list str))
    (min_word_length max_word_length : Z) : WordValidator :=
  let wv := mkWordValidator min_word_length max_word_length ∅ ∅ None
              (list_to_set excluded_word_list) in
  _add_critical_path_words (_load_nltk_words corpus (_load_custom_dictionary wv)).

(** What one pass of the probe over a level ends with: [return True],
    or the loop runs to its end. *)
Inductive probe_result : Type :=
| Reached
| Unreached (visited : gset str) (next_queue : list str).

(** The loop [for neighbor in possible_words] of [can_reach_target]. *)
Fixpoint probe_neighbors (target_word : str) (possible_words : list str)
    (visited : gset str) (next_queue : list str) : probe_result :=
  match possible_words with
  | [] => Unreached visited next_queue
  | neighbor :: rest =>
      if bool_decide (neighbor = target_word) then Reached
      else if bool_decide (neighbor ∈ visited) then
        probe_neighbors target_word rest visited next_queue
      else
        probe_neighbors target_word rest (visited ∪ {[neighbor]})
          (next_queue ++ [neighbor])
  end.

Section Reachability.

Variable wordnet_synsets : str -> bool.

(** The loop [for current_word in queue]. *)
Fixpoint probe_level (wv : WordValidator) (target_word : str)
    (queue : list str) (visited : gset str) (next_queue : list str)
  : probe_result * WordValidator :=
  match queue with
  | [] => (Unreached visited next_queue, wv)
  | current_word :: queue' =>
      let '(possible_words, wv') :=
        get_possible_words wordnet_synsets wv current_word in
      match probe_neighbors target_word possible_words visited next_queue with
      | Reached => (Reached, wv')
      | Unreached visited' next_queue' =>
          probe_level wv' target_word queue' visited' next_queue'
      end
  end.

(** The loop [while queue and depth < max_depth]; [remaining] is
    [max_depth - depth]. *)
Fixpoint probe_levels (wv : WordValidator) (target_word : str)
    (remaining : nat) (queue : list str) (visited : gset str)
  : bool * WordValidator :=
  match remaining, queue with
  | S remaining', _ :: _ =>
      match probe_level wv target_word queue visited [] with
      | (Reached, wv') => (true, wv')
      | (Unreached visited' next_queue, wv') =>
          probe_levels wv' target_word remaining' next_queue visited'
      end
  | _, _ => (false, wv)
  end.

(** [can_reach_target], for a depth bound that is not negative. *)
Definition can_reach_target (wv : WordValidator)
    (start_word target_word : str) (max_depth : nat)
  : bool * WordValidator :=
  if negb (length start_word =? length target_word)%nat then
    (false, wv)
  else
    let start_word := upper start_word in
    let target_word := upper target_word in
    if bool_decide (start_word = target_word) then (true, wv)
    else probe_levels wv target_word max_depth [start_word] {[start_word]}.

End Reachability.

End Lexicon.

(** ** The path finder: [app/nlp/path_finder.py] *)

Module Paths.

Import Py Lexicon.

Record PathFinder : Type := mkPathFinder {
  word_validator : WordValidator;
  path_cache : gmap str (list str);
  max_search_depth : nat
}.

Definition __init__ (corpus : option (list str)) : PathFinder :=
  mkPathFinder (Lexicon.__init__ corpus 3 8) ∅ 15.

(** What one pass over a BFS level ends with: [return new_path], or the
    loop runs to its end with the updated [visited] and [next_queue]. *)
Inductive level_result : Type :=
| Found (new_path : list str)
| Exhausted (visited : gset str) (next_queue : list (str * list str)).

(** The [for next_word in next_words] loop of [_find_path]. *)
Fixpoint scan_next_words (target_word : str) (path : list str)
    (next_words : list str) (visited : gset str)
    (next_queue : list (str * list str)) : level_result :=
  match next_words with
  | [] => Exhausted visited next_queue
  | next_word :: rest =>
      let next_word := upper next_word in
      if bool_decide (next_word ∈ visited) then
        scan_next_words target_word path rest visited next_queue
      else
        let visited := visited ∪ {[next_word]} in
        let new_path := path ++ [next_word] in
        if bool_decide (next_word = target_word) then Found new_path
        else
          scan_next_words target_word path rest visited
            (next_queue ++ [(next_word, new_path)])
  end.

Section WithWordNet.

Variable wordnet_synsets : str -> bool.

(** The inner [while queue] loop: one BFS level. *)
Fixpoint process_level (wv : WordValidator) (target_word : str)
    (queue : list (str * list str)) (visited : gset str)
    (next_queue : list (str * list str))
  : level_result * WordValidator :=
  match queue with
  | [] => (Exhausted visited next_queue, wv)
  | (current_word, path) :: queue' =>
      let '(next_words, wv') :=
        get_possible_words wordnet_synsets wv current_word in
      match scan_next_words target_word path next_words visited next_queue with
      | Found new_path => (Found new_path, wv')
      | Exhausted visited' next_queue' =>
          process_level wv' target_word queue' visited' next_queue'
      end
  end.

(** The outer [while queue and depth < self.max_search_depth] loop;
    [remaining] is [self.max_search_depth - depth]. *)
Fixpoint search_levels (wv : WordValidator) (target_word : str)
    (remaining : nat) (queue : list (str * list str))
    (visited : gset str) : option (list str) * WordValidator :=
  match remaining, queue with
  | S remaining', _ :: _ =>
      match process_level wv target_word queue visited [] with
      | (Found new_path, wv') => (Some new_path, wv')
      | (Exhausted visited' next_queue, wv') =>
          search_levels wv' target_word remaining' next_queue visited'
      end
  | _, _ => (None, wv)
  end.

Definition set_word_validator (pf : PathFinder) (wv : WordValidator) :=
  mkPathFinder wv (path_cache pf) (max_search_depth pf).

(** [cache_key = f"{start_word}_{target_word}"] *)
Definition cache_key (start_word target_word : str) : str :=
  start_word +:+ "_" +:+ target_word.

(** [_find_path] *)
Definition _find_path (pf : PathFinder) (start_word target_word : str)
  : option (list str) * PathFinder :=
  let start_word := upper start_word in
  let target_word := upper target_word in
  if bool_decide (start_word = target_word) then (Some [start_word], pf)
  else
    let '(start_ok, wv1) :=
      is_valid_word wordnet_synsets (word_validator pf) start_word in
    if negb start_ok then (None, set_word_validator pf wv1)
    else
      let '(target_ok, wv2) := is_valid_word wordnet_synsets wv1 target_word in
      if negb target_ok then (None, set_word_validator pf wv2)
      else
        match search_levels wv2 target_word (max_search_depth pf)
                [(start_word, [start_word])] {[start_word]} with
        | (Some new_path, wv3) =>
            (Some new_path,
             mkPathFinder wv3
               (<[cache_key start_word target_word := new_path]> (path_cache pf))
               (max_search_depth pf))
        | (None, wv3) => (None, set_word_validator pf wv3)
        end.

(** [get_shortest_path]: an alias of [_find_path]. *)
Definition get_shortest_path := _find_path.

(** [path_exists] *)
Definition path_exists (pf : PathFinder) (start_word target_word : str)
  : bool * PathFinder :=
  let start_word := upper start_word in
  let target_word := upper target_word in
  match path_cache pf !! cache_key start_word target_word with
  | Some _ => (true, pf)
  | None =>
      let '(path, pf') := _find_path pf start_word target_word in
      (match path with
       | Some path => (1 <? length path)%nat
       | None => false
       end, pf')
  end.

(** [get_next_word] *)
Definition get_next_word (pf : PathFinder) (current_word target_word : str)
  : str * PathFinder :=
  let current_word := upper current_word in
  let target_word := upper target_word in
  match path_cache pf !! cache_key current_word target_word with
  | Some path =>
      (match path with
       | _ :: second :: _ => second
       | _ => target_word
       end, pf)
  | None =>
      let '(path, pf') := _find_path pf current_word target_word in
      (match path with
       | Some (_ :: second :: _) => second
       | _ => target_word
       end, pf')
  end.

(** [get_all_paths]: only the shortest path, if there is one. *)
Definition get_all_paths (pf : PathFinder) (start_word target_word : str)
    (max_paths : Z) : list (list str) * PathFinder :=
  let start_word := upper start_word in
  let target_word := upper target_word in
  let '(shortest_path, pf') := _find_path pf start_word target_word in
  (match shortest_path with
   | Some ((_ :: _) as shortest_path) => [shortest_path]
   | _ => []
   end, pf').

End WithWordNet.

(** [clear_cache] and [get_cache_size] *)
Definition clear_cache (pf : PathFinder) : PathFinder :=
  mkPathFinder (word_validator pf) ∅ (max_search_depth pf).

Definition get_cache_size (pf : PathFinder) : nat := size (path_cache pf).

End Paths.

(** ** The data models: [app/models/game.py], [hint.py], [move.py] *)

Module Models.

Inductive GameStatus : Type := IN_PROGRESS | COMPLETED | ABANDONED | ACTIVE.

(** [GameStatus.X.value] *)
Definition GameStatus_value (s : GameStatus) : str :=
  match s with
  | IN_PROGRESS => "in_progress"
  | COMPLETED => "completed"
  | ABANDONED => "abandoned"
  | ACTIVE => "active"
  end.

Inductive GameMode : Type := CLASSIC | TIMED.

Inductive DifficultyLevel : Type := EASY | MEDIUM | HARD.

(** A naive [datetime], as microseconds on the wall clock. *)
Definition datetime : Type := Z.

(** [(later - earlier).seconds]: the seconds field of the normalised
    [timedelta] (days, seconds, microseconds), always within 0..86399. *)
Definition timedelta_seconds (later earlier : datetime) : Z :=
  ((later - earlier) / 1000000) mod 86400.

(** [(later - earlier).total_seconds()], rounded down to whole seconds:
    the time that really passed. *)
Definition total_seconds (later earlier : datetime) : Z :=
  (later - earlier) / 1000000.

Record Game : Type := mkGame {
  id : str;
  start_word : str;
  target_word : str;
  current_word : str;
  moves : list str;
  status : str;
  difficulty : DifficultyLevel;
  game_mode : GameMode;
  player_id : option str;
  created_at : datetime;
  time_elapsed : Z
}.

(** [Game(id=.., start_word=.., target_word=.., current_word=..,
    difficulty=.., game_mode=..)]: every field with a default in the class
    body takes it.  [class_created] is the value [datetime.now()] had when
    the class body was evaluated. *)
Definition Game_with_defaults (class_created : datetime)
    (id start_word target_word current_word : str)
    (difficulty : DifficultyLevel) (game_mode : GameMode) : Game :=
  mkGame id start_word target_word current_word [] "active"
    difficulty game_mode None class_created 0.

Definition set_status (g : Game) (st : str) : Game :=
  mkGame (id g) (start_word g) (target_word g) (current_word g) (moves g) st
    (difficulty g) (game_mode g) (player_id g) (created_at g) (time_elapsed g).

Definition set_time_elapsed (g : Game) (t : Z) : Game :=
  mkGame (id g) (start_word g) (target_word g) (current_word g) (moves g)
    (status g) (difficulty g) (game_mode g) (player_id g) (created_at g) t.

Definition set_moves (g : Game) (ms : list str) : Game :=
  mkGame (id g) (start_word g) (target_word g) (current_word g) ms
    (status g) (difficulty g) (game_mode g) (player_id g) (created_at g)
    (time_elapsed g).

Definition set_current_word (g : Game) (w : str) : Game :=
  mkGame (id g) (start_word g) (target_word g) w (moves g)
    (status g) (difficulty g) (game_mode g) (player_id g) (created_at g)
    (time_elapsed g).

Inductive HintType : Type := GENERAL | SEMANTIC | POSITION | LETTER.

Record Hint : Type := mkHint {
  hint_type : HintType;
  hint_text : str;
  position : option nat;
  suggested_letter : option str
}.

Record MoveResult : Type := mkMoveResult {
  is_target : bool;
  moves_count : nat;
  path : list str;
  message : str
}.

End Models.

(** ** The game engine: [app/core/game_engine.py] *)

Module Engine.

Import Py Lexicon Models.

(** The engine owns a validator and a path finder; the path finder owns a
    validator of its own.  The [word_processor] attribute takes no part in
    the methods below. *)
Record GameEngine : Type := mkGameEngine {
  word_validator : WordValidator;
  path_finder : Paths.PathFinder
}.

Definition __init__ (corpus : option (list str)) : GameEngine :=
  mkGameEngine (Lexicon.__init__ corpus 3 8) (Paths.__init__ corpus).

Definition set_word_validator (ge : GameEngine) (wv : WordValidator) :=
  mkGameEngine wv (path_finder ge).

Definition set_path_finder (ge : GameEngine) (pf : Paths.PathFinder) :=
  mkGameEngine (word_validator ge) pf.

(** [word in game.moves] *)
Definition word_in (word : str) (l : list str) : bool :=
  bool_decide (word ∈ l).

(** [s[i]] as a one-character str. *)
Definition char_str (c : N) : str := [c].

(** The loop of the level 2 hint: the first index at which the two words
    differ.  [current_word[i]] is in range by construction of the index
    list; [next_word[i]] may not be. *)
Fixpoint find_position (current_word next_word : str) (indices : list nat)
  : outcome (option nat) :=
  match indices with
  | [] => Return None
  | i :: rest =>
      match current_word !! i, next_word !! i with
      | Some a, Some b =>
          if negb (N.eqb a b) then Return (Some i)
          else find_position current_word next_word rest
      | _, _ => Raise IndexError
      end
  end.

(** The loop of the level 3 hint: it also records [next_word[i]]. *)
Fixpoint find_position_letter (current_word next_word : str)
    (indices : list nat) : outcome (option nat * option str) :=
  match indices with
  | [] => Return (None, None)
  | i :: rest =>
      match current_word !! i, next_word !! i with
      | Some a, Some b =>
          if negb (N.eqb a b) then Return (Some i, Some (char_str b))
          else find_position_letter current_word next_word rest
      | _, _ => Raise IndexError
      end
  end.

(** [game.current_word[position]], used in the hint texts. *)
Definition char_at (w : str) (i : nat) : str :=
  match w !! i with
  | Some c => char_str c
  | None => []
  end.

Section WithWordNet.

Variable wordnet_synsets : str -> bool.

(** [make_move].  [now1] is the reading of [datetime.now()] at the time
    check, [now2] the reading at the final refresh of [time_elapsed].
    The result comes with the game and the engine as the call leaves
    them. *)
Definition make_move (ge : GameEngine) (game : Game) (word : str)
    (now1 now2 : datetime) : outcome MoveResult * Game * GameEngine :=
  let word := upper word in
  if negb (Py.eqb (status game) (GameStatus_value IN_PROGRESS)) then
    (Raise (ValueError "Game is already completed"), game, ge)
  else
    let timed :=
      match game_mode game with TIMED => true | CLASSIC => false end in
    let time_elapsed := timedelta_seconds now1 (created_at game) in
    if timed && (300 <? time_elapsed) then
      (Raise (ValueError "Time limit exceeded"),
       set_status game (GameStatus_value ABANDONED), ge)
    else
      let game := if timed then set_time_elapsed game time_elapsed else game in
      let '(valid, wv) := is_valid_word wordnet_synsets (word_validator ge) word in
      let ge := set_word_validator ge wv in
      if negb valid then
        (Raise (ValueError ("Invalid word: " +:+ word)), game, ge)
      else if negb (is_one_letter_change (current_word game) word) then
        (Raise (ValueError "Word must differ by exactly one letter"), game, ge)
      else if word_in word (moves game) || Py.eqb word (start_word game) then
        (Raise (ValueError "Word already used in this game"), game, ge)
      else
        let game := set_moves game (moves game ++ [word]) in
        let game := set_current_word game word in
        let is_target := Py.eqb word (target_word game) in
        let '(game, message, ge) :=
          if is_target then
            (set_status game (GameStatus_value COMPLETED),
             "Congratulations! You've reached the target word in "
               +:+ str_of_nat (length (moves game)) +:+ " moves.",
             ge)
          else
            let '(remaining_path, pf) :=
              Paths._find_path wordnet_synsets (path_finder ge) word
                (target_word game) in
            (game,
             match remaining_path with
             | Some ((_ :: _) as remaining_path) =>
                 "Good move! Approximately "
                   +:+ str_of_nat (length remaining_path - 1)
                   +:+ " moves remaining to reach the target."
             | _ =>
                 py "Valid move, but this might not be the optimal path. Keep going!"
             end,
             set_path_finder ge pf) in
        let game :=
          if timed then
            set_time_elapsed game (timedelta_seconds now2 (created_at game))
          else game in
        (Return (mkMoveResult is_target (length (moves game)) (moves game) message),
         game, ge).

(** [get_hint].  The game is only read. *)
Definition get_hint (ge : GameEngine) (game : Game) (hint_level : Z)
  : outcome Hint * GameEngine :=
  if negb (Py.eqb (status game) (GameStatus_value IN_PROGRESS)) then
    (Return (mkHint GENERAL "Game is already completed!" None None), ge)
  else
    let '(path, pf) :=
      Paths._find_path wordnet_synsets (path_finder ge)
        (upper (current_word game)) (upper (target_word game)) in
    let ge := set_path_finder ge pf in
    match path with
    | Some ((first :: second :: _) as path) =>
        let next_word := upper second in
        let indices := seq 0 (length (current_word game)) in
        if hint_level =? 1 then
          let moves_left := (length path - 1)%nat in
          (Return (mkHint SEMANTIC
             ("You're approximately " +:+ str_of_nat moves_left
                +:+ " moves away from '" +:+ target_word game
                +:+ "'. Think of words related to your target!")
             None None), ge)
        else if hint_level =? 2 then
          match find_position (current_word game) next_word indices with
          | Raise e => (Raise e, ge)
          | Return (Some position) =>
              (Return (mkHint POSITION
                 ("Try changing the letter at position "
                    +:+ str_of_nat (position + 1) +:+ " (the '"
                    +:+ char_at (current_word game) position +:+ "').")
                 (Some position) None), ge)
          | Return None =>
              (Return (mkHint GENERAL
                 "Something went wrong with the hint. Keep trying!"
                 None None), ge)
          end
        else
          match find_position_letter (current_word game) next_word indices with
          | Raise e => (Raise e, ge)
          | Return (Some position, Some suggested_letter) =>
              (Return (mkHint LETTER
                 ("Change the '" +:+ char_at (current_word game) position
                    +:+ "' at position " +:+ str_of_nat (position + 1)
                    +:+ " to '" +:+ suggested_letter +:+ "' to make '"
                    +:+ next_word +:+ "'.")
                 (Some position) (Some suggested_letter)), ge)
          | Return _ =>
              (Return (mkHint GENERAL
                 "You're very close! Keep trying with small changes."
                 None None), ge)
          end
    | _ =>
        let '(possible_words, wv) :=
          get_possible_words wordnet_synsets (word_validator ge)
            (current_word game) in
        let ge := set_word_validator ge wv in
        match possible_words with
        | _ :: _ =>
            (Return (mkHint GENERAL
               ("You can change one letter to make: "
                  +:+ join ", " (firstn 3 possible_words)
                  +:+ "... Keep exploring!")
               None None), ge)
        | [] =>
            (Return (mkHint GENERAL
               "Keep trying! Look for valid words by changing one letter."
               None None), ge)
        end
    end.

(** The loop [for attempt in range(max_attempts)] of [create_game].
    [draw attempt] is the pair [get_word_pair] returns at that attempt;
    [words] holds [start_word] and [target_word] once they are bound. *)
Fixpoint attempt_loop (ge : GameEngine) (draw : nat -> str * str)
    (attempts : list nat) (path : option (list str))
    (words : option (str * str))
  : option (list str) * option (str * str) * GameEngine :=
  match attempts with
  | [] => (path, words, ge)
  | attempt :: rest =>
      let '(start_word, target_word) := draw attempt in
      let words := Some (start_word, target_word) in
      let '(start_ok, wv) :=
        is_valid_word wordnet_synsets (word_validator ge) start_word in
      let ge := set_word_validator ge wv in
      if negb start_ok then attempt_loop ge draw rest path words
      else
        let '(target_ok, wv) :=
          is_valid_word wordnet_synsets (word_validator ge) target_word in
        let ge := set_word_validator ge wv in
        if negb target_ok then attempt_loop ge draw rest path words
        else
          let '(path, pf) :=
            Paths._find_path wordnet_synsets (path_finder ge)
              (upper start_word) (upper target_word) in
          let ge := set_path_finder ge pf in
          if match path with
             | Some p => (1 <? length p)%nat
             | None => false
             end
          then (path, words, ge)
          else attempt_loop ge draw rest path words
  end.

(** [create_game].  [game_id] is the fresh [uuid4], [now] the reading of
    [datetime.now()].  The words are bound whenever a path was found, so
    the fallback covers every other state of the loop's variables. *)
Definition create_game (ge : GameEngine) (draw : nat -> str * str)
    (difficulty : DifficultyLevel) (game_mode : GameMode) (word_length : Z)
    (player_id : option str) (game_id : str) (now : datetime)
  : Game * GameEngine :=
  let max_attempts := 20%nat in
  let '(path, words, ge) := attempt_loop ge draw (seq 0 max_attempts) None None in
  let found :=
    match path, words with
    | Some p, Some (start_word, target_word) =>
        if (1 <? length p)%nat then Some (start_word, target_word) else None
    | _, _ => None
    end in
  let '(start_word, target_word, ge) :=
    match found with
    | Some (start_word, target_word) => (start_word, target_word, ge)
    | None =>
        let '(start_word, target_word) :=
          if word_length =? 4 then (py "COLD", py "WARM")
          else (py "HOUSE", py "RANCH") in
        let '(_, pf) :=
          Paths._find_path wordnet_synsets (path_finder ge)
            start_word target_word in
        (start_word, target_word, set_path_finder ge pf)
    end in
  (mkGame game_id (upper start_word) (upper target_word) (upper start_word)
     [] (GameStatus_value IN_PROGRESS) difficulty game_mode player_id now 0,
   ge).

(** The loop of [validate_game_state] over [game.moves]. *)
Fixpoint moves_form_chain (current_check : str) (moves : list str)
  : bool :=
  match moves with
  | [] => true
  | move :: rest =>
      if negb (is_one_letter_change current_check move) then false
      else moves_form_chain move rest
  end.

(** [validate_game_state] *)
Definition validate_game_state (ge : GameEngine) (game : Game)
  : bool * GameEngine :=
  let '(ok, wv) :=
    is_valid_word wordnet_synsets (word_validator ge) (start_word game) in
  let ge := set_word_validator ge wv in
  if negb ok then (false, ge)
  else
    let '(ok, wv) :=
      is_valid_word wordnet_synsets (word_validator ge) (target_word game) in
    let ge := set_word_validator ge wv in
    if negb ok then (false, ge)
    else
      let '(ok, wv) :=
        is_valid_word wordnet_synsets (word_validator ge) (current_word game) in
      let ge := set_word_validator ge wv in
      if negb ok then (false, ge)
      else (moves_form_chain (start_word game) (moves game), ge).

End WithWordNet.

End Engine.

(** ** Word pairs: [app/utils/word_list.py] *)

Module WordList.

Import Py.

(** The loops over [range(len(word1))] that compare
    [word1[i].upper()] with [word2[i].upper()]; the two words have the
    same length when the loops run. *)
Fixpoint any_position_matches (word1 word2 : str) : bool :=
  match word1, word2 with
  | c1 :: r1, c2 :: r2 =>
      if Py.eqb (upper_char c1) (upper_char c2) then true
      else any_position_matches r1 r2
  | _, _ => false
  end.

Fixpoint count_matching_positions (word1 word2 : str) : nat :=
  match word1, word2 with
  | c1 :: r1, c2 :: r2 =>
      ((if Py.eqb (upper_char c1) (upper_char c2) then 1 else 0)
       + count_matching_positions r1 r2)%nat
  | _, _ => 0%nat
  end.

(** [has_matching_position_letters] *)
Definition has_matching_position_letters (word1 word2 : str) : bool :=
  if negb (length word1 =? length word2)%nat then false
  else any_position_matches word1 word2.

(** [validate_word_pair] *)
Definition validate_word_pair (start_word target_word : str) : bool :=
  if negb (length start_word =? length target_word)%nat then false
  else if Py.eqb (upper start_word) (upper target_word) then false
  else
    let matching_positions := count_matching_positions start_word target_word in
    if (1 <? matching_positions)%nat then false else true.

(** [get_fallback_pairs] *)
Definition get_fallback_pairs (length : Z) : list (str * str) :=
  if length =? 4 then
    [(py "COLD", py "WARM"); (py "BANK", py "LOAN"); (py "FAST", py "SLOW");
     (py "ROCK", py "SAND")]
  else
    [(py "HOUSE", py "RANCH"); (py "HAPPY", py "SMILE");
     (py "BRAIN", py "THINK"); (py "OCEAN", py "WATER")].

End WordList.

(** ** The word graph *)

(** The vocabulary in which the properties below are stated: the verdict of
    the oracle in a given state, the substitutions [get_possible_words]
    tries, and ladders (paths) in the graph whose edges it defines. *)

Module Graph.

Import Py Lexicon.

(** All substitutions at position [i], in alphabet order. *)
Definition letter_candidates (word : str) (i : nat) : list str :=
  flat_map (fun letter =>
    if bool_decide (word !! i = Some letter) then []
    else [substitute word i letter]) ALPHABET.

(** All substitutions, position-major. *)
Definition candidates (word : str) : list str :=
  flat_map (letter_candidates word) (seq 0 (length word)).

(** Consecutive elements of [p] are related by [R]. *)
Fixpoint chain (R : str -> str -> Prop) (p : list str) : Prop :=
  match p with
  | u :: (v :: _) as p' => R u v /\ chain R p'
  | _ => True
  end.

(** [p] leads from [s] to [t] along [R]; both ends belong to [p]. *)
Definition path_between (R : str -> str -> Prop) (s t : str)
    (p : list str) : Prop :=
  head p = Some s /\ last p = Some t /\ chain R p.

Section WithWordNet.

Variable wordnet_synsets : str -> bool.

(** The verdict of [is_valid_word] in state [wv]. *)
Definition valid (wv : WordValidator) (word : str) : bool :=
  fst (is_valid_word wordnet_synsets wv word).

(** Two states in which the oracle gives the same verdicts. *)
Definition same_oracle (wv wv' : WordValidator) : Prop :=
  forall word, valid wv' word = valid wv word.

(** The stateless part of [is_valid_word]: the checks made before the memo
    table is consulted. *)
Definition passes_checks (wv : WordValidator) (word : str) : bool :=
  match word with
  | [] => false
  | _ =>
      let word := strip word in
      let len := Z.of_nat (length word) in
      negb ((len <? min_word_length wv) || (max_word_length wv <? len))
      && re_class_plus_end is_ascii_letter word
      && negb (bool_decide (upper word ∈ _excluded_words wv))
  end.

(** The verdict of the three sources for a normalised key, as
    [is_valid_word] computes it when the memo table has no entry. *)
Definition sources_verdict (wv : WordValidator) (word_upper : str) : bool :=
  let word_lower := lower word_upper in
  bool_decide (word_upper ∈ custom_words wv)
  || bool_decide (word_lower ∈ custom_words wv)
  || match _nltk_words_cache wv with
     | Some nltk =>
         negb (bool_decide (nltk = ∅)) && bool_decide (word_upper ∈ nltk)
     | None => false
     end
  || (wordnet_synsets word_lower && _is_good_english_word wv word_upper).

(** The list [get_possible_words] returns, as a function of the oracle. *)
Definition neighbors (wv : WordValidator) (word : str) : list str :=
  List.filter (valid wv) (candidates (upper word)).

(** The edges of the word graph: [v] is among [get_possible_words(u)]. *)
Definition word_edge (wv : WordValidator) (u v : str) : Prop :=
  In v (fst (get_possible_words wordnet_synsets wv u)).

(** A ladder from [s] to [t]: a path in the word graph. *)
Definition ladder (wv : WordValidator) (s t : str) (p : list str) : Prop :=
  path_between (word_edge wv) s t p.

End WithWordNet.

End Graph.

(** ** Breadth-first search over a successor function *)

(** [_find_path] with the oracle abstracted: the two loops of the search
    over an arbitrary successor function [next], and the vocabulary of
    its invariant. *)

Module Search.

Import Py Paths Graph.

Section Pure.

Variable next : str -> list str.

(** The inner [while queue] loop, with [next] for [get_possible_words]. *)
Fixpoint process_level_pure (target_word : str)
    (queue : list (str * list str)) (visited : gset str)
    (next_queue : list (str * list str)) : level_result :=
  match queue with
  | [] => Exhausted visited next_queue
  | (current_word, path) :: queue' =>
      match scan_next_words target_word path (next current_word)
              visited next_queue with
      | Found new_path => Found new_path
      | Exhausted visited' next_queue' =>
          process_level_pure target_word queue' visited' next_queue'
      end
  end.

(** The outer loop. *)
Fixpoint search_levels_pure (target_word : str) (remaining : nat)
    (queue : list (str * list str)) (visited : gset str)
  : option (list str) :=
  match remaining, queue with
  | S remaining', _ :: _ =>
      match process_level_pure target_word queue visited [] with
      | Found new_path => Some new_path
      | Exhausted visited' next_queue =>
          search_levels_pure target_word remaining' next_queue visited'
      end
  | _, _ => None
  end.

(** One step of the search: [v] is (the upper case of) a successor. *)
Definition step (u v : str) : Prop := In v (map upper (next u)).

(** [v] is reached from [start] by exactly [n] steps. *)
Inductive reach (start : str) : nat -> str -> Prop :=
| reach_O : reach start 0 start
| reach_S n u v : reach start n u -> step u v -> reach start (S n) v.

(** A queue entry at depth [d]: a duplicate-free path of [d] steps from
    [start] to the word, all of it visited. *)
Definition item_ok (start : str) (d : nat) (visited : gset str)
    (item : str * list str) : Prop :=
  path_between step start (fst item) (snd item)
  /\ length (snd item) = S d
  /\ NoDup (snd item)
  /\ forall x, In x (snd item) -> x ∈ visited.

(** The invariant at the head of the outer loop, at depth [d]. *)
Record level_inv (start target : str) (d : nat)
    (queue : list (str * list str)) (visited : gset str) : Prop := {
  inv_items : Forall (item_ok start d visited) queue;
  inv_sound : forall v, v ∈ visited -> exists k, (k <= d)%nat /\ reach start k v;
  inv_complete : forall k v, (k <= d)%nat -> reach start k v -> v ∈ visited;
  inv_frontier : forall v, reach start d v ->
    In v (map fst queue) \/ exists k, (k < d)%nat /\ reach start k v;
  inv_target : target ∉ visited
}.

(** The invariant inside a level at depth [d] that started from
    [visited0]. *)
Record mid_inv (start target : str) (d : nat) (visited0 visited : gset str)
    (next_queue : list (str * list str)) : Prop := {
  mid_items : Forall (item_ok start (S d) visited) next_queue;
  mid_sound : forall v, v ∈ visited -> exists k, (k <= S d)%nat /\ reach start k v;
  mid_new : forall v, v ∈ visited -> v ∈ visited0 \/ In v (map fst next_queue);
  mid_mono : visited0 ⊆ visited;
  mid_target : target ∉ visited
}.

End Pure.

End Search.

(** ** What [WordValidator.__init__] establishes *)

Module Built.

Import Py Lexicon.

(** [x] is the lower or upper case spelling of a word of [L]. *)
Definition spelling_of (L : list str) (x : str) : Prop :=
  exists w, In w L /\ (x = lower w \/ x = upper w).

Definition no_spelling (L : list str) (x : str) : bool :=
  forallb (fun w => negb (Py.eqb (lower w) x || Py.eqb (upper w) x)) L.

(** All the words [__init__] may put into [custom_words]. *)
Definition dictionary_sources : list str :=
  words_4 ++ words_5 ++ critical_words.

(** What every loading step of [__init__] keeps. *)
Record built (a b : Z) (wv : WordValidator) : Prop := {
  built_min : min_word_length wv = a;
  built_max : max_word_length wv = b;
  built_cache : _wordnet_cache wv = ∅;
  built_excluded : _excluded_words wv = list_to_set excluded_word_list;
  built_custom : forall x, x ∈ custom_words wv -> spelling_of dictionary_sources x
}.

End Built.

(** ** Small concrete objects for the examples *)

Module Fixtures.

Import Py Lexicon Models.

(** WordNet knows no word. *)
Definition silent_wordnet : str -> bool := fun _ => false.

(** The words of the COLD to WARM ladder that
    [_add_critical_path_words] lists first. *)
Definition ladder_words : list str :=
  map py ["COLD"; "CORD"; "CARD"; "WORD"; "WARD"; "WORM"; "WARM"].

(** A validator with the default bounds and the exclusion list of
    [__init__], no NLTK corpus, and [ladder_words] as its dictionary,
    added as the loading loops add words. *)
Definition small_validator : WordValidator :=
  fold_left (fun wv word =>
    set_custom_words wv (add_both_cases (custom_words wv) word))
    ladder_words
    (mkWordValidator 3 8 ∅ ∅ (Some ∅) (list_to_set excluded_word_list)).

Definition small_path_finder : Paths.PathFinder :=
  Paths.mkPathFinder small_validator ∅ 15.

Definition small_engine : Engine.GameEngine :=
  Engine.mkGameEngine small_validator small_path_finder.

(** A game from COLD, as [create_game] constructs games, with a given
    target, position, history, mode and creation time. *)
Definition cold_game (target current : str) (history : list str)
    (mode : GameMode) (created : datetime) : Game :=
  mkGame "game-1" "COLD" target current history "in_progress" MEDIUM mode
    None created 0.

End Fixtures.

(** ** Measures on words *)

Module Measures.

Import Py.

(** The number of aligned positions at which two words differ, over the
    positions both have (as [zip] pairs them). *)
Fixpoint hamming (a b : str) : nat :=
  match a, b with
  | x :: a', y :: b' =>
      ((if N.eqb x y then 0 else 1) + hamming a' b')%nat
  | _, _ => 0%nat
  end.

(** Every character of the word belongs to the class. *)
Fixpoint all_chars (cls : N -> bool) (s : str) : bool :=
  match s with
  | [] => true
  | c :: s' => cls c && all_chars cls s'
  end.

(** The code points of ASCII. *)
Definition is_ascii (c : N) : bool := (c <? 128)%N.

End Measures.

(** ** The invariant of the path cache *)

Module CacheInv.

Import Py Lexicon Paths Graph.

Section WithWordNet.

Variable wordnet_synsets : str -> bool.

(** [p] is a shortest ladder from [s] to [t]: a ladder, without a
    repeated word, that no ladder from [s] to [t] beats. *)
Definition shortest_ladder (wv : WordValidator) (s t : str)
    (p : list str) : Prop :=
  ladder wordnet_synsets wv s t p
  /\ NoDup p
  /\ forall q, ladder wordnet_synsets wv s t q -> (length p <= length q)%nat.

(** Every cached path is a shortest ladder between the two words of its
    key, under the path finder's own validator. *)
Definition cache_sound (pf : PathFinder) : Prop :=
  forall key p, path_cache pf !! key = Some p ->
    exists s t, key = cache_key s t
                /\ shortest_ladder (word_validator pf) s t p.

End WithWordNet.

End CacheInv.

(** ** The invariant of a game *)

Module GameInv.

Import Py Lexicon Models Engine.

(** The shape of a game that the engine keeps: the position is the last
    move (or the start), the start and the moves are pairwise distinct
    upper-case words, and each move is a one-letter change of the word
    before it. *)
Record well_formed (game : Game) : Prop := {
  wf_position : current_word game = default (start_word game) (last (moves game));
  wf_simple : NoDup (start_word game :: moves game);
  wf_chain : moves_form_chain (start_word game) (moves game) = true;
  wf_upper : Forall (fun w => upper w = w) (start_word game :: moves game)
}.

End GameInv.

(** ** Checks on the Unicode tables *)

Module TableChecks.

Import Py.

(** What the upper-case table must satisfy for [upper] to commute with
    [strip] and to be idempotent: no key is ASCII or white space, no
    image is empty, and every character of an image is neither white
    space nor changed by a second upper-casing. *)
Definition upper_entry_ok (entry : N * list N) : bool :=
  let '(k, v) := entry in
  negb (k <? 128)%N && negb (isspace k)
  && match v with [] => false | _ => true end
  && forallb (fun x => negb (isspace x) && Py.eqb (upper_char x) [x]) v.

End TableChecks.
(** * Part II: properties *)

(** ** Facts about the string primitives *)

Module PyFacts.

Import Py Measures TableChecks.

(** *** Equality of strings *)

Lemma eqb_eq a b : Py.eqb a b = true <-> a = b.
Proof. apply bool_decide_eq_true. Qed.

Lemma eqb_neq a b : Py.eqb a b = false <-> a <> b.
Proof. apply bool_decide_eq_false. Qed.

Lemma eqb_refl a : Py.eqb a a = true.
Proof. by apply eqb_eq. Qed.

Lemma eqb_sym a b : Py.eqb a b = Py.eqb b a.
Proof.
  destruct (Py.eqb b a) eqn:H.
  - apply eqb_eq in H as ->. apply eqb_refl.
  - apply eqb_neq in H. by apply eqb_neq.
Qed.

(** *** ASCII *)

Ltac split_comparisons :=
  repeat match goal with
  | |- context [(?a <=? ?b)%N] => destruct (N.leb_spec a b)
  | |- context [(?a <? ?b)%N] => destruct (N.ltb_spec a b)
  | |- context [(?a =? ?b)%N] => destruct (N.eqb_spec a b)
  | H : context [(?a <=? ?b)%N] |- _ => destruct (N.leb_spec a b)
  | H : context [(?a <? ?b)%N] |- _ => destruct (N.ltb_spec a b)
  | H : context [(?a =? ?b)%N] |- _ => destruct (N.eqb_spec a b)
  end.

Ltac char_arith :=
  unfold ascii_upper, ascii_lower, is_ascii_letter, is_ascii_lower,
    is_ascii_upper, is_ascii in *;
  split_comparisons; cbn [andb orb negb] in *;
  try discriminate; try reflexivity; try lia.

(** The white space of Unicode. *)
Lemma isspace_iff c :
  isspace c = true
  <-> (9 <= c <= 13 \/ 28 <= c <= 32 \/ c = 133 \/ c = 160 \/ c = 5760
       \/ 8192 <= c <= 8202 \/ 8232 <= c <= 8233 \/ c = 8239 \/ c = 8287
       \/ c = 12288)%N.
Proof.
  unfold isspace, in_ranges, Unicode.white_space. cbn [existsb fst snd].
  rewrite !orb_true_iff, !andb_true_iff, !N.leb_le. lia.
Qed.

Lemma isspace_false_iff c :
  isspace c = false
  <-> ~ (9 <= c <= 13 \/ 28 <= c <= 32 \/ c = 133 \/ c = 160 \/ c = 5760
         \/ 8192 <= c <= 8202 \/ 8232 <= c <= 8233 \/ c = 8239 \/ c = 8287
         \/ c = 12288)%N.
Proof. rewrite <- isspace_iff. by destruct (isspace c). Qed.

Lemma ascii_upper_idem c : ascii_upper (ascii_upper c) = ascii_upper c.
Proof. char_arith. Qed.

Lemma ascii_lower_upper c : ascii_lower (ascii_upper c) = ascii_lower c.
Proof. char_arith. Qed.

Lemma ascii_upper_lower c : ascii_upper (ascii_lower c) = ascii_upper c.
Proof. char_arith. Qed.

Lemma ascii_upper_fixes_upper c : is_ascii_upper c = true -> ascii_upper c = c.
Proof. intros H. char_arith. Qed.

Lemma is_ascii_upper_ascii c : is_ascii c = true -> is_ascii (ascii_upper c) = true.
Proof. intros H. char_arith. Qed.

Lemma is_ascii_lower_ascii c : is_ascii c = true -> is_ascii (ascii_lower c) = true.
Proof. intros H. char_arith. Qed.

Lemma is_ascii_letter_upper c :
  is_ascii_letter (ascii_upper c) = is_ascii_letter c.
Proof. char_arith. Qed.

Lemma ascii_upper_is_newline c : (ascii_upper c =? 10)%N = (c =? 10)%N.
Proof. char_arith. Qed.

Lemma letter_is_ascii c : is_ascii_letter c = true -> is_ascii c = true.
Proof. intros H. char_arith. Qed.

Lemma upper_letter_is_ascii c : is_ascii_upper c = true -> is_ascii c = true.
Proof. intros H. char_arith. Qed.

Lemma letter_not_space c : is_ascii_letter c = true -> isspace c = false.
Proof. intros H. apply isspace_false_iff. char_arith. Qed.

Lemma space_not_lower c : isspace c = true -> is_ascii_lower c = false.
Proof. intros H%isspace_iff. char_arith. Qed.

Lemma ascii_space_upper c :
  isspace c = false -> isspace (ascii_upper c) = false.
Proof. rewrite !isspace_false_iff. char_arith. Qed.

Lemma ascii_upper_not_lower c : is_ascii_lower (ascii_upper c) = false.
Proof. char_arith. Qed.

Lemma upper_char_ascii c : is_ascii c = true -> upper_char c = [ascii_upper c].
Proof. unfold upper_char, is_ascii. by intros ->. Qed.

Lemma lower_char_ascii c : is_ascii c = true -> lower_char c = [ascii_lower c].
Proof. unfold lower_char, is_ascii. by intros ->. Qed.

(** *** The upper-case table *)

Lemma assoc_In c table v : assoc c table = Some v -> In (c, v) table.
Proof.
  induction table as [|[k w] table IH]; simpl; [done|].
  destruct (N.eqb_spec k c) as [->|]; [intros [= ->]; by left|].
  intros H. right. by apply IH.
Qed.

Lemma to_upper_ok : forallb upper_entry_ok Unicode.to_upper = true.
Proof. vm_compute. reflexivity. Qed.

Lemma to_upper_entry c v :
  assoc c Unicode.to_upper = Some v ->
  isspace c = false /\ v <> []
  /\ forall x, In x v -> isspace x = false /\ upper_char x = [x].
Proof.
  intros H%assoc_In.
  pose proof to_upper_ok as Hok. rewrite forallb_forall in Hok.
  specialize (Hok _ H). unfold upper_entry_ok in Hok.
  rewrite !andb_true_iff, !negb_true_iff in Hok.
  destruct Hok as (((_ & Hk) & Hv) & Hall).
  split; [done|]. split; [by destruct v|].
  intros x Hx. rewrite forallb_forall in Hall. specialize (Hall x Hx).
  rewrite andb_true_iff, negb_true_iff, eqb_eq in Hall. done.
Qed.

(** White space has no case. *)
Lemma upper_char_space c : isspace c = true -> upper_char c = [c].
Proof.
  intros Hc. unfold upper_char.
  destruct (N.ltb_spec c 128) as [Hlt|Hge].
  - f_equal. apply space_not_lower in Hc. unfold ascii_upper. by rewrite Hc.
  - destruct (assoc c Unicode.to_upper) as [v|] eqn:Hv; [|done].
    apply to_upper_entry in Hv as (Hk & _). congruence.
Qed.

(** The upper case of a character is not empty, has no white space unless
    the character is white space, and is its own upper case. *)
Lemma upper_char_nonempty c : upper_char c <> [].
Proof.
  unfold upper_char. destruct (c <? 128)%N; [done|].
  destruct (assoc c Unicode.to_upper) as [v|] eqn:Hv; [|done].
  by apply to_upper_entry in Hv as (_ & Hne & _).
Qed.

Lemma upper_char_nonspace c x :
  isspace c = false -> In x (upper_char c) -> isspace x = false.
Proof.
  intros Hc. unfold upper_char.
  destruct (N.ltb_spec c 128) as [Hlt|Hge].
  - intros [<-|[]]. by apply ascii_space_upper.
  - destruct (assoc c Unicode.to_upper) as [v|] eqn:Hv; cbn [default].
    + apply to_upper_entry in Hv as (_ & _ & Hall). intros Hx. by apply Hall.
    + by intros [<-|[]].
Qed.

Lemma upper_char_fixed c x : In x (upper_char c) -> upper_char x = [x].
Proof.
  unfold upper_char at 1.
  destruct (N.ltb_spec c 128) as [Hlt|Hge].
  - intros [<-|[]]. rewrite upper_char_ascii.
    + by rewrite ascii_upper_idem.
    + apply is_ascii_upper_ascii. by apply N.ltb_lt.
  - destruct (assoc c Unicode.to_upper) as [v|] eqn:Hv; cbn [default].
    + apply to_upper_entry in Hv as (_ & _ & Hall). intros Hx. by apply Hall.
    + intros [<-|[]]. unfold upper_char.
      destruct (N.ltb_spec c 128); [lia|]. by rewrite Hv.
Qed.

(** *** [upper] *)

Lemma upper_cons c s : upper (c :: s) = upper_char c ++ upper s.
Proof. reflexivity. Qed.

Lemma upper_app s t : upper (s ++ t) = upper s ++ upper t.
Proof. apply flat_map_app. Qed.

Lemma upper_fixed s :
  (forall x, In x s -> upper_char x = [x]) -> upper s = s.
Proof.
  induction s as [|c s IH]; intros H; [done|].
  rewrite upper_cons, (H c) by (by left). simpl. f_equal.
  apply IH. intros x Hx. apply H. by right.
Qed.

Lemma in_upper x s : In x (upper s) -> exists c, In c s /\ In x (upper_char c).
Proof. unfold upper. rewrite in_flat_map. done. Qed.

Lemma upper_idem s : upper (upper s) = upper s.
Proof.
  apply upper_fixed. intros x (c & _ & Hx)%in_upper. by eapply upper_char_fixed.
Qed.

Lemma upper_empty s : upper s = [] <-> s = [].
Proof.
  split; [|by intros ->]. destruct s as [|c s]; [done|].
  rewrite upper_cons. intros [H _]%app_eq_nil. by apply upper_char_nonempty in H.
Qed.

(** Upper-casing commutes with stripping. *)
Lemma lstrip_expand (g : N -> list N) s :
  (forall c, isspace c = true -> g c = [c]) ->
  (forall c, isspace c = false ->
             exists x l, g c = x :: l /\ isspace x = false) ->
  lstrip (flat_map g s) = flat_map g (lstrip s).
Proof.
  intros Hsp Hns. induction s as [|c s IH]; [done|].
  cbn [flat_map lstrip]. destruct (isspace c) eqn:Hc.
  - rewrite (Hsp c Hc). cbn [app lstrip]. by rewrite Hc.
  - destruct (Hns c Hc) as (x & l & Hg & Hx). rewrite Hg.
    cbn [app lstrip]. rewrite Hx. cbn [flat_map]. by rewrite Hg.
Qed.

Lemma upper_char_head c :
  isspace c = false -> exists x l, upper_char c = x :: l /\ isspace x = false.
Proof.
  intros Hc. pose proof (upper_char_nonempty c) as Hne.
  pose proof (upper_char_nonspace c) as Hns.
  destruct (upper_char c) as [|x l]; [done|].
  exists x, l. split; [done|]. apply Hns; [done|by left].
Qed.

Lemma upper_char_last c :
  isspace c = false ->
  exists x l, rev (upper_char c) = x :: l /\ isspace x = false.
Proof.
  intros Hc. pose proof (upper_char_nonempty c) as Hne.
  pose proof (upper_char_nonspace c) as Hns.
  destruct (rev (upper_char c)) as [|x l] eqn:Hr.
  - apply (f_equal (@rev N)) in Hr. rewrite rev_involutive in Hr. done.
  - exists x, l. split; [done|]. apply Hns; [done|].
    apply in_rev. rewrite Hr. by left.
Qed.

Lemma lstrip_upper s : lstrip (upper s) = upper (lstrip s).
Proof.
  apply lstrip_expand; [apply upper_char_space|apply upper_char_head].
Qed.

Lemma rev_flat_map (g : N -> list N) s :
  rev (flat_map g s) = flat_map (fun c => rev (g c)) (rev s).
Proof.
  induction s as [|c s IH]; [done|].
  cbn [flat_map rev]. rewrite rev_app_distr, IH, flat_map_app. simpl.
  by rewrite app_nil_r.
Qed.

Lemma rstrip_upper s : rstrip (upper s) = upper (rstrip s).
Proof.
  unfold rstrip, upper. rewrite rev_flat_map.
  rewrite (lstrip_expand (fun c => rev (upper_char c))).
  - rewrite <- (rev_involutive (flat_map upper_char _)).
    f_equal. by rewrite rev_flat_map, rev_involutive.
  - intros c Hc. by rewrite upper_char_space.
  - apply upper_char_last.
Qed.

Lemma strip_upper s : strip (upper s) = upper (strip s).
Proof. unfold strip. by rewrite lstrip_upper, rstrip_upper. Qed.

(** *** ASCII text *)

Lemma all_chars_Forall cls s :
  all_chars cls s = true <-> Forall (fun c => cls c = true) s.
Proof.
  induction s as [|c s IH]; simpl.
  - split; [constructor|done].
  - rewrite andb_true_iff, IH, Forall_cons. done.
Qed.

Lemma all_chars_cons cls c s :
  all_chars cls (c :: s) = true <-> cls c = true /\ all_chars cls s = true.
Proof. simpl. by rewrite andb_true_iff. Qed.

Lemma all_chars_app cls s t :
  all_chars cls (s ++ t) = all_chars cls s && all_chars cls t.
Proof. induction s as [|c s IH]; simpl; [done|]. by rewrite IH, andb_assoc. Qed.

Lemma all_chars_impl (cls cls' : N -> bool) s :
  (forall c, cls c = true -> cls' c = true) ->
  all_chars cls s = true -> all_chars cls' s = true.
Proof.
  intros H. rewrite !all_chars_Forall. intros Hs.
  eapply Forall_impl; [exact Hs|exact H].
Qed.

Lemma upper_ascii s : all_chars is_ascii s = true -> upper s = map ascii_upper s.
Proof.
  induction s as [|c s IH]; [done|].
  intros [Hc Hs]%all_chars_cons.
  by rewrite upper_cons, upper_char_ascii, IH.
Qed.

Lemma length_upper_ascii s :
  all_chars is_ascii s = true -> length (upper s) = length s.
Proof. intros H. by rewrite upper_ascii, length_map. Qed.

Lemma all_ascii_upper s :
  all_chars is_ascii s = true -> all_chars is_ascii (upper s) = true.
Proof.
  intros H. rewrite upper_ascii by done.
  induction s as [|c s IH]; [done|].
  apply all_chars_cons in H as [Hc Hs]. simpl.
  by rewrite is_ascii_upper_ascii, IH.
Qed.

Lemma lower_from_ascii before s :
  all_chars is_ascii s = true -> lower_from before s = map ascii_lower s.
Proof.
  revert before. induction s as [|c s IH]; intros before; [done|].
  intros [Hc Hs]%all_chars_cons. cbn [lower_from map].
  rewrite IH by done.
  destruct (N.eqb_spec c 931) as [->|_]; [done|].
  by rewrite lower_char_ascii.
Qed.

Lemma lower_ascii s : all_chars is_ascii s = true -> lower s = map ascii_lower s.
Proof. apply lower_from_ascii. Qed.

Lemma length_lower_ascii s :
  all_chars is_ascii s = true -> length (lower s) = length s.
Proof. intros H. by rewrite lower_ascii, length_map. Qed.

Lemma lower_upper_ascii s :
  all_chars is_ascii s = true -> lower (upper s) = lower s.
Proof.
  intros H. rewrite (lower_ascii (upper s)) by (by apply all_ascii_upper).
  rewrite lower_ascii, upper_ascii, map_map by done.
  apply map_ext. intros c. apply ascii_lower_upper.
Qed.

(** *** The pattern [^[a-zA-Z]+$] *)

Lemma at_end_ascii s : at_end s = true -> all_chars is_ascii s = true.
Proof.
  destruct s as [|c [|d s]]; simpl; try done.
  intros ->%N.eqb_eq. done.
Qed.

Lemma re_letters_ascii s :
  re_class_plus_end is_ascii_letter s = true -> all_chars is_ascii s = true.
Proof.
  induction s as [|c s IH]; simpl; [done|].
  rewrite andb_true_iff, orb_true_iff. intros [Hc Hs].
  rewrite (letter_is_ascii c Hc). simpl.
  destruct Hs as [Hs|Hs]; [by apply at_end_ascii|by apply IH].
Qed.

Lemma at_end_upper s :
  all_chars is_ascii s = true -> at_end (upper s) = at_end s.
Proof.
  intros H. rewrite upper_ascii by done.
  destruct s as [|c [|d s]]; simpl; try done. apply ascii_upper_is_newline.
Qed.

Lemma re_letters_upper s :
  all_chars is_ascii s = true ->
  re_class_plus_end is_ascii_letter (upper s)
  = re_class_plus_end is_ascii_letter s.
Proof.
  induction s as [|c s IH]; [done|].
  intros [Hc Hs]%all_chars_cons.
  rewrite upper_cons, upper_char_ascii by done. simpl.
  by rewrite is_ascii_letter_upper, at_end_upper, IH.
Qed.

End PyFacts.

(** ** Facts about the lexicon *)

Module LexiconFacts.

Import Py PyFacts Lexicon Graph Measures.

Lemma good_word_ignores_memo wv key b word :
  _is_good_english_word (cache_store wv key b) word
  = _is_good_english_word wv word.
Proof. reflexivity. Qed.

Lemma good_word_ignores_custom wv cw word :
  _is_good_english_word (set_custom_words wv cw) word
  = _is_good_english_word wv word.
Proof. reflexivity. Qed.

(** *** Substitution of one letter *)

Lemma substitute_nil i c : substitute [] i c = [c].
Proof. by destruct i. Qed.

Lemma substitute_0 a w c : substitute (a :: w) 0 c = c :: w.
Proof. reflexivity. Qed.

Lemma substitute_S a w i c :
  substitute (a :: w) (S i) c = a :: substitute w i c.
Proof. reflexivity. Qed.

Lemma get_lt_is_Some i (w : str) :
  (i < length w)%nat -> exists a, w !! i = Some a.
Proof. intros Hi. by apply lookup_lt_is_Some_2. Qed.

Lemma get_Some_lt i (w : str) a :
  w !! i = Some a -> (i < length w)%nat.
Proof. apply lookup_lt_Some. Qed.

Lemma length_substitute w i c :
  (i < length w)%nat ->
  length (substitute w i c) = length w.
Proof.
  revert i; induction w as [|a w IH]; intros i Hi; simpl in *; [lia|].
  destruct i; [done|]. rewrite substitute_S. simpl. rewrite IH; lia.
Qed.

Lemma get_substitute_same w i c :
  (i < length w)%nat -> substitute w i c !! i = Some c.
Proof.
  revert i; induction w as [|a w IH]; intros i Hi; simpl in *; [lia|].
  destruct i; [done|]. rewrite substitute_S. simpl. apply IH. lia.
Qed.

Lemma get_substitute_other w i j c :
  i <> j -> (i < length w)%nat ->
  substitute w i c !! j = w !! j.
Proof.
  revert i j; induction w as [|a w IH]; intros i j Hij Hi; simpl in *; [lia|].
  destruct i.
  - destruct j; [done|]. reflexivity.
  - rewrite substitute_S. destruct j; [done|]. simpl. apply IH; lia.
Qed.

Lemma in_substitute w i c x :
  In x (substitute w i c) -> x = c \/ In x w.
Proof.
  unfold substitute. rewrite in_app_iff. simpl.
  intros [H|[H|H]].
  - right. apply list_elem_of_In, (subseteq_take i w), list_elem_of_In, H.
  - by left.
  - right. apply list_elem_of_In, (subseteq_drop (S i) w), list_elem_of_In, H.
Qed.

Lemma alphabet_is_upper c : In c ALPHABET -> is_ascii_upper c = true.
Proof.
  intros H. vm_compute in H.
  repeat (destruct H as [<-|H]; [reflexivity|]). done.
Qed.

Lemma alphabet_fixed c : In c ALPHABET -> upper_char c = [c].
Proof.
  intros H%alphabet_is_upper.
  rewrite upper_char_ascii by (by apply upper_letter_is_ascii).
  by rewrite ascii_upper_fixes_upper.
Qed.

(** A substitution into an upper-cased word is in upper case. *)
Lemma upper_substitute_upper w i c :
  In c ALPHABET -> upper (substitute (upper w) i c) = substitute (upper w) i c.
Proof.
  intros Hc. apply upper_fixed. intros x [->|Hx]%in_substitute.
  - by apply alphabet_fixed.
  - apply in_upper in Hx as (c' & _ & Hx). by eapply upper_char_fixed.
Qed.

(** *** [is_one_letter_change] *)

Lemma count_differences_same w d :
  count_differences w w d = (d =? 1)%nat.
Proof.
  induction w as [|a w IH]; simpl; [done|]. by rewrite N.eqb_refl.
Qed.

Lemma count_differences_substitute w i a c :
  w !! i = Some a -> a <> c ->
  count_differences w (substitute w i c) 0 = true.
Proof.
  revert i; induction w as [|b w IH]; intros i Hget Hne; simpl in *; [done|].
  destruct i.
  - injection Hget as ->. rewrite substitute_0. simpl.
    apply N.eqb_neq in Hne. rewrite Hne. simpl.
    by rewrite count_differences_same.
  - rewrite substitute_S. simpl. rewrite N.eqb_refl. by apply IH.
Qed.

(** *** The substitutions [get_possible_words] tries *)

Lemma elem_of_letter_candidates word i n :
  In n (letter_candidates word i) ->
  exists c, In c ALPHABET /\ word !! i <> Some c
            /\ n = substitute word i c.
Proof.
  unfold letter_candidates. rewrite in_flat_map.
  intros (c & Hc & Hn). exists c. split; [done|].
  case_bool_decide; simpl in Hn; [done|]. destruct Hn as [<-|[]]. done.
Qed.

Lemma elem_of_candidates word n :
  In n (candidates word) ->
  exists i a c, word !! i = Some a /\ a <> c /\ In c ALPHABET
                /\ n = substitute word i c.
Proof.
  unfold candidates. rewrite in_flat_map.
  intros (i & Hi & Hn). apply in_seq in Hi.
  apply elem_of_letter_candidates in Hn as (c & Hc & Hne & ->).
  destruct (get_lt_is_Some i word) as [a Ha]; [lia|].
  exists i, a, c. repeat split; try done. congruence.
Qed.

Lemma candidates_intro word i a c :
  word !! i = Some a -> a <> c -> In c ALPHABET ->
  In (substitute word i c) (candidates word).
Proof.
  intros Hget Hne Hc. unfold candidates. rewrite in_flat_map.
  exists i. split; [apply in_seq; apply get_Some_lt in Hget; lia|].
  unfold letter_candidates. rewrite in_flat_map. exists c. split; [done|].
  rewrite bool_decide_eq_false_2 by congruence. by left.
Qed.

Section WithWordNet.

Variable wn : str -> bool.

Local Abbreviation valid := (valid wn).
Local Abbreviation same_oracle := (same_oracle wn).
Local Abbreviation is_valid_word := (is_valid_word wn).
Local Abbreviation sources_verdict := (sources_verdict wn).

(** [is_valid_word] in normal form: gate, memo table, sources. *)
Lemma is_valid_word_eq wv word :
  is_valid_word wv word =
  if passes_checks wv word then
    let key := upper (strip word) in
    match _wordnet_cache wv !! key with
    | Some b => (b, wv)
    | None => (sources_verdict wv key, cache_store wv key (sources_verdict wv key))
    end
  else (false, wv).
Proof.
  unfold Lexicon.is_valid_word, passes_checks, Graph.sources_verdict.
  destruct word as [|c word]; [done|].
  set (w := strip (c :: word)).
  destruct (_ || _)%bool; simpl; [done|].
  destruct (re_class_plus_end is_ascii_letter w) eqn:Hre; simpl; [|done].
  destruct (bool_decide (upper w ∈ _excluded_words wv)); simpl; [done|].
  destruct (_wordnet_cache wv !! upper w); [done|].
  rewrite lower_upper_ascii by (by apply re_letters_ascii).
  destruct (bool_decide (upper w ∈ custom_words wv)); simpl; [done|].
  destruct (bool_decide (lower w ∈ custom_words wv)); simpl; [done|].
  destruct (match _nltk_words_cache wv with Some _ => _ | None => _ end);
    simpl; [done|].
  by destruct (wn (lower w) && _is_good_english_word wv (upper w))%bool.
Qed.

Lemma valid_eq wv word :
  valid wv word =
  passes_checks wv word &&
  match _wordnet_cache wv !! upper (strip word) with
  | Some b => b
  | None => sources_verdict wv (upper (strip word))
  end.
Proof.
  unfold Graph.valid. rewrite is_valid_word_eq.
  destruct (passes_checks wv word); [|done]. simpl.
  by destruct (_wordnet_cache wv !! upper (strip word)).
Qed.

(** The call only memoises: no verdict changes.  This is the stability
    of the oracle between two [add_word] calls. *)
Lemma is_valid_word_same_oracle wv word :
  same_oracle wv (snd (is_valid_word wv word)).
Proof.
  intros w'. rewrite is_valid_word_eq.
  destruct (passes_checks wv word); [|done]. simpl.
  destruct (_wordnet_cache wv !! upper (strip word)) eqn:Hc; [done|]. simpl.
  rewrite !valid_eq. f_equal. simpl.
  destruct (decide (upper (strip word) = upper (strip w'))) as [<-|Hne].
  - by rewrite lookup_insert_eq, Hc.
  - by rewrite lookup_insert_ne.
Qed.

Lemma same_oracle_refl wv : same_oracle wv wv.
Proof. by intros w. Qed.

Lemma same_oracle_trans wv1 wv2 wv3 :
  same_oracle wv1 wv2 -> same_oracle wv2 wv3 -> same_oracle wv1 wv3.
Proof. intros H12 H23 w. by rewrite H23, H12. Qed.



(** On words that are ASCII once stripped, the checks do not depend on
    the case. *)
Lemma passes_checks_upper wv word :
  all_chars is_ascii (strip word) = true ->
  passes_checks wv (upper word) = passes_checks wv word.
Proof.
  intros Hascii. unfold passes_checks.
  destruct word as [|c word]; [done|].
  destruct (upper (c :: word)) as [|c' word'] eqn:Hu.
  { by apply (proj1 (upper_empty _)) in Hu. }
  rewrite <- Hu. cbv zeta.
  rewrite strip_upper, length_upper_ascii, re_letters_upper, upper_idem by done.
  done.
Qed.

(** On such words the verdict does not depend on the case either. *)
Lemma valid_upper wv word :
  all_chars is_ascii (strip word) = true ->
  valid wv (upper word) = valid wv word.
Proof.
  intros Hascii.
  rewrite !valid_eq, passes_checks_upper, strip_upper, upper_idem by done. done.
Qed.


(** *** [get_possible_words] against the oracle *)

Lemma try_letters_spec wv0 wv word i letters acc :
  same_oracle wv0 wv ->
  fst (try_letters wn wv word i letters acc)
  = acc ++ List.filter (valid wv0)
      (flat_map (fun letter =>
         if bool_decide (word !! i = Some letter) then []
         else [substitute word i letter]) letters)
  /\ same_oracle wv0 (snd (try_letters wn wv word i letters acc)).
Proof.
  revert wv acc. induction letters as [|letter rest IH]; intros wv acc Hwv.
  - simpl. by rewrite app_nil_r.
  - simpl. case_bool_decide; simpl; [by apply IH|].
    pose proof (is_valid_word_same_oracle wv (substitute word i letter)) as Hs.
    assert (Hok : fst (is_valid_word wv (substitute word i letter))
                  = valid wv0 (substitute word i letter)) by apply Hwv.
    destruct (is_valid_word wv (substitute word i letter)) as [ok wv'].
    simpl in Hs, Hok. subst ok.
    destruct (IH wv' (if valid wv0 (substitute word i letter)
                      then acc ++ [substitute word i letter] else acc))
      as [IH1 IH2]; [by eapply same_oracle_trans|].
    split; [|done]. rewrite IH1.
    destruct (valid wv0 (substitute word i letter)); [|done].
    by rewrite <- app_assoc.
Qed.

Lemma try_positions_spec wv0 wv word positions acc :
  same_oracle wv0 wv ->
  fst (try_positions wn wv word positions acc)
  = acc ++ List.filter (valid wv0) (flat_map (letter_candidates word) positions)
  /\ same_oracle wv0 (snd (try_positions wn wv word positions acc)).
Proof.
  revert wv acc. induction positions as [|i rest IH]; intros wv acc Hwv.
  - simpl. by rewrite app_nil_r.
  - cbn [try_positions flat_map].
    destruct (try_letters_spec wv0 wv word i ALPHABET acc Hwv) as [H1 H2].
    fold (letter_candidates word i) in H1.
    destruct (try_letters wn wv word i ALPHABET acc) as [acc' wv'].
    cbn [fst snd] in H1, H2. subst acc'.
    destruct (IH wv' (acc ++ List.filter (valid wv0) (letter_candidates word i)))
      as [IH1 IH2]; [done|].
    split; [|done]. rewrite IH1, List.filter_app, <- app_assoc. done.
Qed.

(** [get_possible_words] returns the valid substitutions, in order, and
    changes no verdict. *)
Lemma get_possible_words_spec wv0 wv word :
  same_oracle wv0 wv ->
  fst (get_possible_words wn wv word) = neighbors wn wv0 word
  /\ same_oracle wv0 (snd (get_possible_words wn wv word)).
Proof.
  intros Hwv. unfold get_possible_words.
  destruct (try_positions_spec wv0 wv (upper word)
              (seq 0 (length (upper word))) [] Hwv) as [H1 H2].
  split; [|done]. by rewrite H1.
Qed.

Lemma get_possible_words_neighbors wv word :
  fst (get_possible_words wn wv word) = neighbors wn wv word.
Proof. apply get_possible_words_spec, same_oracle_refl. Qed.

Lemma elem_of_neighbors wv word n :
  In n (neighbors wn wv word) ->
  valid wv n = true /\
  exists i a c, (upper word) !! i = Some a /\ a <> c /\ In c ALPHABET
                /\ n = substitute (upper word) i c.
Proof.
  unfold neighbors. rewrite filter_In. intros [Hc Hv].
  split; [done|]. by apply elem_of_candidates.
Qed.

(** The words returned are already in upper case. *)
Lemma neighbors_upper wv word n :
  In n (neighbors wn wv word) -> upper n = n.
Proof.
  intros (_ & i & a & c & Hget & _ & Hc & ->)%elem_of_neighbors.
  by apply upper_substitute_upper.
Qed.

Lemma neighbors_intro wv word i a c :
  upper word !! i = Some a -> a <> c -> In c ALPHABET ->
  valid wv (substitute (upper word) i c) = true ->
  In (substitute (upper word) i c) (neighbors wn wv word).
Proof.
  intros Hget Hne Hc Hv. unfold neighbors. rewrite filter_In.
  split; [by eapply candidates_intro|done].
Qed.

(** C5, as the code has it.  Every word that [get_possible_words(w)]
    returns has the length of [w.upper()] and is a one-letter change of
    [w.upper()]; it has the length of [w] and is a one-letter change of
    [w] whenever upper-casing keeps the length of [w], as it does for
    every ASCII word. *)
Theorem get_possible_words_one_letter_change wv w n :
  In n (fst (get_possible_words wn wv w)) ->
  (length n = length (upper w) /\ is_one_letter_change (upper w) n = true)
  /\ (length (upper w) = length w ->
      length n = length w /\ is_one_letter_change w n = true)
  /\ (all_chars is_ascii w = true ->
      length n = length w /\ is_one_letter_change w n = true).
Proof.
  rewrite get_possible_words_neighbors. intros Hn.
  pose proof (neighbors_upper wv w n Hn) as Hup.
  apply elem_of_neighbors in Hn as (_ & i & a & c & Hget & Hne & Hc & ->).
  pose proof (get_Some_lt _ _ _ Hget) as Hi.
  assert (Hlen : length (substitute (upper w) i c) = length (upper w))
    by (by rewrite length_substitute).
  assert (Hcount : count_differences (upper w) (substitute (upper w) i c) 0
                   = true) by (by eapply count_differences_substitute).
  assert (Hsame : length (upper w) = length w ->
                  length (substitute (upper w) i c) = length w
                  /\ is_one_letter_change w (substitute (upper w) i c) = true).
  { intros Hw. split; [congruence|].
    unfold is_one_letter_change. rewrite Hlen, Hw, Nat.eqb_refl. simpl.
    by rewrite Hup. }
  split; [|split; [done|]].
  - split; [done|].
    unfold is_one_letter_change. rewrite Hlen, Nat.eqb_refl. simpl.
    by rewrite upper_idem, Hup.
  - intros Hascii. by apply Hsame, length_upper_ascii.
Qed.

End WithWordNet.

End LexiconFacts.

(** ** Correctness of the breadth-first search *)

Module SearchFacts.

Import Py PyFacts Paths Graph Search.

Section Chains.

Variable R : str -> str -> Prop.

Lemma chain_snoc p u w :
  chain R p -> last p = Some u -> R u w -> chain R (p ++ [w]).
Proof.
  induction p as [|a [|b p] IH]; simpl; intros Hc Hl HR; [done| |].
  - injection Hl as ->. done.
  - destruct Hc as [Hab Hc]. split; [done|]. by apply IH.
Qed.

Lemma chain_snoc_inv p w :
  chain R (p ++ [w]) ->
  chain R p /\ forall u, last p = Some u -> R u w.
Proof.
  induction p as [|a [|b p] IH]; simpl; intros Hc.
  - split; [done|]. intros u Hu. done.
  - destruct Hc as [Haw _]. split; [done|]. intros u [= <-]. done.
  - destruct Hc as [Hab Hc]. apply IH in Hc as [Hc Hl]. by repeat split.
Qed.

Lemma path_between_snoc s u w p :
  path_between R s u p -> R u w -> path_between R s w (p ++ [w]).
Proof.
  intros (Hh & Hl & Hc) HR. repeat split.
  - destruct p; [done|]. done.
  - by rewrite last_snoc.
  - by eapply chain_snoc.
Qed.

Lemma path_between_singleton s : path_between R s s [s].
Proof. by repeat split. Qed.

Lemma path_between_nonempty s t p : path_between R s t p -> (1 <= length p)%nat.
Proof. intros (Hh & _). destruct p; simpl in *; [done|lia]. Qed.

End Chains.

Section Pure.

Variable next : str -> list str.
Variable start target : str.

Local Abbreviation step := (step next).
Local Abbreviation reach := (reach next start).
Local Abbreviation item_ok := (item_ok next start).
Local Abbreviation level_inv := (level_inv next start target).
Local Abbreviation mid_inv := (mid_inv next start target).

(** A path of the search graph is a witness of reachability. *)
Lemma path_reach p v :
  path_between step start v p -> reach (length p - 1) v.
Proof.
  revert v. induction p as [|w p IH] using rev_ind; intros v (Hh & Hl & Hc).
  - done.
  - rewrite last_snoc in Hl. injection Hl as ->.
    apply chain_snoc_inv in Hc as [Hc Hstep].
    destruct p as [|a p].
    + simpl in Hh. injection Hh as ->. simpl. constructor.
    + destruct (last (a :: p)) as [u|] eqn:Hu.
      2:{ by apply last_None in Hu. }
      rewrite length_app. simpl length.
      replace (S (length p) + 1 - 1)%nat with (S (S (length p) - 1)) by lia.
      econstructor; [|by apply Hstep].
      apply IH. by repeat split.
Qed.

(** Conversely, what is reached is reached along a path. *)
Lemma reach_path n v :
  reach n v -> exists p, path_between step start v p /\ length p = S n.
Proof.
  induction 1 as [|n u v _ (p & Hp & Hlen) Hstep].
  - exists [start]. split; [apply path_between_singleton|done].
  - exists (p ++ [v]). split; [by eapply path_between_snoc|].
    rewrite length_app. simpl. lia.
Qed.

Lemma item_ok_mono d V V' item :
  V ⊆ V' -> item_ok d V item -> item_ok d V' item.
Proof.
  intros HV (Hp & Hl & Hn & Hin).
  split; [done|]. split; [done|]. split; [done|].
  intros x Hx. apply HV. by apply Hin.
Qed.

Lemma item_ok_reach d V u p : item_ok d V (u, p) -> reach d u.
Proof.
  intros (Hp & Hl & _). simpl in *. apply path_reach in Hp.
  by replace (length p - 1)%nat with d in Hp by lia.
Qed.

(** The [for] loop over the successors of one queue entry. *)
Lemma scan_next_words_spec d V0 cur path ws V nq :
  item_ok d V (cur, path) ->
  incl ws (next cur) ->
  mid_inv d V0 V nq ->
  match scan_next_words target path ws V nq with
  | Found p =>
      path_between step start target p /\ length p = S (S d) /\ NoDup p
  | Exhausted V' nq' =>
      mid_inv d V0 V' nq' /\ V ⊆ V' /\ forall w, In w ws -> upper w ∈ V'
  end.
Proof.
  revert V nq. induction ws as [|w ws IH]; intros V nq Hit Hws Hmid.
  - simpl. split; [done|]. split; [done|]. intros w [].
  - assert (Hws' : incl ws (next cur)) by (intros x Hx; apply Hws; by right).
    assert (Hstep : step cur (upper w)).
    { apply in_map. apply Hws. by left. }
    simpl. case_bool_decide as Hvis.
    + specialize (IH V nq Hit Hws' Hmid).
      destruct (scan_next_words target path ws V nq) as [p|V' nq']; [done|].
      destruct IH as (Hm & Hsub & Hall).
      split; [done|]. split; [done|].
      intros x [<-|Hx]; [by apply Hsub|by apply Hall].
    + destruct Hit as (Hp & Hl & Hnd & Hin). simpl in Hp, Hl, Hnd, Hin.
      assert (Hnew : path_between step start (upper w) (path ++ [upper w]))
        by (by eapply path_between_snoc).
      assert (Hlen : length (path ++ [upper w]) = S (S d))
        by (rewrite length_app; simpl; lia).
      assert (Hnd' : NoDup (path ++ [upper w])).
      { apply NoDup_app. repeat split; [done| |apply NoDup_singleton].
        intros x Hx ->%list_elem_of_singleton. apply Hvis, Hin.
        by apply list_elem_of_In. }
      case_bool_decide as Htgt.
      * subst target. done.
      * destruct Hmid as [Hitems Hsound Hnewv Hmono Htarget].
        assert (Hmid' : mid_inv d V0 (V ∪ {[upper w]})
                          (nq ++ [(upper w, path ++ [upper w])])).
        { split.
          - apply Forall_app. split.
            + eapply Forall_impl; [exact Hitems|].
              intros it. apply item_ok_mono. set_solver.
            + apply Forall_singleton.
              split; [exact Hnew|]. split; [exact Hlen|]. split; [exact Hnd'|].
              simpl. intros x [Hx|[<-|[]]]%in_app_or; [|set_solver].
              apply elem_of_union_l. by apply Hin.
          - intros v [Hv| ->%elem_of_singleton]%elem_of_union.
            + by apply Hsound.
            + exists (S d). split; [done|].
              econstructor; [|exact Hstep].
              apply (item_ok_reach d V cur path). by split.
          - intros v [Hv| ->%elem_of_singleton]%elem_of_union.
            + destruct (Hnewv v Hv) as [?|Hq]; [by left|right].
              rewrite map_app. apply in_or_app. by left.
            + right. rewrite map_app. apply in_or_app. right. by left.
          - set_solver.
          - set_solver. }
        assert (Hit' : item_ok d (V ∪ {[upper w]}) (cur, path)).
        { split; [exact Hp|]. split; [exact Hl|]. split; [exact Hnd|].
          simpl. intros x Hx. apply elem_of_union_l. by apply Hin. }
        specialize (IH _ _ Hit' Hws' Hmid').
        destruct (scan_next_words target path ws (V ∪ {[upper w]})
                    (nq ++ [(upper w, path ++ [upper w])])) as [p|V' nq'];
          [done|].
        destruct IH as (Hm & Hsub & Hall).
        split; [done|]. split; [set_solver|].
        intros x [<-|Hx]; [set_solver|by apply Hall].
Qed.

(** One level of the search. *)
Lemma process_level_pure_spec d V0 queue V nq :
  Forall (item_ok d V) queue ->
  mid_inv d V0 V nq ->
  match process_level_pure next target queue V nq with
  | Found p =>
      path_between step start target p /\ length p = S (S d) /\ NoDup p
  | Exhausted V' nq' =>
      mid_inv d V0 V' nq' /\ V ⊆ V'
      /\ forall u w, In u (map fst queue) -> In w (next u) -> upper w ∈ V'
  end.
Proof.
  revert V nq. induction queue as [|[cur path] queue IH]; intros V nq Hq Hmid.
  - simpl. split; [done|]. split; [done|]. intros u w [].
  - simpl. apply Forall_cons in Hq as [Hit Hq].
    pose proof (scan_next_words_spec d V0 cur path (next cur) V nq Hit
                  (incl_refl _) Hmid) as Hscan.
    destruct (scan_next_words target path (next cur) V nq) as [p|V1 nq1];
      [done|].
    destruct Hscan as (Hm1 & Hsub1 & Hall1).
    assert (Hq1 : Forall (item_ok d V1) queue).
    { eapply Forall_impl; [exact Hq|]. intros it. by apply item_ok_mono. }
    specialize (IH V1 nq1 Hq1 Hm1).
    destruct (process_level_pure next target queue V1 nq1) as [p|V' nq'];
      [done|].
    destruct IH as (Hm & Hsub & Hall).
    split; [done|]. split; [set_solver|].
    intros u w [<-|Hu] Hw; [|by eapply Hall].
    simpl in Hw. apply Hsub. by apply Hall1.
Qed.

(** When a level ends without finding the target, the invariant holds one
    level deeper. *)
Lemma level_inv_next d queue V V' nq' :
  level_inv d queue V ->
  mid_inv d V V' nq' ->
  (forall u w, In u (map fst queue) -> In w (next u) -> upper w ∈ V') ->
  level_inv (S d) nq' V'.
Proof.
  intros [Hitems Hsound Hcomplete Hfrontier Htarget]
         [Hmitems Hmsound Hmnew Hmmono Hmtarget] Hall.
  assert (Hc : forall k v, (k <= S d)%nat -> reach k v -> v ∈ V').
  { intros k v Hk Hr.
    destruct (decide (k <= d)%nat) as [Hle|Hgt].
    { apply Hmmono. by eapply Hcomplete. }
    assert (k = S d) as -> by lia.
    inversion Hr as [|n u v' Hu Hstep]; subst.
    destruct (Hfrontier u Hu) as [Hq|(k' & Hk' & Hr')].
    - apply in_map_iff in Hstep as (w & <- & Hw). by eapply Hall.
    - apply Hmmono. apply (Hcomplete (S k')); [lia|]. by econstructor. }
  split; try done.
  intros v Hr. pose proof (Hc _ _ (le_n _) Hr) as Hv.
  destruct (Hmnew v Hv) as [Hv0|Hq]; [|by left].
  right. destruct (Hsound v Hv0) as (k & Hk & Hrk). exists k. split; [lia|done].
Qed.

(** With an empty queue nothing new can be reached. *)
Lemma empty_frontier_closed d V k v :
  level_inv d [] V -> reach k v -> exists k', (k' < d)%nat /\ reach k' v.
Proof.
  intros Hinv Hr.
  assert (Hf : forall u, reach d u -> exists k', (k' < d)%nat /\ reach k' u).
  { intros u Hu. by destruct (inv_frontier _ _ _ _ _ _ Hinv u Hu) as [[]|?]. }
  induction Hr as [|n u v Hu (k' & Hk' & IH) Hstep].
  - destruct d as [|d].
    + destruct (Hf start) as (k' & Hk' & _); [constructor|lia].
    + exists 0%nat. split; [lia|constructor].
  - destruct (decide (S k' < d)%nat) as [Hlt|Hge].
    + exists (S k'). split; [done|]. by econstructor.
    + assert (S k' = d) as <- by lia. apply Hf. by econstructor.
Qed.

(** The search: soundness, minimality and completeness at once. *)
Lemma search_levels_pure_spec n d queue V :
  level_inv d queue V ->
  match search_levels_pure next target n queue V with
  | Some p =>
      path_between step start target p /\ NoDup p
      /\ exists d', length p = S (S d')
                    /\ forall k, reach k target -> (d' < k)%nat
  | None => forall k, reach k target -> (d + n < k)%nat
  end.
Proof.
  revert d queue V. induction n as [|n IH]; intros d queue V Hinv.
  - simpl. intros k Hr.
    destruct (decide (k <= d)%nat) as [Hle|]; [|lia].
    exfalso. apply (inv_target _ _ _ _ _ _ Hinv).
    by apply (inv_complete _ _ _ _ _ _ Hinv k).
  - destruct queue as [|item queue].
    { simpl. intros k Hr. exfalso.
      destruct (empty_frontier_closed d V k target Hinv Hr) as (k' & Hk' & Hr').
      apply (inv_target _ _ _ _ _ _ Hinv).
      apply (inv_complete _ _ _ _ _ _ Hinv k'); [lia|done]. }
    cbn [search_levels_pure].
    assert (Hmid : mid_inv d V V []).
    { split.
      - constructor.
      - intros v Hv. destruct (inv_sound _ _ _ _ _ _ Hinv v Hv) as (k & Hk & Hr).
        exists k. split; [lia|done].
      - intros v Hv. by left.
      - done.
      - apply (inv_target _ _ _ _ _ _ Hinv). }
    pose proof (process_level_pure_spec d V (item :: queue) V []
                  (inv_items _ _ _ _ _ _ Hinv) Hmid) as Hlevel.
    destruct (process_level_pure next target (item :: queue) V [])
      as [p|V' nq'].
    + destruct Hlevel as (Hp & Hlen & Hnd).
      split; [done|]. split; [done|].
      exists d. split; [done|]. intros k Hr.
      destruct (decide (k <= d)%nat) as [Hle|]; [|lia].
      exfalso. apply (inv_target _ _ _ _ _ _ Hinv).
      by apply (inv_complete _ _ _ _ _ _ Hinv k).
    + destruct Hlevel as (Hm & Hsub & Hall).
      pose proof (level_inv_next d (item :: queue) V V' nq' Hinv Hm Hall) as Hnext.
      specialize (IH (S d) nq' V' Hnext).
      destruct (search_levels_pure next target n nq' V') as [p|]; [done|].
      intros k Hr. specialize (IH k Hr). lia.
Qed.

(** The invariant holds when the search starts. *)
Lemma level_inv_init :
  start <> target -> level_inv 0 [(start, [start])] {[start]}.
Proof.
  intros Hne. split.
  - apply Forall_singleton.
    split; [apply path_between_singleton|]. split; [done|].
    split; [apply NoDup_singleton|].
    simpl. intros x [<-|[]]. set_solver.
  - intros v ->%elem_of_singleton. exists 0%nat. split; [done|constructor].
  - intros k v Hk Hr. assert (k = 0)%nat as -> by lia.
    inversion Hr; subst. set_solver.
  - intros v Hr. inversion Hr; subst. left. by left.
  - set_solver.
Qed.

(** Breadth-first search from [start]: when the target is within
    [n] steps, a duplicate-free path with the fewest steps is found. *)
Lemma search_from_start n :
  start <> target ->
  match search_levels_pure next target n [(start, [start])] {[start]} with
  | Some p =>
      path_between step start target p /\ NoDup p
      /\ forall q, path_between step start target q -> (length p <= length q)%nat
  | None =>
      forall q, path_between step start target q -> (S n < length q)%nat
  end.
Proof.
  intros Hne.
  pose proof (search_levels_pure_spec n 0 _ _ (level_inv_init Hne)) as H.
  destruct (search_levels_pure next target n [(start, [start])] {[start]})
    as [p|].
  - destruct H as (Hp & Hnd & d' & Hlen & Hmin).
    split; [done|]. split; [done|].
    intros q Hq. pose proof (path_between_nonempty _ _ _ _ Hq).
    apply path_reach, Hmin in Hq. lia.
  - intros q Hq. pose proof (path_between_nonempty _ _ _ _ Hq).
    apply path_reach, H in Hq. lia.
Qed.

End Pure.

End SearchFacts.

(** ** Facts about the path finder *)

Module PathFacts.

Import Py PyFacts Lexicon Paths Graph Search Measures LexiconFacts SearchFacts.

Lemma chain_ext (R R' : str -> str -> Prop) p :
  (forall u v, R u v <-> R' u v) -> chain R p <-> chain R' p.
Proof.
  intros HR. induction p as [|a [|b p] IH]; simpl; [done..|].
  simpl in IH. rewrite HR, IH. done.
Qed.

Lemma path_between_ext (R R' : str -> str -> Prop) s t p :
  (forall u v, R u v <-> R' u v) -> path_between R s t p <-> path_between R' s t p.
Proof. intros HR. unfold path_between. by rewrite (chain_ext R R' p HR). Qed.

Section WithWordNet.

Variable wn : str -> bool.

Local Abbreviation valid := (valid wn).
Local Abbreviation same_oracle := (same_oracle wn).
Local Abbreviation neighbors := (neighbors wn).
Local Abbreviation word_edge := (word_edge wn).
Local Abbreviation ladder := (ladder wn).

(** The loops of [_find_path] compute what the search over [neighbors]
    computes, and leave every verdict of the oracle as it was. *)
Lemma process_level_pure_eq wv0 wv target queue V nq :
  same_oracle wv0 wv ->
  fst (process_level wn wv target queue V nq)
  = process_level_pure (neighbors wv0) target queue V nq
  /\ same_oracle wv0 (snd (process_level wn wv target queue V nq)).
Proof.
  revert wv V nq. induction queue as [|[cur path] queue IH]; intros wv V nq Hwv.
  - done.
  - simpl.
    destruct (get_possible_words_spec wn wv0 wv cur Hwv) as [H1 H2].
    destruct (get_possible_words wn wv cur) as [ws wv']. simpl in H1, H2.
    subst ws.
    destruct (scan_next_words target path (neighbors wv0 cur) V nq); [done|].
    by apply IH.
Qed.

Lemma search_levels_pure_eq wv0 wv target n queue V :
  same_oracle wv0 wv ->
  fst (search_levels wn wv target n queue V)
  = search_levels_pure (neighbors wv0) target n queue V
  /\ same_oracle wv0 (snd (search_levels wn wv target n queue V)).
Proof.
  revert wv queue V. induction n as [|n IH]; intros wv queue V Hwv; [done|].
  destruct queue as [|item queue]; [done|].
  cbn [search_levels search_levels_pure].
  destruct (process_level_pure_eq wv0 wv target (item :: queue) V [] Hwv)
    as [H1 H2].
  destruct (process_level wn wv target (item :: queue) V []) as [r wv'].
  cbn [fst snd] in H1, H2. subst r.
  destruct (process_level_pure (neighbors wv0) target (item :: queue) V []);
    [by split|].
  by apply IH.
Qed.

(** The result of [_find_path], as a function of the oracle. *)
Lemma find_path_eq pf start_word target_word :
  fst (_find_path wn pf start_word target_word) =
  if bool_decide (upper start_word = upper target_word) then
    Some [upper start_word]
  else if valid (word_validator pf) (upper start_word)
          && valid (word_validator pf) (upper target_word) then
    search_levels_pure (neighbors (word_validator pf)) (upper target_word)
      (max_search_depth pf) [(upper start_word, [upper start_word])]
      {[upper start_word]}
  else None.
Proof.
  unfold _find_path. case_bool_decide; [done|].
  set (wv := word_validator pf).
  pose proof (is_valid_word_same_oracle wn wv (upper start_word)) as Hs1.
  unfold Graph.valid at 1.
  destruct (is_valid_word wn wv (upper start_word)) as [ok1 wv1].
  simpl in Hs1 |- *. destruct ok1; simpl; [|done].
  pose proof (is_valid_word_same_oracle wn wv1 (upper target_word)) as Hs2.
  rewrite <- (Hs1 (upper target_word)). unfold Graph.valid at 1.
  destruct (is_valid_word wn wv1 (upper target_word)) as [ok2 wv2].
  simpl in Hs2 |- *. destruct ok2; simpl; [|done].
  assert (Hs : same_oracle wv wv2) by (by eapply same_oracle_trans).
  destruct (search_levels_pure_eq wv wv2 (upper target_word)
              (max_search_depth pf) [(upper start_word, [upper start_word])]
              {[upper start_word]} Hs) as [H1 _].
  destruct (search_levels wn wv2 _ _ _ _) as [[p|] wv3]; simpl in H1;
    by rewrite <- H1.
Qed.

(** The steps of the search are the edges of the word graph. *)
Lemma step_word_edge wv u v : step (neighbors wv) u v <-> word_edge wv u v.
Proof.
  unfold step, Graph.word_edge. rewrite get_possible_words_neighbors.
  rewrite (map_ext_in upper id), map_id; [done|].
  intros n Hn. by eapply neighbors_upper.
Qed.

Lemma step_ladder wv s t p :
  path_between (step (neighbors wv)) s t p <-> ladder wv s t p.
Proof. apply path_between_ext, step_word_edge. Qed.

(** Shortest paths within any depth bound. *)
Lemma find_path_shortest_within pf start target q :
  valid (word_validator pf) (upper start) = true ->
  valid (word_validator pf) (upper target) = true ->
  ladder (word_validator pf) (upper start) (upper target) q ->
  (length q <= S (max_search_depth pf))%nat ->
  exists p,
    fst (_find_path wn pf start target) = Some p
    /\ ladder (word_validator pf) (upper start) (upper target) p
    /\ NoDup p
    /\ forall q', ladder (word_validator pf) (upper start) (upper target) q' ->
                  (length p <= length q')%nat.
Proof.
  intros Hs Ht Hq Hlen. rewrite find_path_eq, Hs, Ht. simpl.
  case_bool_decide as Heq.
  - exists [upper start]. rewrite <- Heq.
    split; [done|]. split; [apply path_between_singleton|].
    split; [apply NoDup_singleton|].
    intros q' Hq'. simpl. by eapply path_between_nonempty.
  - pose proof (search_from_start (neighbors (word_validator pf))
                  (upper start) (upper target) (max_search_depth pf) Heq) as H.
    destruct (search_levels_pure _ _ _ _ _) as [p|].
    + destruct H as (Hp & Hnd & Hmin). exists p.
      split; [done|]. split; [by apply step_ladder|]. split; [done|].
      intros q' Hq'. by apply Hmin, step_ladder.
    + apply step_ladder, H in Hq. lia.
Qed.

(** A ladder of at most two words between two different words consists
    of these two words. *)
Lemma short_ladder (R : str -> str -> Prop) s t p :
  path_between R s t p -> s <> t -> (length p <= 2)%nat -> p = [s; t].
Proof.
  intros (Hh & Hl & _) Hne Hlen.
  destruct p as [|x [|y [|z p]]]; simpl in *; try lia.
  - done.
  - congruence.
  - congruence.
Qed.

(** Two valid words one step apart: the path is the step. *)
Lemma find_path_one_step pf start target :
  valid (word_validator pf) (upper start) = true ->
  valid (word_validator pf) (upper target) = true ->
  upper start <> upper target ->
  word_edge (word_validator pf) (upper start) (upper target) ->
  (1 <= max_search_depth pf)%nat ->
  fst (_find_path wn pf start target) = Some [upper start; upper target].
Proof.
  intros Hs Ht Hne Hedge Hdepth.
  assert (Hq : ladder (word_validator pf) (upper start) (upper target)
                 [upper start; upper target]).
  { split; [done|]. split; [done|]. by split. }
  destruct (find_path_shortest_within pf start target
              [upper start; upper target] Hs Ht Hq)
    as (p & Hp & Hl & _ & Hmin); [simpl; lia|].
  rewrite Hp. f_equal. apply (short_ladder _ _ _ _ Hl Hne).
  exact (Hmin _ Hq).
Qed.


(** C6, as the code has it.  [_find_path] returns the one-word path of
    the upper-cased start when the two words are equal after upper-casing,
    whether or not the word is valid.  When they differ, [is_valid_word]
    is asked about the upper-cased words: if it rejects one of them the
    result is [None].  For a word that is ASCII once stripped, the
    upper-cased word is rejected exactly when the word itself is. *)
Theorem find_path_trivial_cases pf start target :
  (upper start = upper target ->
   fst (_find_path wn pf start target) = Some [upper start])
  /\ (upper start <> upper target ->
      valid (word_validator pf) (upper start) = false
      \/ valid (word_validator pf) (upper target) = false ->
      fst (_find_path wn pf start target) = None)
  /\ (all_chars is_ascii (strip start) = true ->
      all_chars is_ascii (strip target) = true ->
      upper start <> upper target ->
      valid (word_validator pf) start = false
      \/ valid (word_validator pf) target = false ->
      fst (_find_path wn pf start target) = None).
Proof.
  assert (Hnone : upper start <> upper target ->
                  valid (word_validator pf) (upper start) = false
                  \/ valid (word_validator pf) (upper target) = false ->
                  fst (_find_path wn pf start target) = None).
  { rewrite find_path_eq. intros Hne Hv.
    rewrite bool_decide_eq_false_2 by done.
    destruct Hv as [-> | ->]; [done|by rewrite andb_false_r]. }
  split; [|split; [done|]].
  - intros Heq. by rewrite find_path_eq, bool_decide_eq_true_2.
  - intros Hs Ht Hne Hv. apply Hnone; [done|].
    by rewrite !valid_upper.
Qed.

(** The returned path is a ladder whenever it has two words or more. *)
Lemma find_path_ladder pf start target p :
  fst (_find_path wn pf start target) = Some p ->
  (2 <= length p)%nat ->
  ladder (word_validator pf) (upper start) (upper target) p.
Proof.
  rewrite find_path_eq. case_bool_decide as Heq.
  { intros [= <-]. simpl. lia. }
  destruct (_ && _)%bool; [|done].
  pose proof (search_from_start (neighbors (word_validator pf))
                (upper start) (upper target) (max_search_depth pf) Heq) as H.
  destruct (search_levels_pure _ _ _ _ _) as [p'|]; [|done].
  intros [= <-] _. apply step_ladder. by destruct H.
Qed.

End WithWordNet.

End PathFacts.

(** ** The validator as [__init__] builds it, and [add_word] *)

Module LexiconState.

Import Py PyFacts Lexicon Graph Built LexiconFacts.

Lemma no_spelling_correct L x : no_spelling L x = true -> ~ spelling_of L x.
Proof.
  unfold no_spelling. rewrite forallb_forall. intros H (w & Hw & Hx).
  specialize (H w Hw). apply negb_true_iff, orb_false_iff in H as [Hl Hu].
  apply eqb_neq in Hl, Hu. destruct Hx; congruence.
Qed.

Lemma fold_left_invariant {A B} (P : A -> Prop) (f : A -> B -> A) l a :
  (forall a b, In b l -> P a -> P (f a b)) -> P a -> P (fold_left f l a).
Proof.
  revert a. induction l as [|b l IH]; intros a Hf Ha; [done|].
  simpl. apply IH.
  - intros a' b' Hb'. apply Hf. by right.
  - apply Hf; [by left|done].
Qed.

Lemma built_add a b wv word :
  In word dictionary_sources -> built a b wv ->
  built a b (set_custom_words wv (add_both_cases (custom_words wv) word)).
Proof.
  intros Hw [H1 H2 H3 H4 H5]. split; try done.
  intros x. simpl. unfold add_both_cases.
  rewrite !elem_of_union, !elem_of_singleton.
  intros [[Hx| ->]| ->]; [by apply H5|exists word; auto..].
Qed.

Lemma built_set_nltk a b wv c :
  built a b wv -> built a b (set_nltk_words_cache wv c).
Proof. by intros [H1 H2 H3 H4 H5]. Qed.

Lemma init_built corpus a b : built a b (Lexicon.__init__ corpus a b).
Proof.
  unfold Lexicon.__init__, _add_critical_path_words.
  apply fold_left_invariant.
  { intros wv w Hw. apply built_add. unfold dictionary_sources.
    rewrite !in_app_iff. auto. }
  assert (built a b (_load_custom_dictionary
            (mkWordValidator a b ∅ ∅ None (list_to_set excluded_word_list)))).
  { unfold _load_custom_dictionary.
    apply fold_left_invariant.
    { intros wv w Hw Hb. destruct (_is_good_english_word wv (upper w)); [|done].
      apply built_add; [|done]. unfold dictionary_sources.
      rewrite !in_app_iff. auto. }
    apply fold_left_invariant.
    { intros wv w Hw Hb. destruct (_is_good_english_word wv (upper w)); [|done].
      apply built_add; [|done]. unfold dictionary_sources.
      rewrite !in_app_iff. auto. }
    by split. }
  unfold _load_nltk_words. destruct corpus; by apply built_set_nltk.
Qed.

(** The loading loops only add words. *)
Lemma add_critical_keeps wv l x :
  x ∈ custom_words wv ->
  x ∈ custom_words
        (fold_left (fun wv word =>
           set_custom_words wv (add_both_cases (custom_words wv) word)) l wv).
Proof.
  intros Hx. apply (fold_left_invariant (fun wv => x ∈ custom_words wv)); [|done].
  intros wv' w _ Hw. simpl. unfold add_both_cases. set_solver.
Qed.

(** Every word of [critical_words] is in the dictionary, in both cases,
    whatever the quality filter says about it. *)
Lemma critical_word_in_init corpus a b w :
  In w critical_words ->
  upper w ∈ custom_words (Lexicon.__init__ corpus a b)
  /\ lower w ∈ custom_words (Lexicon.__init__ corpus a b).
Proof.
  unfold Lexicon.__init__, _add_critical_path_words.
  generalize (_load_nltk_words corpus
                (_load_custom_dictionary
                   (mkWordValidator a b ∅ ∅ None
                      (list_to_set excluded_word_list)))).
  induction critical_words as [|w' l IH]; intros wv Hw; [done|].
  destruct Hw as [->|Hw]; [|by apply IH].
  simpl. split; apply add_critical_keeps; simpl; unfold add_both_cases;
    set_solver.
Qed.

Lemma init_nltk_unavailable a b :
  _nltk_words_cache (Lexicon.__init__ None a b) = Some ∅.
Proof.
  unfold Lexicon.__init__, _add_critical_path_words.
  apply (fold_left_invariant (fun wv => _nltk_words_cache wv = Some ∅)); done.
Qed.

Lemma add_word_cache wv word :
  _wordnet_cache (add_word wv word) = _wordnet_cache wv.
Proof. unfold add_word. by destruct (_is_good_english_word wv (upper word)). Qed.

Lemma add_word_custom wv word x :
  x ∈ custom_words wv -> x ∈ custom_words (add_word wv word).
Proof.
  unfold add_word. destruct (_is_good_english_word wv (upper word)); [|done].
  simpl. set_solver.
Qed.

Section WithWordNet.

Variable wn : str -> bool.

Local Abbreviation valid := (valid wn).
Local Abbreviation is_valid_word := (is_valid_word wn).
Local Abbreviation sources_verdict := (sources_verdict wn).

Lemma add_word_passes_checks wv word w :
  passes_checks (add_word wv word) w = passes_checks wv w.
Proof. unfold add_word. by destruct (_is_good_english_word wv (upper word)). Qed.

Lemma add_word_sources wv word key :
  sources_verdict wv key = true -> sources_verdict (add_word wv word) key = true.
Proof.
  unfold add_word. destruct (_is_good_english_word wv (upper word)); [|done].
  unfold Graph.sources_verdict. simpl.
  rewrite !orb_true_iff, !bool_decide_eq_true. set_solver.
Qed.

(** [add_word] never turns a valid word into an invalid one. *)
Lemma add_word_monotone wv word w :
  valid wv w = true -> valid (add_word wv word) w = true.
Proof.
  rewrite !valid_eq, add_word_passes_checks, add_word_cache.
  destruct (passes_checks wv w); [|done]. simpl.
  destruct (_wordnet_cache wv !! upper (strip w)); [done|].
  apply add_word_sources.
Qed.

(** A word that [is_valid_word] has rejected stays rejected when a word is
    added afterwards: the memo table (or the check that failed) still
    answers. *)
Lemma rejection_survives_add_word wv w word :
  fst (is_valid_word wv w) = false ->
  fst (is_valid_word (add_word (snd (is_valid_word wv w)) word) w) = false.
Proof.
  rewrite (is_valid_word_eq wn wv w).
  destruct (passes_checks wv w) eqn:Hp.
  - cbv zeta. destruct (_wordnet_cache wv !! upper (strip w)) eqn:Hc; simpl.
    + intros ->. rewrite is_valid_word_eq, add_word_passes_checks, Hp.
      cbv zeta. by rewrite add_word_cache, Hc.
    + intros Hs. rewrite is_valid_word_eq, add_word_passes_checks.
      change (passes_checks (cache_store wv _ _) w) with (passes_checks wv w).
      rewrite Hp. cbv zeta. rewrite add_word_cache. simpl.
      by rewrite lookup_insert_eq.
  - simpl. intros _.
    by rewrite is_valid_word_eq, add_word_passes_checks, Hp.
Qed.

(** On a validator as [__init__] leaves it, a word that passes the
    checks and whose key is in the dictionary is valid. *)
Lemma built_valid a b wv w :
  built a b wv -> passes_checks wv w = true ->
  upper (strip w) ∈ custom_words wv -> valid wv w = true.
Proof.
  intros [_ _ Hcache _ _] Hp Hin. rewrite valid_eq, Hp, Hcache, lookup_empty.
  simpl. unfold Graph.sources_verdict.
  by rewrite (bool_decide_eq_true_2 _ Hin).
Qed.

End WithWordNet.

End LexiconState.

(** ** The validator on concrete words *)

Module LexiconExamples.

Import Py PyFacts Lexicon Graph Built LexiconFacts LexiconState.

Lemma is_valid_word_keeps_excluded wn wv w :
  _excluded_words (snd (is_valid_word wn wv w)) = _excluded_words wv.
Proof.
  rewrite is_valid_word_eq. destruct (passes_checks wv w); [|done].
  cbv zeta. by destruct (_wordnet_cache wv !! upper (strip w)).
Qed.

Lemma good_word_depends_on_excluded wv wv' w :
  _excluded_words wv = _excluded_words wv' ->
  _is_good_english_word wv w = _is_good_english_word wv' w.
Proof. unfold _is_good_english_word. by intros ->. Qed.

Lemma blorp_not_excluded : py "BLORP" ∉ excluded_word_list.
Proof.
  intros H%list_elem_of_In. vm_compute in H.
  repeat (destruct H as [H|H]; [discriminate H|]). exact H.
Qed.

(** C8.  A word that passes the quality filter but was looked up (and
    rejected) before it is added stays invalid after [add_word]: on a
    freshly built validator (no NLTK corpus, WordNet silent),
    [is_valid_word("BLORP")] is [False], BLORP passes
    [_is_good_english_word], and after [add_word("BLORP")] the answer of
    [is_valid_word("BLORP")] is still [False], read from the memo table. *)
Theorem add_word_leaves_memoised_rejection :
  let wn := fun _ : str => false in
  let wv0 := Lexicon.__init__ None 3 8 in
  let wv1 := snd (is_valid_word wn wv0 "BLORP") in
  fst (is_valid_word wn wv0 "BLORP") = false
  /\ _is_good_english_word wv1 "BLORP" = true
  /\ fst (is_valid_word wn (add_word wv1 "BLORP") "BLORP") = false.
Proof.
  intros wn wv0 wv1. subst wv1 wv0.
  pose proof (init_built None 3 8) as Hb.
  pose proof (init_nltk_unavailable 3 8) as Hn.
  revert Hb Hn. generalize (Lexicon.__init__ None 3 8). intros wv Hb Hn.
  destruct Hb as [Hmin Hmax Hcache Hex Hcustom].
  assert (H0 : fst (is_valid_word wn wv "BLORP") = false).
  { change (valid wn wv "BLORP" = false). rewrite valid_eq.
    apply andb_false_iff. right.
    change (upper (strip "BLORP")) with (py "BLORP").
    rewrite Hcache, lookup_empty. unfold sources_verdict. rewrite Hn.
    change (lower "BLORP") with (py "blorp").
    rewrite (bool_decide_eq_false_2 (py "BLORP" ∈ custom_words wv)).
    2:{ intros Hx%Hcustom. revert Hx. apply no_spelling_correct.
        vm_compute. reflexivity. }
    rewrite (bool_decide_eq_false_2 (py "blorp" ∈ custom_words wv)).
    2:{ intros Hx%Hcustom. revert Hx. apply no_spelling_correct.
        vm_compute. reflexivity. }
    rewrite (bool_decide_eq_true_2 (∅ = ∅)) by reflexivity.
    reflexivity. }
  split; [exact H0|]. split.
  - rewrite (good_word_depends_on_excluded _ wv).
    2:{ apply is_valid_word_keeps_excluded. }
    unfold _is_good_english_word. rewrite Hex.
    change (upper "BLORP") with (py "BLORP").
    rewrite bool_decide_eq_false_2.
    2:{ rewrite elem_of_list_to_set. apply blorp_not_excluded. }
    vm_compute. reflexivity.
  - by apply rejection_survives_add_word.
Qed.

(** The word "ﬁsh", written with the ligature U+FB01: three characters
    whose upper case is the four letters of FISH. *)
Lemma fish_not_excluded : forall w, In w [py "FISH"; py "FIST"] ->
  w ∉ excluded_word_list.
Proof.
  intros w Hw H%list_elem_of_In. vm_compute in H.
  destruct Hw as [<-|[<-|[]]];
    repeat (destruct H as [H|H]; [discriminate H|]); exact H.
Qed.

Lemma fist_is_critical : In (py "FIST") critical_words /\ In (py "FISH") critical_words.
Proof. split; vm_compute; tauto. Qed.

(** FISH and FIST are valid on a freshly built validator. *)
Lemma fish_and_fist_valid wn corpus w :
  In w [py "FISH"; py "FIST"] ->
  valid wn (Lexicon.__init__ corpus 3 8) w = true.
Proof.
  intros Hw. pose proof (init_built corpus 3 8) as Hb.
  assert (Hc : In w critical_words).
  { destruct fist_is_critical. by destruct Hw as [<-|[<-|[]]]. }
  assert (Hk : upper (strip w) = w /\ upper w = w
               /\ Z.of_nat (length (strip w)) = 4
               /\ re_class_plus_end is_ascii_letter (strip w) = true).
  { by destruct Hw as [<-|[<-|[]]]; vm_compute. }
  destruct Hk as (Hk & Hu & Hl & Hre).
  apply (built_valid wn 3 8); [done| |].
  - unfold passes_checks. destruct Hb as [-> -> _ -> _].
    destruct w as [|c w]; [by destruct Hw as [?|[?|[]]]|].
    cbv zeta. rewrite Hl, Hre, Hk.
    rewrite bool_decide_eq_false_2; [done|].
    rewrite elem_of_list_to_set. by apply fish_not_excluded.
  - rewrite Hk, <- Hu. by apply critical_word_in_init.
Qed.

(** C5, the counterexample.  On a freshly built validator,
    [get_possible_words] of the three-character word "ﬁsh" (U+FB01, s, h)
    returns the four-letter word FIST: upper-casing turns the ligature into
    the two letters FI.  FIST has not the length of the word, and
    [is_one_letter_change] of the word and FIST is [False]. *)
Lemma get_possible_words_longer_word :
  let wn := fun _ : str => false in
  let wv := Lexicon.__init__ None 3 8 in
  let w : str := [0xfb01; 115; 104]%N in
  upper w = "FISH"
  /\ In (py "FIST") (fst (get_possible_words wn wv w))
  /\ length (py "FIST") <> length w
  /\ is_one_letter_change w "FIST" = false.
Proof.
  intros wn wv w. split; [by vm_compute|]. split; [|split; [by vm_compute|done]].
  rewrite get_possible_words_neighbors.
  change (py "FIST") with (substitute (upper w) 3 84%N).
  apply (neighbors_intro wn wv w 3 72%N 84%N); [done|done|vm_compute; tauto|].
  apply fish_and_fist_valid. right. by left.
Qed.

(** C9.  [get_word_difficulty] leaves the interval from 0 to 1: for the
    dictionary word "area" (three vowels, one consonant) a validator built
    with the default length bounds returns 0.6 * 0.2 + 0.4 * 5 = 2.12. *)
Theorem word_difficulty_above_one corpus :
  get_word_difficulty (Lexicon.__init__ corpus 3 8) "area"
  = Return 0x1.0f5c28f5c28f6p+1%float
  /\ PrimFloat.ltb f1 0x1.0f5c28f5c28f6p+1%float = true.
Proof.
  unfold get_word_difficulty.
  destruct (init_built corpus 3 8) as [-> -> _ _ _].
  split; vm_compute; reflexivity.
Qed.

End LexiconExamples.

(** ** Facts about the game engine *)

Module EngineFacts.

Import Py PyFacts Lexicon Graph Models Engine LexiconFacts PathFacts.

(** The level 3 loop stops at the substituted position. *)
Lemma find_position_letter_substitute w i a c j n :
  w !! i = Some a -> a <> c ->
  (j <= i)%nat -> (i < j + n)%nat -> (j + n <= length w)%nat ->
  find_position_letter w (substitute w i c) (seq j n)
  = Return (Some i, Some (char_str c)).
Proof.
  intros Hget Hne. revert j. induction n as [|n IH]; intros j Hji Hin Hlen.
  { lia. }
  pose proof (get_Some_lt _ _ _ Hget) as Hi.
  cbn [seq find_position_letter].
  destruct (decide (j = i)) as [->|Hneq].
  - rewrite Hget, get_substitute_same by done.
    apply N.eqb_neq in Hne. by rewrite Hne.
  - rewrite get_substitute_other by done.
    destruct (get_lt_is_Some j w) as [b Hb]; [lia|].
    rewrite Hb, N.eqb_refl. simpl. apply IH; lia.
Qed.

Section WithWordNet.

Variable wn : str -> bool.

Local Abbreviation make_move := (make_move wn).
Local Abbreviation get_hint := (get_hint wn).
Local Abbreviation _find_path := (Paths._find_path wn).

Lemma find_path_upper_args pf s t :
  _find_path pf (upper s) (upper t) = _find_path pf s t.
Proof. unfold Paths._find_path. by rewrite !upper_idem. Qed.

(** C2.  A rejected move leaves the history and the position alone:
    whenever [make_move] raises, [game.moves] and [game.current_word] are
    what they were before the call. *)
Theorem make_move_atomic ge game word now1 now2 e game' ge' :
  make_move ge game word now1 now2 = (Raise e, game', ge') ->
  moves game' = moves game /\ current_word game' = current_word game.
Proof.
  unfold Engine.make_move.
  destruct (negb (Py.eqb (status game) _)); [by intros [= _ <- _]|].
  destruct (_ && (300 <? _))%bool; [by intros [= _ <- _]|].
  destruct (is_valid_word wn (word_validator ge) (upper word)) as [valid wv].
  assert (Hg : forall g0 : Game,
    g0 = (if match game_mode game with TIMED => true | CLASSIC => false end
          then set_time_elapsed game
                 (timedelta_seconds now1 (created_at game)) else game) ->
    moves g0 = moves game /\ current_word g0 = current_word game).
  { intros g0 ->. by destruct (game_mode game). }
  destruct (negb valid); [intros [= _ <- _]; by apply Hg|].
  destruct (negb (is_one_letter_change _ _)); [intros [= _ <- _]; by apply Hg|].
  destruct (_ || _)%bool; [intros [= _ <- _]; by apply Hg|].
  destruct (Py.eqb (upper word) _).
  - by intros [=].
  - destruct (Paths._find_path _ _ _ _) as [remaining pf]. by intros [=].
Qed.

(** C4.  A move that passes every check completes the game exactly when
    the submitted word, in upper case, is the target; otherwise the game
    stays in progress. *)
Theorem make_move_completes_iff_target ge game word now1 now2 r game' ge' :
  make_move ge game word now1 now2 = (Return r, game', ge') ->
  (status game' = GameStatus_value COMPLETED <-> upper word = target_word game)
  /\ (upper word <> target_word game ->
      status game' = GameStatus_value IN_PROGRESS).
Proof.
  unfold Engine.make_move.
  destruct (Py.eqb (status game) _) eqn:Hst; simpl negb; cbv iota;
    [|by intros [=]].
  apply eqb_eq in Hst.
  destruct (_ && (300 <? _))%bool; [by intros [=]|].
  destruct (is_valid_word wn (word_validator ge) (upper word)) as [valid wv].
  destruct (negb valid); [by intros [=]|].
  destruct (negb (is_one_letter_change _ _)); [by intros [=]|].
  destruct (_ || _)%bool; [by intros [=]|].
  set (g0 := if match game_mode game with TIMED => true | CLASSIC => false end
             then set_time_elapsed game
                    (timedelta_seconds now1 (created_at game)) else game).
  assert (Hg0 : status g0 = status game /\ target_word g0 = target_word game)
    by (subst g0; by destruct (game_mode game)).
  destruct Hg0 as [Hs0 Ht0]. clearbody g0.
  cbn [target_word set_current_word set_moves]. rewrite Ht0.
  destruct (Py.eqb (upper word) (target_word game)) eqn:Heq.
  - apply eqb_eq in Heq. intros [= _ <- _].
    split; [|done]. by destruct (game_mode game).
  - apply eqb_neq in Heq.
    destruct (Paths._find_path _ _ _ _) as [remaining pf].
    intros [= _ <- _].
    destruct (game_mode game);
      cbn [status set_time_elapsed set_current_word set_moves];
      rewrite Hs0, Hst; (split; [split; [discriminate|done]|done]).
Qed.

(** The time check of [make_move], as written: in TIMED mode a move made
    when the seconds field of the elapsed time exceeds 300 abandons the
    game and is rejected. *)
Lemma make_move_time_limit ge game word now1 now2 :
  status game = GameStatus_value IN_PROGRESS ->
  game_mode game = TIMED ->
  300 < timedelta_seconds now1 (created_at game) ->
  make_move ge game word now1 now2
  = (Raise (ValueError "Time limit exceeded"),
     set_status game (GameStatus_value ABANDONED), ge).
Proof.
  intros Hst Hmode Ht. unfold Engine.make_move.
  rewrite Hst, Hmode. simpl negb. cbv iota.
  apply Z.ltb_lt in Ht. by rewrite Ht.
Qed.

(** C3.  A TIMED game that is one day and ten seconds old is not
    abandoned: the check reads the seconds field of the elapsed time,
    which is 10, so the status stays as it was and the move goes on to
    validation. *)
Theorem timed_game_survives_a_day ge id sw tw cw ms diff pid t0 te word now2 :
  let game := mkGame id sw tw cw ms "in_progress" diff TIMED pid t0 te in
  let now1 := t0 + 86410 * 1000000 in
  total_seconds now1 t0 = 86410
  /\ timedelta_seconds now1 t0 = 10
  /\ status (snd (fst (make_move ge game word now1 now2)))
     <> GameStatus_value ABANDONED
  /\ fst (fst (make_move ge game word now1 now2))
     <> Raise (ValueError "Time limit exceeded").
Proof.
  intros game now1.
  assert (Htot : total_seconds now1 t0 = 86410).
  { unfold total_seconds, now1.
    replace (t0 + 86410 * 1000000 - t0) with (86410 * 1000000) by lia.
    by rewrite Z.div_mul. }
  assert (Hsec : timedelta_seconds now1 t0 = 10).
  { unfold timedelta_seconds. unfold total_seconds in Htot. by rewrite Htot. }
  split; [done|]. split; [done|].
  unfold Engine.make_move. cbn [status game_mode created_at game].
  simpl negb. cbv iota. rewrite Hsec. simpl andb. cbv iota.
  destruct (is_valid_word wn (word_validator ge) (upper word)) as [valid wv].
  destruct (negb valid); [done|].
  destruct (negb (is_one_letter_change _ _)); [done|].
  destruct (_ || _)%bool; [done|].
  destruct (Py.eqb (upper word) _); [done|].
  by destruct (Paths._find_path _ _ _ _) as [remaining pf].
Qed.

(** C10.  A game built with the defaults of the model has the status
    "active", which is none of the three statuses of the state machine;
    the engine treats it as finished: every move is rejected with
    "Game is already completed" and every hint is the terminal hint. *)
Theorem default_game_is_terminal class_created id sw tw cw diff mode
    ge word now1 now2 hint_level :
  let game := Game_with_defaults class_created id sw tw cw diff mode in
  status game = "active"
  /\ status game <> GameStatus_value IN_PROGRESS
  /\ status game <> GameStatus_value COMPLETED
  /\ status game <> GameStatus_value ABANDONED
  /\ moves game = []
  /\ make_move ge game word now1 now2
     = (Raise (ValueError "Game is already completed"), game, ge)
  /\ get_hint ge game hint_level
     = (Return (mkHint GENERAL "Game is already completed!" None None), ge).
Proof. intros game. by repeat split. Qed.

(** C7.  When the path finder returns a path of two words or more from
    the (upper case) current word, the level 3 hint is a letter hint
    whose position and letter, substituted into the current word, give
    the second word of that path. *)
Theorem level3_hint_gives_next_word ge game first second rest :
  status game = GameStatus_value IN_PROGRESS ->
  upper (current_word game) = current_word game ->
  fst (_find_path (path_finder ge) (current_word game) (target_word game))
  = Some (first :: second :: rest) ->
  exists i c text,
    fst (get_hint ge game 3)
    = Return (mkHint LETTER text (Some i) (Some ([c])))
    /\ substitute (current_word game) i c = second.
Proof.
  intros Hst Hup Hpath.
  pose proof (find_path_ladder wn _ _ _ _ Hpath) as Hl.
  destruct Hl as (Hhead & _ & Hedge & _); [simpl; lia|].
  simpl in Hhead, Hedge. injection Hhead as ->.
  unfold Graph.word_edge in Hedge.
  rewrite get_possible_words_neighbors in Hedge.
  pose proof (neighbors_upper wn _ _ _ Hedge) as Hsecond.
  apply elem_of_neighbors in Hedge as (_ & i & a & c & Hget & Hne & _ & Hsub).
  rewrite upper_idem, Hup in Hget, Hsub.
  unfold Engine.get_hint. rewrite Hst. simpl negb. cbv iota.
  rewrite find_path_upper_args.
  destruct (_find_path (path_finder ge) (current_word game) (target_word game))
    as [path pf]. simpl in Hpath. subst path.
  cbv iota beta. rewrite Hsecond.
  change (3 =? 1) with false. change (3 =? 2) with false. cbv iota.
  clear Hsecond. subst second.
  rewrite (find_position_letter_substitute _ i a c 0); try done; try lia.
  2:{ apply get_Some_lt in Hget. lia. }
  eexists i, c, _. split; [reflexivity|done].
Qed.

End WithWordNet.

End EngineFacts.
(** ** The theorems on concrete words and games *)

Module Examples.

Import Py PyFacts Lexicon Paths Graph Measures Models Engine Fixtures.
Import LexiconFacts PathFacts LexiconState LexiconExamples EngineFacts.

Local Abbreviation wn := silent_wordnet.

(** C5 at "cold": CORD is among the words returned. *)
Lemma get_possible_words_one_letter_change_witness :
  In (py "CORD") (fst (get_possible_words wn small_validator "cold"))
  /\ (length (py "CORD") = length (upper "cold")
      /\ is_one_letter_change (upper "cold") "CORD" = true)
  /\ (length (upper "cold") = length (py "cold") ->
      length (py "CORD") = length (py "cold")
      /\ is_one_letter_change "cold" "CORD" = true)
  /\ (all_chars is_ascii "cold" = true ->
      length (py "CORD") = length (py "cold")
      /\ is_one_letter_change "cold" "CORD" = true).
Proof.
  assert (H : In (py "CORD") (fst (get_possible_words wn small_validator "cold"))).
  { vm_compute. auto. }
  split; [exact H|].
  exact (get_possible_words_one_letter_change wn small_validator "cold" "CORD" H).
Defined.


(** C6, the counterexample.  On a freshly built path finder, the
    three-character word "ﬁsh" (U+FB01, s, h) fails [is_valid_word], since
    the ligature is no letter of the pattern; still [_find_path] from it
    to FIST returns a path and not [None], because it is the upper-cased
    word FISH that [_find_path] validates.  And for the equal words "cold"
    and "cold" the path returned holds the upper-cased word, not the word
    as passed. *)
Lemma find_path_from_invalid_word :
  let wn := fun _ : str => false in
  let pf := Paths.__init__ None in
  let w : str := [0xfb01; 115; 104]%N in
  valid wn (Paths.word_validator pf) w = false
  /\ upper w <> upper "FIST"
  /\ fst (_find_path wn pf w "FIST") = Some [py "FISH"; py "FIST"]
  /\ fst (_find_path wn pf "cold" "cold") = Some [py "COLD"]
  /\ [py "COLD"] <> [py "cold"].
Proof.
  intros wn pf w. subst pf. unfold Paths.__init__.
  pose proof (fish_and_fist_valid wn None) as Hv.
  revert Hv. generalize (Lexicon.__init__ None 3 8). intros wv Hv.
  cbn [Paths.word_validator].
  assert (Hw : upper w = py "FISH") by (by vm_compute).
  assert (Ht : upper "FIST" = py "FIST") by (by vm_compute).
  split; [|split; [by vm_compute|split; [|split; [|by vm_compute]]]].
  - rewrite valid_eq.
    replace (passes_checks wv w) with false; [done|].
    unfold passes_checks, w. cbv zeta.
    replace (re_class_plus_end is_ascii_letter (strip [64257%N; 115%N; 104%N]))
      with false by (by vm_compute).
    by rewrite andb_false_r.
  - rewrite <- Hw, <- Ht. apply find_path_one_step.
    + cbn [Paths.word_validator]. rewrite Hw. apply Hv. by left.
    + cbn [Paths.word_validator]. rewrite Ht. apply Hv. right. by left.
    + by vm_compute.
    + cbn [Paths.word_validator]. rewrite Hw, Ht.
      unfold Graph.word_edge. rewrite get_possible_words_neighbors.
      change (py "FIST") with (substitute (upper (py "FISH")) 3 84%N).
      apply (neighbors_intro wn wv (py "FISH") 3 72%N 84%N);
        [done|done|vm_compute; tauto|].
      apply Hv. right. by left.
    + cbn [Paths.max_search_depth]. lia.
  - rewrite find_path_eq. by rewrite bool_decide_eq_true_2.
Qed.

(** C6 as the code has it, on "cold" against "COLD" and on "12" against
    "34". *)
Lemma find_path_trivial_cases_witness :
  fst (_find_path wn small_path_finder "cold" "COLD") = Some [upper "cold"]
  /\ fst (_find_path wn small_path_finder "12" "34") = None.
Proof.
  split.
  - apply (proj1 (find_path_trivial_cases wn small_path_finder "cold" "COLD")).
    reflexivity.
  - apply (proj1 (proj2 (find_path_trivial_cases wn small_path_finder "12" "34"))).
    + by vm_compute.
    + left. vm_compute. reflexivity.
Defined.

(** C2 on a non-word: the move is rejected and the game keeps its
    history and position. *)
Lemma make_move_atomic_witness :
  let game := cold_game "WARM" "CORD" [py "CORD"] CLASSIC 0 in
  let result := make_move wn small_engine game "xy" 0 0 in
  fst (fst result) = Raise (ValueError "Invalid word: XY")
  /\ moves (snd (fst result)) = [py "CORD"]
  /\ current_word (snd (fst result)) = "CORD".
Proof.
  intros game result.
  assert (H : result = (Raise (ValueError "Invalid word: XY"),
                        snd (fst result), snd result))
    by (vm_compute; reflexivity).
  split; [by rewrite H|].
  exact (make_move_atomic wn small_engine game "xy" 0 0 _ _ _ H).
Defined.

(** C4 on the last move of the COLD to WARM ladder. *)
Lemma make_move_completes_iff_target_witness :
  let game :=
    cold_game "WARM" "WORM" [py "CORD"; py "WORD"; py "WORM"] CLASSIC 0 in
  let result := make_move wn small_engine game "warm" 0 0 in
  is_target <$> (match fst (fst result) with
                 | Return r => Some r | Raise _ => None end) = Some true
  /\ (status (snd (fst result)) = "completed" <-> upper "warm" = py "WARM")
  /\ (upper "warm" <> py "WARM" -> status (snd (fst result)) = "in_progress").
Proof.
  intros game result.
  assert (H : result =
    (Return (mkMoveResult true 4 [py "CORD"; py "WORD"; py "WORM"; py "WARM"]
       "Congratulations! You've reached the target word in 4 moves."),
     snd (fst result), snd result))
    by (vm_compute; reflexivity).
  split; [by rewrite H|].
  exact (make_move_completes_iff_target wn small_engine game "warm" 0 0 _ _ _ H).
Defined.

(** C7 at COLD with target CARD: the hint names position 2 (counted from
    0) and the letter R, which turn COLD into CORD. *)
Lemma level3_hint_gives_next_word_witness :
  let game := cold_game "CARD" "COLD" [] CLASSIC 0 in
  exists i c text,
    fst (get_hint wn small_engine game 3)
    = Return (mkHint LETTER text (Some i) (Some [c]))
    /\ substitute "COLD" i c = "CORD".
Proof.
  intros game.
  apply (level3_hint_gives_next_word wn small_engine game
           "COLD" "CORD" [py "CARD"]).
  - reflexivity.
  - reflexivity.
  - vm_compute. reflexivity.
Defined.

End Examples.
